(** * Sub-agent architecture of the Lemlist MCP server: a shallow embedding

    The development follows the JavaScript sources

      - [src/sub-agents/routing/TaskComplexityAnalyzer.js]
      - [src/unnamed/part_005] (class [TaskRouter])
      - [src/unnamed/part_004] (class [SpecialistRegistry])
      - [src/sub-agents/quality/QualityAssurance.js]
      - [src/unnamed/part_002] (class [ContextManager] and its stores)
      - [src/sub-agents/SubAgentOrchestrator.js] (classes
        [SubAgentOrchestrator] and [ErrorRecoverySystem])

    Modelling conventions.

    - A task is a record whose fields carry the types of the data model
      (strings, tag arrays, flags, numbers); an absent property is [None]
      (or [false] for a flag that is only tested for truthiness).
    - The numbers of a task, the quality scores, the time to live and the
      expiry of a cache entry, the relevance of a pattern and the
      averages of the specialist metrics are IEEE binary64 numbers,
      computed with the primitive floats ([F64]).  The weighted
      complexity score and the numbers of outcomes and of success
      patterns are exact rationals ([Q]; [NaN] is [None]); the weighted
      complexity score and the success rate of a pattern are evaluated in
      binary64 as well, and where the router compares or rounds the
      complexity score it is the binary64 value that is used.
    - An object literal indexed by a string of the caller finds the
      members it inherits from its prototype ([Proto]): this concerns the
      score tables of the analyzer, the specialist table of the router
      and the tables of [autoEscalateTier] and
      [identifyRequiredExpertise].
    - [Map] instances are association lists in insertion order.
    - [Date.now()] is the [now] field of the state; all readings taken
      during one call are equal.  [Math.random()] is a stream of
      base-36 words.
    - A call either returns or throws ([Completion], and [Exec] for calls
      that work on the state).  The classes are closed: a call of a
      method that no class defines throws the [TypeError] of
      [Missing.method].  Where the data model determines what the source
      does after such a call, that is kept in the model, behind the
      throw.
    - [Array.prototype.sort] on the tag arrays of a task sorts the arrays
      of the task itself ([ContextManager.sortedTags]).
    - The state carries a log of the calls made, [calls], which no code
      reads. *)

From Stdlib Require Import ZArith QArith Qround Qminmax Qabs String Ascii List Bool.
From Stdlib Require Import Lia Lqa DecimalString Floats Uint63 Permutation.
From Stdlib Require Import Sorting.Sorted.
Import ListNotations.

Set Warnings "-register-all".

Local Open Scope string_scope.
Local Open Scope Z_scope.

(** ** JavaScript primitives *)

Module Js.

(** [arr.includes(x)] on an array of strings. *)
Definition includes (x : string) (arr : list string) : bool :=
  existsb (String.eqb x) arr.

(** [arr?.includes(x)] used as a condition: [undefined] is falsy. *)
Definition opt_includes (arr : option (list string)) (x : string) : bool :=
  match arr with
  | Some l => includes x l
  | None => false
  end.

(** [arr?.length > n]: comparing [undefined] with a number is false. *)
Definition length_gt (arr : option (list string)) (n : Z) : bool :=
  match arr with
  | Some l => n <? Z.of_nat (length l)
  | None => false
  end.

(** [arr?.length === n]. *)
Definition length_is (arr : option (list string)) (n : Z) : bool :=
  match arr with
  | Some l => Z.of_nat (length l) =? n
  | None => false
  end.

(** [s === lit] for an optional string property. *)
Definition str_is (s : option string) (lit : string) : bool :=
  match s with
  | Some v => String.eqb v lit
  | None => false
  end.

(** [str.includes(needle)]. *)
Definition str_includes (hay needle : string) : bool :=
  match index 0 needle hay with
  | Some _ => true
  | None => false
  end.

Definition lower_ascii (c : ascii) : ascii :=
  let n := nat_of_ascii c in
  if ((65 <=? n) && (n <=? 90))%nat then ascii_of_nat (n + 32) else c.

(** [str.toLowerCase()] on the ASCII range. *)
Fixpoint toLowerCase (s : string) : string :=
  match s with
  | EmptyString => EmptyString
  | String c r => String (lower_ascii c) (toLowerCase r)
  end.

(** [arr.join(sep)]. *)
Fixpoint join (sep : string) (arr : list string) : string :=
  match arr with
  | [] => ""
  | [x] => x
  | x :: r => x ++ sep ++ join sep r
  end.

(** A template-literal hole [${v}] for an optional string. *)
Definition hole (v : option string) : string :=
  match v with
  | Some s => s
  | None => "undefined"
  end.

(** Truthiness of an optional string: [undefined] and [''] are falsy. *)
Definition truthy_str (v : option string) : bool :=
  match v with
  | Some EmptyString => false
  | Some _ => true
  | None => false
  end.

(** [obj[key]] for an object literal used as a table. *)
Fixpoint assoc {A : Type} (key : string) (l : list (string * A)) : option A :=
  match l with
  | [] => None
  | (k, v) :: r => if String.eqb k key then Some v else assoc key r
  end.

(** [Math.trunc]: the integer part, rounding toward zero. *)
Definition trunc (q : Q) : Z := if Qle_bool 0 q then Qfloor q else Qceiling q.

(** [Math.round] : the nearest integer, halves rounded up. *)
Definition round (q : Q) : Z := Qfloor (q + (1 # 2))%Q.

End Js.

(** ** Members inherited from [Object.prototype] *)

Module Proto.

(** What an object literal finds under a name it does not define: the
    members of [Object.prototype], each with the value of its [length]
    property.  All are functions but [__proto__], which is
    [Object.prototype] itself and has no [length].  Every one of these
    values is truthy. *)
Definition objectMembers : list (string * option Z) :=
  [("constructor", Some 1); ("__defineGetter__", Some 2);
   ("__defineSetter__", Some 2); ("hasOwnProperty", Some 1);
   ("__lookupGetter__", Some 1); ("__lookupSetter__", Some 1);
   ("isPrototypeOf", Some 1); ("propertyIsEnumerable", Some 1);
   ("toString", Some 0); ("valueOf", Some 0); ("__proto__", None);
   ("toLocaleString", Some 0)].

Definition inherited (key : string) : bool :=
  match Js.assoc key objectMembers with
  | Some _ => true
  | None => false
  end.

(** What the empty array [[]] finds under a name other than [length]
    (its own property, [0]): the methods of [Array.prototype] as of
    ECMAScript 2023, its [constructor], and what [Object.prototype] adds.
    [__proto__] is [Array.prototype], an array of length [0]. *)
Definition arrayMembers : list (string * option Z) :=
  [("at", Some 1); ("concat", Some 1); ("copyWithin", Some 2); ("entries", Some 0);
   ("every", Some 1); ("fill", Some 1); ("filter", Some 1); ("find", Some 1);
   ("findIndex", Some 1); ("findLast", Some 1); ("findLastIndex", Some 1);
   ("flat", Some 0); ("flatMap", Some 1); ("forEach", Some 1); ("includes", Some 1);
   ("indexOf", Some 1); ("join", Some 1); ("keys", Some 0); ("lastIndexOf", Some 1);
   ("map", Some 1); ("pop", Some 0); ("push", Some 1); ("reduce", Some 1);
   ("reduceRight", Some 1); ("reverse", Some 0); ("shift", Some 0); ("slice", Some 2);
   ("some", Some 1); ("sort", Some 1); ("splice", Some 2); ("toLocaleString", Some 0);
   ("toReversed", Some 0); ("toSorted", Some 1); ("toSpliced", Some 2);
   ("toString", Some 0); ("unshift", Some 1); ("values", Some 0); ("with", Some 2);
   ("constructor", Some 1); ("__defineGetter__", Some 2);
   ("__defineSetter__", Some 2); ("hasOwnProperty", Some 1);
   ("__lookupGetter__", Some 1); ("__lookupSetter__", Some 1);
   ("isPrototypeOf", Some 1); ("propertyIsEnumerable", Some 1);
   ("valueOf", Some 0); ("__proto__", Some 0)].

End Proto.

(** ** Completions *)

(** The exceptions the code can raise, with their [message]. *)
Inductive JsError : Type :=
| Error (message : string)
| TypeError (message : string)
| RangeError (message : string).

Definition message (e : JsError) : string :=
  match e with
  | Error m => m
  | TypeError m => m
  | RangeError m => m
  end.

(** The outcome of a call: a value, or an exception. *)
Inductive Completion (A : Type) : Type :=
| Return (a : A)
| Throw (e : JsError).

Arguments Return {A} a.
Arguments Throw {A} e.

Module Completion.

Definition bind {A B : Type} (m : Completion A) (k : A -> Completion B) : Completion B :=
  match m with
  | Return a => k a
  | Throw e => Throw e
  end.

Definition returned {A : Type} (m : Completion A) : bool :=
  match m with
  | Return _ => true
  | Throw _ => false
  end.

End Completion.

Declare Scope completion_scope.
Delimit Scope completion_scope with completion.
Notation "x <- m ;; k" := (Completion.bind m (fun x => k))
  (at level 61, m at next level, right associativity) : completion_scope.

Module Missing.

(** The error of [this.name(...)] and of [Class.name(...)] when neither the
    object nor its prototype chain has [name]. *)
Definition notAFunction (callee : string) : JsError :=
  TypeError (callee ++ " is not a function").

(** A call of the instance method [name] that is defined nowhere.  The
    arguments are evaluated by the caller before the call is attempted. *)
Definition method {A : Type} (name : string) : Completion A :=
  Throw (notAFunction ("this." ++ name)).

End Missing.

(** ** JavaScript values and their JSON text *)

(** The values that free-form objects (recommendations, fingerprint keys)
    are built from.  [JNaN] is the number [NaN]. *)
Inductive JsValue : Type :=
| JUndefined
| JNull
| JBool (b : bool)
| JNum (q : Q)
| JNaN
| JStr (s : string)
| JArr (items : list JsValue)
| JObj (props : list (string * JsValue)).

Module Json.

(** [obj[key]]; a missing property reads as [undefined]. *)
Fixpoint lookup (key : string) (props : list (string * JsValue)) : JsValue :=
  match props with
  | [] => JUndefined
  | (k, v) :: r => if String.eqb k key then v else lookup key r
  end.

Definition get (key : string) (v : JsValue) : JsValue :=
  match v with
  | JObj props => lookup key props
  | _ => JUndefined
  end.

(** ToBoolean. *)
Definition truthy (v : JsValue) : bool :=
  match v with
  | JUndefined | JNull | JNaN => false
  | JBool b => b
  | JNum q => negb (Qeq_bool q 0)
  | JStr s => negb (String.eqb s "")
  | JArr _ | JObj _ => true
  end.

Definition of_strings (l : list string) : JsValue := JArr (map JStr l).

Definition quote : string := String (ascii_of_nat 34) "".
Definition backslash : string := String (ascii_of_nat 92) "".

Definition hex_digit (n : nat) : string :=
  String (ascii_of_nat (if (n <? 10)%nat then 48 + n else 87 + n)) "".

(** One character of a JSON string literal. *)
Definition escape_char (c : ascii) : string :=
  let n := nat_of_ascii c in
  if (n =? 34)%nat then backslash ++ quote
  else if (n =? 92)%nat then backslash ++ backslash
  else if (n =? 8)%nat then backslash ++ "b"
  else if (n =? 9)%nat then backslash ++ "t"
  else if (n =? 10)%nat then backslash ++ "n"
  else if (n =? 12)%nat then backslash ++ "f"
  else if (n =? 13)%nat then backslash ++ "r"
  else if (n <? 32)%nat then
    backslash ++ "u00" ++ hex_digit (n / 16) ++ hex_digit (n mod 16)
  else String c "".

Fixpoint escape (s : string) : string :=
  match s with
  | EmptyString => ""
  | String c r => escape_char c ++ escape r
  end.

Definition string_literal (s : string) : string := quote ++ escape s ++ quote.

Definition decimal (z : Z) : string := NilZero.string_of_int (Z.to_int z).

(** Digits after the decimal point of [r / d], for [0 <= r < d]; the
    expansion stops when it terminates or after [fuel] digits. *)
Fixpoint fraction_digits (fuel : nat) (r d : Z) : string :=
  match fuel with
  | O => ""
  | S fuel' =>
      if r =? 0 then ""
      else decimal ((10 * r) / d) ++ fraction_digits fuel' ((10 * r) mod d) d
  end.

(** Text of a finite number: integers in plain decimal, other values
    by their decimal expansion (at most 17 fractional digits). *)
Definition number (q : Q) : string :=
  let n := Qnum q in
  let d := Z.pos (Qden q) in
  let a := Z.abs n in
  let body :=
    if a mod d =? 0 then decimal (a / d)
    else decimal (a / d) ++ "." ++ fraction_digits 17 (a mod d) d in
  if (n <? 0) && negb (a =? 0) then "-" ++ body else body.

(** Members of an array or object text, separated by commas. *)
Definition commas (l : list string) : string := Js.join "," l.

(** [JSON.stringify(v)] for a value nested in an array or under a
    property; [None] stands for [undefined] (the member is dropped
    from objects and written [null] in arrays). *)
Fixpoint stringify_opt (v : JsValue) : option string :=
  match v with
  | JUndefined => None
  | JNull | JNaN => Some "null"
  | JBool true => Some "true"
  | JBool false => Some "false"
  | JNum q => Some (number q)
  | JStr s => Some (string_literal s)
  | JArr items =>
      Some ("[" ++ commas (map (fun x => match stringify_opt x with
                                         | Some t => t
                                         | None => "null"
                                         end) items) ++ "]")
  | JObj props =>
      Some ("{" ++ commas
             ((fix members (l : list (string * JsValue)) : list string :=
                 match l with
                 | [] => []
                 | (k, x) :: r =>
                     match stringify_opt x with
                     | Some t => (string_literal k ++ ":" ++ t) :: members r
                     | None => members r
                     end
                 end) props) ++ "}")
  end.

(** [JSON.stringify(v)] for an object or array [v]. *)
Definition stringify (v : JsValue) : string :=
  match stringify_opt v with
  | Some t => t
  | None => "undefined"
  end.

End Json.

(** ** 32-bit integers and the string hash *)

Module Int32.

(** ToInt32: wrap a mathematical integer into [-2^31, 2^31). *)
Definition wrap (z : Z) : Z := (z + 2 ^ 31) mod 2 ^ 32 - 2 ^ 31.

(** [x << n] on 32-bit integers. *)
Definition shl (x : Z) (n : Z) : Z := wrap (Z.shiftl (wrap x) n).

(** [x & y] on 32-bit integers. *)
Definition and (x y : Z) : Z := wrap (Z.land (wrap x) (wrap y)).

Definition digit36 (n : Z) : string :=
  String (ascii_of_nat (Z.to_nat (if n <? 10 then 48 + n else 87 + n))) "".

Fixpoint base36_go (fuel : nat) (n : Z) (acc : string) : string :=
  match fuel with
  | O => acc
  | S fuel' =>
      let acc' := digit36 (n mod 36) ++ acc in
      if n / 36 =? 0 then acc' else base36_go fuel' (n / 36) acc'
  end.

(** [n.toString(36)] for a non-negative integer. *)
Definition toString36 (n : Z) : string :=
  base36_go (S (Z.to_nat (Z.log2 n))) n "".

End Int32.

(** ** Numbers that may be [NaN] *)

Module Num.

(** A JavaScript number: [None] is [NaN]. *)
Definition t : Type := option Q.

Definition add (a b : t) : t :=
  match a, b with
  | Some x, Some y => Some (x + y)%Q
  | _, _ => None
  end.

Definition mul (a b : t) : t :=
  match a, b with
  | Some x, Some y => Some (x * y)%Q
  | _, _ => None
  end.

(** [a / d] for a divisor known to be a non-zero constant. *)
Definition div_by (a : t) (d : Q) : t :=
  match a with
  | Some x => Some (x / d)%Q
  | None => None
  end.

(** [a <= b]: every comparison with [NaN] is false. *)
Definition leb (a : t) (b : Q) : bool :=
  match a with
  | Some x => Qle_bool x b
  | None => false
  end.

(** An integer score that may be [NaN], as a number. *)
Definition of_score (z : option Z) : t := option_map inject_Z z.

End Num.
(** ** Data model *)

(** One entry of the [checks] object of a quality validation: the
    properties that the validation reads.  [riskLevel] is present on the
    risk assessment only. *)
Record Check := mkCheck {
  passed : bool;
  score : float;
  riskLevel : option string
}.

Record Checks := mkChecks {
  expertiseAlignment : Check;
  recommendationQuality : Check;
  implementationViability : Check;
  riskAssessment : Check;
  consistencyCheck : Check;
  securityCheck : Check
}.

Record Improvement := mkImprovement {
  area : string;
  improvement_score : float;
  suggestion : string
}.

(** Result of [QualityAssurance.validateSpecialistRecommendation]. *)
Record QualityValidation := mkQualityValidation {
  qv_passed : bool;
  qv_score : float;
  qv_checks : Checks;
  improvements : list Improvement;
  escalationNeeded : bool;
  qualityGrade : string;
  qv_timestamp : Z
}.

(** Normalised shape of a task, as [ContextManager.normalizeTask] builds it. *)
Record NormalizedTask := mkNormalizedTask {
  n_domain : option string;
  n_technologies : list string;
  n_complexity : float;
  n_patterns : list string;
  n_requirements : list string
}.

(** The [outcome] object that [processTask] hands to the pattern library. *)
Record Outcome := mkOutcome {
  successful : bool;
  outcome_result : JsValue;
  executionTime : Num.t;
  qualityScore : Num.t;
  userSatisfaction : Num.t;
  implementationTime : Num.t
}.

Record SuccessMetrics := mkSuccessMetrics {
  sm_qualityScore : Num.t;
  sm_userSatisfaction : Num.t;
  sm_implementationTime : Num.t;
  sm_count : option Z
}.

(** A specialist as the code passes it around: the name of a catalogue
    entry, [null] (the router found no candidate) or [undefined]. *)
Inductive Specialist : Type :=
| Named (name : string)
| Null
| Undefined.

Module SpecialistId.

(** [`${specialist}`]. *)
Definition text (specialist : Specialist) : string :=
  match specialist with
  | Named name => name
  | Null => "null"
  | Undefined => "undefined"
  end.

(** Equality of [Map] keys. *)
Definition eqb (a b : Specialist) : bool :=
  match a, b with
  | Named x, Named y => String.eqb x y
  | Null, Null => true
  | Undefined, Undefined => true
  | _, _ => false
  end.

End SpecialistId.

(** A success pattern of the pattern library. *)
Record Pattern := mkPattern {
  pattern_id : string;
  pattern_task : NormalizedTask;
  pattern_specialist : Specialist;
  approach : JsValue;
  pattern_outcome : Outcome;
  successMetrics : SuccessMetrics;
  pattern_timestamp : Z;
  usageCount : Z;
  successRate : Q;
  pattern_context : JsValue;
  lastUsed : option Z;
  relevanceScore : option float
}.

(** A task, the escalation envelope that [handleQualityFailure] attaches
    to it, and the consultation the envelope refers to.  The two numbers
    of a task are doubles. *)
Inductive Task : Type := mkTask {
  description : option string;
  domain : option string;
  complexity : option float;
  complexityScore : option float;
  scope : option string;
  files : option (list string);
  integrations : option (list string);
  governance : bool;
  databases : option (list string);
  apis : option (list string);
  services : option (list string);
  crossTeam : bool;
  technologies : option (list string);
  patterns : option (list string);
  requirements : option (list string);
  performance_requirements : option (list string);
  scalability : option (list string);
  compliance : option (list string);
  businessLogic : option (list string);
  dataRisk : option (list string);
  systemRisk : option (list string);
  implementationRisk : option (list string);
  timeline_pressure : option string;
  implementation : option string;
  escalation : option Escalation
}
with Escalation : Type := mkEscalation {
  esc_from : string;
  esc_reason : option string;
  previousConsultation : Consultation
}
with Consultation : Type := mkConsultation {
  specialist : Specialist;
  task : Task;
  recommendation : JsValue;
  consultation_patterns : list Pattern;
  consultation_timestamp : Z;
  result : JsValue;
  consultation_outcome : option Outcome;
  consultation_routing : JsValue;
  quality : option QualityValidation
}.

(** The task with no property set. *)
Definition empty_task : Task :=
  mkTask None None None None None None None false None None None false
         None None None None None None None None None None None None None.

(** [{ ...task, complexity: c }]. *)
Definition with_complexity (c : option float) (t : Task) : Task :=
  mkTask (description t) (domain t) c (complexityScore t) (scope t) (files t)
         (integrations t) (governance t) (databases t) (apis t) (services t)
         (crossTeam t) (technologies t) (patterns t) (requirements t)
         (performance_requirements t) (scalability t) (compliance t)
         (businessLogic t) (dataRisk t) (systemRisk t) (implementationRisk t)
         (timeline_pressure t) (implementation t) (escalation t).

(** [{ ...task, escalation: e }]. *)
Definition with_escalation (e : Escalation) (t : Task) : Task :=
  mkTask (description t) (domain t) (complexity t) (complexityScore t) (scope t)
         (files t) (integrations t) (governance t) (databases t) (apis t)
         (services t) (crossTeam t) (technologies t) (patterns t)
         (requirements t) (performance_requirements t) (scalability t)
         (compliance t) (businessLogic t) (dataRisk t) (systemRisk t)
         (implementationRisk t) (timeline_pressure t) (implementation t)
         (Some e).

(** [consultation.quality = q]. *)
Definition with_quality (q : QualityValidation) (c : Consultation) : Consultation :=
  mkConsultation (specialist c) (task c) (recommendation c)
                 (consultation_patterns c) (consultation_timestamp c) (result c)
                 (consultation_outcome c) (consultation_routing c) (Some q).

(** The four sub-scores.  The domain score is the only one that can be
    [NaN] ([None]). *)
Record Complexity := mkComplexity {
  c_scope : Z;
  c_technical : Z;
  c_domain : option Z;
  c_risk : Z
}.

(** Result of [TaskComplexityAnalyzer.analyzeTask]. *)
Record ComplexityAnalysis := mkComplexityAnalysis {
  overallScore : Num.t;
  tier : string;
  breakdown : Complexity;
  confidence : Q;
  recommendations : list string
}.
(** ** IEEE binary64 *)

Module F64.

(** The double of a non-negative integer below [2^63]; exact below [2^53]. *)
Definition of_Z (z : Z) : float := PrimFloat.of_uint63 (Uint63.of_Z z).

(** The double nearest to an integer of either sign. *)
Definition of_int (z : Z) : float := SF2Prim (binary_normalize prec emax z 0 false).

(** The double nearest to a rational whose numerator and denominator are
    below [2^53] in absolute value: one division of two exact operands.
    This is the value a number property holds when the rational is its
    decimal reading. *)
Definition of_Q (q : Q) : float := (of_int (Qnum q) / of_int (Zpos (Qden q)))%float.

(** The rational a finite double stands for. *)
Definition to_Q (f : float) : option Q :=
  match Prim2SF f with
  | S754_zero _ => Some 0%Q
  | S754_finite s m e =>
      Some (inject_Z (if s then Zneg m else Zpos m) * Qpower 2 e)%Q
  | S754_infinity _ => None
  | S754_nan => None
  end.

(** A number property read as a number: [undefined] gives [NaN]. *)
Definition number (a : option float) : float :=
  match a with
  | Some x => x
  | None => PrimFloat.nan
  end.

(** Truthiness of a number: [NaN] and the zeros are falsy. *)
Definition truthy (a : float) : bool :=
  negb (PrimFloat.is_nan a || PrimFloat.is_zero a).

(** [a || d] for a number property. *)
Definition or_else (a : option float) (d : float) : float :=
  if truthy (number a) then number a else d.

(** The least negative double, [-2^-1074]. *)
Definition leastNegative : float := (-0x1p-1074)%float.

(** [Math.floor(x / 2) * 2].  The quotient of a double by 2 is exact, so
    that its floor is the floor of the exact half; and twice that integer
    is a double again.  The one exception is [leastNegative], whose half
    is rounded to [-0].  Infinities and [NaN] are left as they are. *)
Definition evenFloor (x : float) : float :=
  if PrimFloat.eqb x leastNegative then (-0)%float
  else match to_Q x with
       | Some q => of_int (2 * Qfloor (q / 2))
       | None => x
       end.

(** [Math.abs(x)]. *)
Definition abs (x : float) : float := PrimFloat.abs x.

(** A double as a value whose JSON text is wanted: [NaN] and the
    infinities are written [null]. *)
Definition to_js (x : float) : JsValue :=
  match to_Q x with
  | Some q => JNum q
  | None => JNaN
  end.

(** A double as an exact number, where the model computes exactly; [NaN]
    for a value that is not finite. *)
Definition to_num (x : float) : Num.t := to_Q x.

(** [Math.round(x)] of a finite double, as an integer. *)
Definition round (x : float) : option Z := option_map Js.round (to_Q x).

(** [Math.min(a, b)]. *)
Definition min (a b : float) : float :=
  if PrimFloat.is_nan a || PrimFloat.is_nan b then PrimFloat.nan
  else if PrimFloat.eqb a b then (if PrimFloat.get_sign a then a else b)
  else if PrimFloat.ltb a b then a else b.

(** [Math.max(a, b)]. *)
Definition max (a b : float) : float :=
  if PrimFloat.is_nan a || PrimFloat.is_nan b then PrimFloat.nan
  else if PrimFloat.eqb a b then (if PrimFloat.get_sign a then b else a)
  else if PrimFloat.ltb a b then b else a.

(** A sub-score as a double. *)
Definition of_score (z : option Z) : float :=
  match z with
  | Some v => of_Z v
  | None => PrimFloat.nan
  end.

(** [scope * 0.3 + technical * 0.3 + domain * 0.25 + risk * 0.15],
    evaluated left to right in double precision. *)
Definition overallScore (c : Complexity) : float :=
  (of_Z (c_scope c) * 0x1.3333333333333p-2
   + of_Z (c_technical c) * 0x1.3333333333333p-2
   + of_score (c_domain c) * 0.25
   + of_Z (c_risk c) * 0x1.3333333333333p-3)%float.

Definition tier (score : float) : string :=
  if PrimFloat.leb score 3 then "DIRECT"
  else if PrimFloat.leb score 6 then "TIER_1"
  else if PrimFloat.leb score 8 then "TIER_2"
  else "TIER_3".

(** [(pattern.successRate * (pattern.usageCount - 1) +
      (outcome.successful ? 1 : 0)) / pattern.usageCount] of
    [updatePatternUsage], where [usageCount] is the count already
    incremented, in double precision. *)
Definition successRate (rate : float) (usageCount : Z) (outcome : Outcome) : float :=
  ((rate * of_Z (usageCount - 1) + (if successful outcome then 1 else 0))
   / of_Z usageCount)%float.

(** [usageCount] and [successRate] of a pattern after [updatePatternUsage]
    for each outcome of a list, in order, starting from the values of a
    pattern in [usage]. *)
Definition reuseFrom (usage : Z * float) (outcomes : list Outcome) : Z * float :=
  fold_left (fun p o => (fst p + 1, successRate (snd p) (fst p + 1) o)) outcomes usage.

(** The same from [usageCount: 1, successRate: 1.0], the values that
    [storeSuccessPattern] gives a new pattern. *)
Definition reuse (outcomes : list Outcome) : Z * float :=
  reuseFrom (1, 1%float) outcomes.

End F64.

(** ** Dates *)

Module Date.

(** The largest time value, in milliseconds either side of the epoch. *)
Definition maxTime : Z := 8640000000000000.

(** The time value of [new Date(v)] for a number [v]: its integer part,
    or [NaN] ([None]) when [v] is not finite or lies beyond [maxTime]. *)
Definition timeClip (v : float) : option Z :=
  match F64.to_Q v with
  | Some q =>
      let tv := Js.trunc q in
      if Z.abs tv <=? maxTime then Some tv else None
  | None => None
  end.

(** [date.toISOString()].  The text is identified with the time value it
    denotes; an invalid date has no text. *)
Definition toISOString (tv : option Z) : Completion Z :=
  match tv with
  | Some ms => Return ms
  | None => Throw (RangeError "Invalid time value")
  end.

End Date.

(** ** TaskComplexityAnalyzer *)

Module TaskComplexityAnalyzer.

(** [if (c) score += k]. *)
Definition bump (c : bool) (k : Z) : Z := if c then k else 0.

Definition analyzeScopeComplexity (t : Task) : Z :=
  let score :=
    if Js.str_is (scope t) "single-function" || Js.length_is (files t) 1 then 1
    else if Js.length_gt (files t) 1
            && match files t with
               | Some l => Z.of_nat (length l) <=? 5
               | None => false
               end then 3
    else if Js.length_gt (files t) 5 || Js.str_is (scope t) "system-wide" then 5
    else if Js.str_is (scope t) "cross-system" || Js.length_gt (integrations t) 0 then 8
    else if Js.str_is (scope t) "enterprise" || governance t then 10
    else 1 in
  let score := score + bump (Js.length_gt (databases t) 1) 2 in
  let score := score + bump (Js.length_gt (apis t) 3) 2 in
  let score := score + bump (Js.length_gt (services t) 2) 3 in
  let score := score + bump (crossTeam t) 2 in
  Z.min score 10.

Definition complexTechnologies : list string :=
  ["microservices"; "distributed-systems"; "blockchain";
   "machine-learning"; "real-time-processing"; "streaming"].

Definition complexPatterns : list string :=
  ["event-sourcing"; "cqrs"; "saga"; "circuit-breaker";
   "distributed-transactions"; "consensus-algorithms"].

(** [arr?.some(x => table.includes(x))]. *)
Definition some_in (arr : option (list string)) (table : list string) : bool :=
  match arr with
  | Some l => existsb (fun x => Js.includes x table) l
  | None => false
  end.

Definition analyzeTechnicalComplexity (t : Task) : Z :=
  let score := 1 in
  let score := score + bump (some_in (technologies t) complexTechnologies) 3 in
  let score := score + bump (some_in (patterns t) complexPatterns) 4 in
  let score :=
    match integrations t with
    | Some l =>
        if 0 <? Z.of_nat (length l)
        then score + Z.min (Z.of_nat (length l) * 2) 6
        else score
    | None => score
    end in
  let score := score + bump (Js.opt_includes (performance_requirements t) "sub-second") 3 in
  let score := score + bump (Js.opt_includes (performance_requirements t) "high-throughput") 2 in
  let score := score + bump (Js.opt_includes (performance_requirements t) "real-time") 4 in
  let score := score + bump (Js.opt_includes (scalability t) "horizontal") 2 in
  let score := score + bump (Js.opt_includes (scalability t) "auto-scaling") 3 in
  let score := score + bump (Js.opt_includes (scalability t) "global-distribution") 4 in
  Z.min score 10.

Definition complexDomains : list (string * Z) :=
  [("financial", 4); ("healthcare", 5); ("security", 4); ("ml-ai", 5);
   ("blockchain", 6); ("embedded", 4); ("real-time", 4);
   ("distributed-systems", 5); ("data-science", 4)].

Definition complianceComplexity : list (string * Z) :=
  [("gdpr", 3); ("hipaa", 4); ("pci-dss", 4); ("sox", 3);
   ("iso-27001", 3); ("fda", 5)].

(** [if (table[key]) score += table[key]].  An own key adds its number.
    A key that names a member of [Object.prototype] finds that member,
    which is truthy, and [+=] makes the score a string; so does every
    later [+=].  Any other key leaves the score as it is.  [None] is a
    score that has become a string. *)
Definition add_entry (table : list (string * Z)) (score : option Z) (key : string)
  : option Z :=
  match Js.assoc key table with
  | Some k => if k =? 0 then score else option_map (fun s => s + k) score
  | None => if Proto.inherited key then None else score
  end.

(** The result is [Math.min(score, 10)]: [NaN] ([None]) for a score that
    has become a string, whose text is not that of a number. *)
Definition analyzeDomainComplexity (t : Task) : option Z :=
  let score := Some 1 in
  let score :=
    match domain t with
    | Some d => add_entry complexDomains score d
    | None => score
    end in
  let score :=
    match compliance t with
    | Some l => fold_left (add_entry complianceComplexity) l score
    | None => score
    end in
  let add k := option_map (fun s => s + k) in
  let score := add (bump (Js.opt_includes (businessLogic t) "complex-calculations") 2) score in
  let score := add (bump (Js.opt_includes (businessLogic t) "multi-step-workflows") 3) score in
  let score := add (bump (Js.opt_includes (businessLogic t) "state-machines") 3) score in
  let score := add (bump (Js.opt_includes (businessLogic t) "rule-engines") 4) score in
  option_map (fun s => Z.min s 10) score.

Definition analyzeRiskLevel (t : Task) : Z :=
  let score := 1 in
  let score := score + bump (Js.opt_includes (dataRisk t) "pii") 3 in
  let score := score + bump (Js.opt_includes (dataRisk t) "financial") 4 in
  let score := score + bump (Js.opt_includes (dataRisk t) "medical") 4 in
  let score := score + bump (Js.opt_includes (dataRisk t) "sensitive") 2 in
  let score := score + bump (Js.opt_includes (systemRisk t) "production-critical") 4 in
  let score := score + bump (Js.opt_includes (systemRisk t) "revenue-impacting") 3 in
  let score := score + bump (Js.opt_includes (systemRisk t) "user-facing") 2 in
  let score := score + bump (Js.opt_includes (systemRisk t) "data-loss-potential") 5 in
  let score := score + bump (Js.opt_includes (implementationRisk t) "breaking-changes") 3 in
  let score := score + bump (Js.opt_includes (implementationRisk t) "migration-required") 4 in
  let score := score + bump (Js.opt_includes (implementationRisk t) "rollback-difficult") 3 in
  let score := score + bump (Js.opt_includes (implementationRisk t) "external-dependencies") 2 in
  let score := score + bump (Js.str_is (timeline_pressure t) "urgent") 2 in
  let score := score + bump (Js.str_is (timeline_pressure t) "critical") 4 in
  Z.min score 10.

(** [score > k] for a sub-score: false for [NaN]. *)
Definition exceeds (k : Z) (s : option Z) : bool :=
  match s with
  | Some v => k <? v
  | None => false
  end.

Definition calculateConfidence (c : Complexity) : Q :=
  let indicators :=
    filter (exceeds 1)
           [Some (c_scope c); Some (c_technical c); c_domain c; Some (c_risk c)] in
  Qmin (inject_Z (Z.of_nat (length indicators)) * (1 # 4)) 1.

Definition generateRecommendations (c : Complexity) (tier : string) : list string :=
  (if 7 <? c_scope c then ["Consider breaking down into smaller tasks"] else [])
  ++ (if 8 <? c_technical c then ["Require multiple technical specialists"] else [])
  ++ (if exceeds 6 (c_domain c) then ["Domain expert consultation required"] else [])
  ++ (if 7 <? c_risk c then ["Implement comprehensive risk mitigation"] else [])
  ++ (if String.eqb tier "TIER_3" then ["Cross-domain architectural review needed"] else []).

Definition calculateOverallComplexity (c : Complexity) : ComplexityAnalysis :=
  let score :=
    Num.add
      (Num.add
         (Num.add (Some (inject_Z (c_scope c) * (3 # 10))%Q)
                  (Some (inject_Z (c_technical c) * (3 # 10))%Q))
         (Num.mul (Num.of_score (c_domain c)) (Some (1 # 4))))
      (Some (inject_Z (c_risk c) * (15 # 100))%Q) in
  let tier :=
    if Num.leb score 3 then "DIRECT"
    else if Num.leb score 6 then "TIER_1"
    else if Num.leb score 8 then "TIER_2"
    else "TIER_3" in
  mkComplexityAnalysis score tier c (calculateConfidence c)
                       (generateRecommendations c tier).

Definition analyzeTask (t : Task) : ComplexityAnalysis :=
  calculateOverallComplexity
    (mkComplexity (analyzeScopeComplexity t) (analyzeTechnicalComplexity t)
                  (analyzeDomainComplexity t) (analyzeRiskLevel t)).

End TaskComplexityAnalyzer.
(** ** SpecialistRegistry *)

(** The properties of a registry entry that the orchestrator reads. *)
Record SpecialistInfo := mkSpecialistInfo {
  name : string;
  specialist_domain : string;
  specialist_technologies : list string;
  estimatedTime : string;
  specialist_tier : Z
}.

Module SpecialistRegistry.

Definition tier1 : list (string * SpecialistInfo) :=
  [("architecture-generalist",
    mkSpecialistInfo "Architecture Generalist" "System design, scalability, patterns"
      ["microservices"; "design-patterns"; "scalability"; "system-design"] "2-4 hours" 1);
   ("security-generalist",
    mkSpecialistInfo "Security Generalist" "Authentication, authorization, data protection"
      ["oauth"; "jwt"; "encryption"; "api-security"] "2-4 hours" 1);
   ("performance-generalist",
    mkSpecialistInfo "Performance Generalist" "Optimization, caching, scaling, monitoring"
      ["caching"; "monitoring"; "profiling"; "optimization"] "2-4 hours" 1);
   ("data-generalist",
    mkSpecialistInfo "Data Generalist" "Database design, modeling, analytics"
      ["sql"; "nosql"; "data-modeling"; "analytics"] "2-4 hours" 1);
   ("integration-generalist",
    mkSpecialistInfo "Integration Generalist" "APIs, third-party services, microservices"
      ["rest"; "graphql"; "webhooks"; "microservices"] "2-4 hours" 1);
   ("frontend-generalist",
    mkSpecialistInfo "Frontend Generalist" "UI/UX, responsive design, accessibility"
      ["react"; "vue"; "angular"; "css"; "javascript"] "2-4 hours" 1)].

Definition tier2 : list (string * SpecialistInfo) :=
  [("database-specialist",
    mkSpecialistInfo "Database Specialist" "PostgreSQL, Redis, performance tuning"
      ["postgresql"; "redis"; "mongodb"; "query-optimization"] "8-16 hours" 2);
   ("api-design-specialist",
    mkSpecialistInfo "API Design Specialist" "REST, GraphQL, versioning"
      ["rest"; "graphql"; "openapi"; "api-versioning"] "8-16 hours" 2);
   ("auth-systems-specialist",
    mkSpecialistInfo "Auth Systems Specialist" "OAuth, JWT, SSO, MFA"
      ["oauth2"; "saml"; "jwt"; "mfa"; "sso"] "8-16 hours" 2);
   ("performance-optimization-specialist",
    mkSpecialistInfo "Performance Optimization Specialist" "Profiling, memory/CPU optimization"
      ["profiling"; "memory-optimization"; "monitoring"; "apm"] "8-16 hours" 2);
   ("ml-integration-specialist",
    mkSpecialistInfo "ML Integration Specialist" "ML APIs, model serving, AI integration"
      ["tensorflow"; "pytorch"; "ml-apis"; "model-serving"] "8-16 hours" 2);
   ("testing-strategy-specialist",
    mkSpecialistInfo "Testing Strategy Specialist" "Test automation, CI/CD, frameworks"
      ["jest"; "cypress"; "ci-cd"; "test-automation"] "8-16 hours" 2)].

Definition tier3 : list (string * SpecialistInfo) :=
  [("system-architect",
    mkSpecialistInfo "System Architect" "Enterprise architecture, cross-domain coordination"
      ["enterprise-architecture"; "system-design"; "governance"] "24-48 hours" 3);
   ("integration-architect",
    mkSpecialistInfo "Integration Architect" "Service mesh, enterprise integration patterns"
      ["service-mesh"; "event-driven"; "distributed-systems"] "24-48 hours" 3);
   ("scale-architect",
    mkSpecialistInfo "Scale Architect" "Horizontal scaling, distributed systems"
      ["horizontal-scaling"; "load-balancing"; "fault-tolerance"] "24-48 hours" 3);
   ("security-architect",
    mkSpecialistInfo "Security Architect" "Security governance, compliance, threat modeling"
      ["enterprise-security"; "compliance"; "threat-modeling"] "24-48 hours" 3);
   ("data-architect",
    mkSpecialistInfo "Data Architect" "Data lakes, warehouses, governance"
      ["data-lakes"; "data-warehouses"; "data-governance"] "24-48 hours" 3);
   ("governance-architect",
    mkSpecialistInfo "Governance Architect" "Compliance, policy enforcement, governance"
      ["governance"; "compliance"; "policy-enforcement"] "24-48 hours" 3)].

Definition getAllSpecialists : list (string * SpecialistInfo) :=
  tier1 ++ tier2 ++ tier3.

Fixpoint find (id : string) (l : list (string * SpecialistInfo)) : option SpecialistInfo :=
  match l with
  | [] => None
  | (k, v) :: r => if String.eqb k id then Some v else find id r
  end.

(** [allSpecialists[specialistId]] for an id that the router selects:
    [null] and [undefined] find nothing. *)
Definition getSpecialistCapabilities (specialistId : Specialist) : option SpecialistInfo :=
  match specialistId with
  | Named id => find id getAllSpecialists
  | Null | Undefined => None
  end.

End SpecialistRegistry.
(** ** TaskRouter *)

(** The [...options] of a [processTask] call. *)
Record Options := mkOptions {
  useCache : option bool;
  option_tier : option string;
  retry : bool
}.

Definition no_options : Options := mkOptions None None false.

(** The [context] argument of [TaskRouter.route]. *)
Record RouteContext := mkRouteContext {
  context_projectContext : JsValue;
  context_taskId : string;
  context_options : Options
}.

(** Result of [TaskRouter.route]; the [routing] sub-object is flattened
    into the [routing_] fields.  [estimatedTime] is [None] when it is
    [NaN]. *)
Record RoutingDecision := mkRoutingDecision {
  routing_complexity : ComplexityAnalysis;
  routing_specialist : Specialist;
  protocol : option string;
  routing_estimatedTime : option Z;
  qualityChecks : list string;
  routing_tier : string;
  routing_confidence : Q;
  routing_timestamp : Z;
  routing_context : RouteContext
}.

(** What [specialistMapping] holds for a tier: an object keyed by domain,
    or the empty array of [DIRECT]. *)
Inductive TierEntry : Type :=
| ByDomain (specialists : list (string * list string))
| NoSpecialists.

(** The value of [specialistMapping[tier]?.[domain] ||
    specialistMapping[tier]?.['general'] || []]: an array of names, or a
    member that the entry of the tier inherits from its prototype, given
    by its [length]. *)
Inductive Candidates : Type :=
| Listed (names : list string)
| Member (length : option Z).

(** Capabilities as [TaskRouter.getSpecialistCapabilities] tabulates them;
    the empty object [{}] has no property. *)
Record RouterCapabilities := mkRouterCapabilities {
  domains : option (list string);
  capability_technologies : option (list string);
  minComplexity : option Q;
  maxComplexity : option Q
}.

Module TaskRouter.

Definition domainKeywords : list (string * list string) :=
  [("data", ["database"; "query"; "analytics"; "etl"; "warehouse"; "lake"]);
   ("security", ["auth"; "oauth"; "jwt"; "encryption"; "vulnerability"; "compliance"]);
   ("performance", ["optimization"; "caching"; "scaling"; "latency"; "throughput"]);
   ("integration", ["api"; "webhook"; "service"; "microservice"; "messaging"]);
   ("frontend", ["ui"; "ux"; "react"; "vue"; "angular"; "component"]);
   ("architecture", ["design"; "pattern"; "structure"; "system"; "scalability"]);
   ("ml", ["machine-learning"; "ai"; "model"; "prediction"; "classification"]);
   ("testing", ["test"; "qa"; "automation"; "ci/cd"; "deployment"])].

(** [arr?.join(' ')] inside a template literal. *)
Definition joined (arr : option (list string)) : option string :=
  match arr with
  | Some l => Some (Js.join " " l)
  | None => None
  end.

Definition taskText (t : Task) : string :=
  Js.toLowerCase (Js.hole (description t) ++ " " ++ Js.hole (joined (requirements t))
                  ++ " " ++ Js.hole (joined (technologies t))).

(** The [for ... of Object.entries(domainKeywords)] loop. *)
Fixpoint firstDomain (text : string) (table : list (string * list string)) : string :=
  match table with
  | [] => "general"
  | (d, keywords) :: r =>
      if existsb (fun keyword => Js.str_includes text keyword) keywords then d
      else firstDomain text r
  end.

Definition identifyDomain (t : Task) : string :=
  if Js.truthy_str (domain t) then Js.hole (domain t)
  else firstDomain (taskText t) domainKeywords.

Definition specialistMapping : list (string * TierEntry) :=
  [("DIRECT", NoSpecialists);
   ("TIER_1",
    ByDomain
      [("data", ["data-generalist"]); ("security", ["security-generalist"]);
       ("performance", ["performance-generalist"]);
       ("integration", ["integration-generalist"]);
       ("frontend", ["frontend-generalist"]);
       ("architecture", ["architecture-generalist"]);
       ("general", ["architecture-generalist"])]);
   ("TIER_2",
    ByDomain
      [("data", ["database-specialist"]); ("security", ["auth-systems-specialist"]);
       ("performance", ["performance-optimization-specialist"]);
       ("integration", ["api-design-specialist"]);
       ("ml", ["ml-integration-specialist"]);
       ("testing", ["testing-strategy-specialist"]);
       ("general", ["database-specialist"; "api-design-specialist"])]);
   ("TIER_3",
    ByDomain
      [("data", ["data-architect"]); ("security", ["security-architect"]);
       ("integration", ["integration-architect"]);
       ("architecture", ["system-architect"]); ("scale", ["scale-architect"]);
       ("governance", ["governance-architect"]);
       ("general", ["system-architect"])])].

(** [entry[key]] when it is truthy.  An array of the table is found under
    its own key; any other key is looked up in the prototype.  The
    [length] of the empty array is [0], which is falsy. *)
Definition entryMember (entry : TierEntry) (key : string) : option Candidates :=
  match entry with
  | ByDomain specialists =>
      match Js.assoc key specialists with
      | Some names => Some (Listed names)
      | None => option_map Member (Js.assoc key Proto.objectMembers)
      end
  | NoSpecialists => option_map Member (Js.assoc key Proto.arrayMembers)
  end.

(** [specialistMapping[tier]?.[domain] || specialistMapping[tier]?.['general'] || []],
    for a [tier] that is one of the four tier names or no member of the
    table at all; the analyzer produces no other. *)
Definition getSpecialistsForDomain (domain tier : string) : Candidates :=
  match Js.assoc tier specialistMapping with
  | Some entry =>
      match entryMember entry domain with
      | Some found => found
      | None =>
          match entryMember entry "general" with
          | Some found => found
          | None => Listed []
          end
      end
  | None => Listed []
  end.

Definition capabilities : list (string * RouterCapabilities) :=
  let cap d t lo hi := mkRouterCapabilities (Some d) (Some t) (Some (inject_Z lo)) (Some (inject_Z hi)) in
  [("architecture-generalist",
    cap ["architecture"; "design"; "system"] ["microservices"; "design-patterns"; "scalability"] 3 6);
   ("security-generalist", cap ["security"; "auth"] ["oauth"; "jwt"; "encryption"] 3 6);
   ("performance-generalist",
    cap ["performance"; "optimization"] ["caching"; "monitoring"; "profiling"] 3 6);
   ("data-generalist", cap ["data"; "database"] ["sql"; "nosql"; "analytics"] 3 6);
   ("integration-generalist", cap ["integration"; "api"] ["rest"; "graphql"; "webhooks"] 3 6);
   ("frontend-generalist", cap ["frontend"; "ui"] ["react"; "vue"; "angular"] 3 6);
   ("database-specialist", cap ["data"; "database"] ["postgresql"; "redis"; "mongodb"] 6 8);
   ("api-design-specialist", cap ["integration"; "api"] ["rest"; "graphql"; "openapi"] 6 8);
   ("auth-systems-specialist", cap ["security"; "auth"] ["oauth2"; "saml"; "jwt"; "mfa"] 6 8);
   ("performance-optimization-specialist",
    cap ["performance"] ["profiling"; "optimization"; "monitoring"] 6 8);
   ("ml-integration-specialist", cap ["ml"; "ai"] ["tensorflow"; "pytorch"; "ml-apis"] 6 8);
   ("testing-strategy-specialist", cap ["testing"; "qa"] ["jest"; "cypress"; "ci-cd"] 6 8);
   ("system-architect", cap ["architecture"; "system"] ["enterprise"; "distributed-systems"] 8 10);
   ("integration-architect", cap ["integration"] ["service-mesh"; "event-driven"] 8 10);
   ("scale-architect",
    cap ["scale"; "performance"] ["horizontal-scaling"; "distributed-systems"] 8 10);
   ("security-architect", cap ["security"] ["enterprise-security"; "compliance"] 8 10);
   ("data-architect", cap ["data"] ["data-lakes"; "warehouses"; "governance"] 8 10);
   ("governance-architect", cap ["governance"] ["compliance"; "policy-enforcement"] 8 10)].

(** [capabilities[specialist] || {}]. *)
Definition getSpecialistCapabilities (specialist : string) : RouterCapabilities :=
  match Js.assoc specialist capabilities with
  | Some c => c
  | None => mkRouterCapabilities None None None None
  end.

(** No historical data is tracked: the method returns [null]. *)
Definition getSpecialistPerformance (specialist : string) : option Q := None.

(** [complexity.overallScore] is compared as the double that the analyzer
    computed, [F64.overallScore] of the breakdown.  The comparisons with
    the bounds of the empty capabilities [{}] are false. *)
Definition calculateSpecialistScore (specialist : string) (t : Task)
  (complexity : ComplexityAnalysis) : Q :=
  let caps := getSpecialistCapabilities specialist in
  let score := 0%Q in
  let score :=
    if Js.opt_includes (domains caps) (identifyDomain t) then (score + 10)%Q else score in
  let score :=
    match technologies t with
    | Some techs =>
        let techMatch :=
          length (filter (fun tech => Js.opt_includes (capability_technologies caps) tech) techs) in
        (score + inject_Z (Z.of_nat techMatch) * 2)%Q
    | None => score
    end in
  let score :=
    match minComplexity caps, maxComplexity caps with
    | Some lo, Some hi =>
        let overall := F64.overallScore (breakdown complexity) in
        if PrimFloat.leb (F64.of_Q lo) overall && PrimFloat.leb overall (F64.of_Q hi)
        then (score + 5)%Q else score
    | _, _ => score
    end in
  match getSpecialistPerformance specialist with
  | Some successRate => (score + successRate * 5)%Q
  | None => score
  end.

(** Insertion into a list sorted by descending score; equal scores keep
    their order ([Array.prototype.sort] is stable). *)
Fixpoint insert_desc (x : string * Q) (l : list (string * Q)) : list (string * Q) :=
  match l with
  | [] => [x]
  | y :: r => if Qle_bool (snd y) (snd x) then x :: l else y :: insert_desc x r
  end.

(** [scores.sort((a, b) => b.score - a.score)]. *)
Definition sort_desc (l : list (string * Q)) : list (string * Q) :=
  fold_right insert_desc [] l.

(** A member of a prototype has no [map]; with a [length] of [0] it is
    taken for an empty array, with a [length] of [1] its element [0],
    which is [undefined], is returned. *)
Definition selectBestSpecialist (specialists : Candidates) (t : Task)
  (complexity : ComplexityAnalysis) : Completion Specialist :=
  match specialists with
  | Listed [] => Return Null
  | Listed [s] => Return (Named s)
  | Listed names =>
      let specialistScores :=
        map (fun s => (s, calculateSpecialistScore s t complexity)) names in
      match sort_desc specialistScores with
      | (s, _) :: _ => Return (Named s)
      | [] => Return Undefined
      end
  | Member (Some 0) => Return Null
  | Member (Some 1) => Return Undefined
  | Member _ => Throw (Missing.notAFunction "specialists.map")
  end.

Definition selectSpecialist (t : Task) (complexity : ComplexityAnalysis)
  : Completion Specialist :=
  let domain := identifyDomain t in
  let tier := tier complexity in
  let specialists := getSpecialistsForDomain domain tier in
  selectBestSpecialist specialists t complexity.

Definition getProtocol (tier : string) : option string :=
  Js.assoc tier [("DIRECT", "direct-implementation"); ("TIER_1", "quick-consultation");
              ("TIER_2", "deep-analysis"); ("TIER_3", "architectural-coordination")].

Definition baseTime : list (string * Z) :=
  [("DIRECT", 30); ("TIER_1", 120); ("TIER_2", 480); ("TIER_3", 1440)].

(** [Math.round(tierTime * (1 + complexity.overallScore / 10))], in
    doubles; [complexity.overallScore] is [F64.overallScore] of the
    breakdown. *)
Definition estimateTime (complexity : ComplexityAnalysis) (specialist : Specialist)
  : option Z :=
  let tierTime :=
    match Js.assoc (tier complexity) baseTime with
    | Some m => m
    | None => 30
    end in
  let complexityMultiplier :=
    (1 + F64.overallScore (breakdown complexity) / 10)%float in
  F64.round (F64.of_Z tierTime * complexityMultiplier)%float.

Definition qualityChecksTable : list (string * list string) :=
  [("DIRECT", ["syntax-check"; "basic-test"]);
   ("TIER_1", ["syntax-check"; "unit-tests"; "code-review"]);
   ("TIER_2", ["syntax-check"; "unit-tests"; "integration-tests"; "code-review";
               "security-scan"]);
   ("TIER_3", ["syntax-check"; "unit-tests"; "integration-tests"; "e2e-tests";
               "code-review"; "security-scan"; "performance-test";
               "architectural-review"])].

Definition getQualityChecks (tier : string) : list string :=
  match Js.assoc tier qualityChecksTable with
  | Some l => l
  | None => ["syntax-check"; "basic-test"]
  end.

(** [route(task, context)]; [now] is the reading of the clock. *)
Definition route (now : Z) (t : Task) (context : RouteContext)
  : Completion RoutingDecision :=
  let complexity := TaskComplexityAnalyzer.analyzeTask t in
  (specialist <- selectSpecialist t complexity ;;
   Return (mkRoutingDecision complexity specialist (getProtocol (tier complexity))
                             (estimateTime complexity specialist)
                             (getQualityChecks (tier complexity))
                             (tier complexity) (confidence complexity) now context))%completion.

End TaskRouter.
(** ** QualityAssurance *)

(** Capabilities as [QualityAssurance.getSpecialistCapabilities] returns them. *)
Record QaCapabilities := mkQaCapabilities {
  qa_domain : string;
  qa_technologies : list string;
  qa_minComplexity : Q;
  qa_maxComplexity : Q
}.

(** The scores are doubles.  A decimal literal of the source is written
    [F64.of_Q], the double nearest to it.  A recommendation is an object;
    its [description], when present, is a string.  The methods that
    [assessRisks], [checkConsistency] and [checkSecurityImplications]
    call are defined nowhere: each of the three throws at its first
    call. *)
Module QualityAssurance.

Local Open Scope float_scope.

(** The method ignores its argument and returns one fixed object. *)
Definition getSpecialistCapabilities (specialist : Specialist) : option QaCapabilities :=
  Some (mkQaCapabilities "integration" ["rest"; "graphql"; "webhooks"] 3 6).

Definition calculateDomainMatch (specialistDomain taskDomain : string) : float :=
  if String.eqb specialistDomain taskDomain then 1 else 0.5.

(** [matches / taskTechs.length]; [0 / 0] is [NaN]. *)
Definition calculateTechnologyMatch (specialistTechs taskTechs : list string) : float :=
  let matches := length (filter (fun tech => Js.includes tech specialistTechs) taskTechs) in
  F64.of_Z (Z.of_nat matches) / F64.of_Z (Z.of_nat (length taskTechs)).

Definition checkComplexityFit (capabilities : QaCapabilities) (complexityScore : float)
  : float :=
  if PrimFloat.leb (F64.of_Q (qa_minComplexity capabilities)) complexityScore
     && PrimFloat.leb complexityScore (F64.of_Q (qa_maxComplexity capabilities))
  then 1 else 0.5.

Definition checkExpertiseAlignment (specialist : Specialist) (t : Task) : Check :=
  match getSpecialistCapabilities specialist with
  | None => mkCheck false 0 None
  | Some capabilities =>
      let alignmentScore := 0 in
      let maxScore := 0 in
      let maxScore := maxScore + 10 in
      let alignmentScore :=
        if negb (String.eqb (qa_domain capabilities) "") && Js.truthy_str (domain t)
        then alignmentScore
             + calculateDomainMatch (qa_domain capabilities) (Js.hole (domain t)) * 10
        else alignmentScore in
      let maxScore := maxScore + 10 in
      let alignmentScore :=
        match technologies t with
        | Some taskTechs =>
            alignmentScore
            + calculateTechnologyMatch (qa_technologies capabilities) taskTechs * 10
        | None => alignmentScore
        end in
      let maxScore := maxScore + 10 in
      let alignmentScore :=
        if F64.truthy (F64.number (complexityScore t))
        then alignmentScore
             + checkComplexityFit capabilities (F64.number (complexityScore t)) * 10
        else alignmentScore in
      let finalScore := if PrimFloat.ltb 0 maxScore then alignmentScore / maxScore else 0 in
      mkCheck (PrimFloat.leb (F64.of_Q (7 # 10)) finalScore) finalScore None
  end.

(** [recommendation.description]. *)
Definition description_of (recommendation : JsValue) : option string :=
  match Json.get "description" recommendation with
  | JStr s => Some s
  | _ => None
  end.

(** [count / total] for two array lengths. *)
Definition ratio (count total : nat) : float :=
  F64.of_Z (Z.of_nat count) / F64.of_Z (Z.of_nat total).

Definition checkCompleteness (recommendation : JsValue) : float :=
  let requiredElements := ["implementation"; "testing"; "deployment"]%string in
  let present element :=
    Json.truthy (Json.get element recommendation)
    || match description_of recommendation with
       | Some d => Js.str_includes d element
       | None => false
       end in
  ratio (length (filter present requiredElements)) (length requiredElements).

Definition checkClarity (recommendation : JsValue) : float :=
  let description :=
    match description_of recommendation with
    | Some d => d
    | None => ""%string
    end in
  if (50 <? String.length description)%nat then F64.of_Q (8 # 10) else F64.of_Q (4 # 10).

Definition checkFeasibility (recommendation : JsValue) : float :=
  if Json.truthy (Json.get "timeline" recommendation)
     && Json.truthy (Json.get "resources" recommendation)
  then F64.of_Q (9 # 10) else F64.of_Q (6 # 10).

Definition checkBestPractices (recommendation : JsValue) : float :=
  let bestPracticeIndicators :=
    ["error handling"; "logging"; "validation"; "testing"; "documentation"]%string in
  let text := Js.toLowerCase (Json.stringify recommendation) in
  ratio (length (filter (fun practice => Js.str_includes text practice)
                        bestPracticeIndicators))
        (length bestPracticeIndicators).

Definition checkDocumentation (recommendation : JsValue) : float :=
  if Json.truthy (Json.get "documentation" recommendation) then 1 else F64.of_Q (3 # 10).

Definition checkTestability (recommendation : JsValue) : float :=
  let testabilityIndicators := ["test"; "mock"; "stub"; "assertion"]%string in
  let text := Js.toLowerCase (Json.stringify recommendation) in
  if existsb (fun indicator => Js.str_includes text indicator) testabilityIndicators
  then F64.of_Q (9 # 10) else F64.of_Q (4 # 10).

(** [scores.reduce((sum, score) => sum + score, 0)]. *)
Definition sum (scores : list float) : float := fold_left PrimFloat.add scores 0.

Definition assessRecommendationQuality (recommendation : JsValue) : Check :=
  let scores :=
    [checkCompleteness recommendation; checkClarity recommendation;
     checkFeasibility recommendation; checkBestPractices recommendation;
     checkDocumentation recommendation; checkTestability recommendation] in
  let averageScore := sum scores / F64.of_Z (Z.of_nat (length scores)) in
  mkCheck (PrimFloat.leb (F64.of_Q (8 # 10)) averageScore) averageScore None.

Definition checkResourceRequirements (recommendation : JsValue) : bool := true.

Definition checkTimelineRealistic (recommendation : JsValue) : bool :=
  Json.truthy (Json.get "timeline" recommendation).

Definition checkDependenciesAvailable (recommendation : JsValue) : bool := true.

Definition checkSkillRequirements (recommendation : JsValue) : bool := true.

Definition checkToolAvailability (recommendation : JsValue) : bool := true.

Definition count_true (l : list bool) : nat := length (filter (fun b => b) l).

Definition checkImplementationViability (recommendation : JsValue) : Check :=
  let viabilityChecks :=
    [checkResourceRequirements recommendation; checkTimelineRealistic recommendation;
     checkDependenciesAvailable recommendation; checkSkillRequirements recommendation;
     checkToolAvailability recommendation] in
  let viabilityScore := ratio (count_true viabilityChecks) (length viabilityChecks) in
  mkCheck (PrimFloat.leb (F64.of_Q (8 # 10)) viabilityScore) viabilityScore None.

(** Each risk is represented by its [score]. *)
Definition assessRisks (recommendation : JsValue) : Completion Check :=
  (technicalRisks <- Missing.method "assessTechnicalRisks" ;;
   securityRisks <- Missing.method "assessSecurityRisks" ;;
   performanceRisks <- Missing.method "assessPerformanceRisks" ;;
   maintenanceRisks <- Missing.method "assessMaintenanceRisks" ;;
   businessRisks <- Missing.method "assessBusinessRisks" ;;
   let riskAssessment :=
     [technicalRisks; securityRisks; performanceRisks; maintenanceRisks; businessRisks] in
   let totalRiskScore := sum riskAssessment / F64.of_Z (Z.of_nat (length riskAssessment)) in
   riskLevel <- Missing.method "categorizeRiskLevel" ;;
   mitigationSuggestions <- Missing.method (A := JsValue) "suggestRiskMitigation" ;;
   Return (mkCheck (negb (String.eqb riskLevel "high")) (1 - totalRiskScore)
                   (Some riskLevel)))%completion.

(** Each consistency check is represented by the truthiness of its
    [consistent] property. *)
Definition checkConsistency (recommendation : JsValue) (t : Task) : Completion Check :=
  (architecturalConsistency <- Missing.method "checkArchitecturalConsistency" ;;
   codingStandardsConsistency <- Missing.method "checkCodingStandards" ;;
   namingConsistency <- Missing.method "checkNamingConsistency" ;;
   patternConsistency <- Missing.method "checkPatternConsistency" ;;
   let consistencyChecks :=
     [architecturalConsistency; codingStandardsConsistency; namingConsistency;
      patternConsistency] in
   let consistencyScore := ratio (count_true consistencyChecks) (length consistencyChecks) in
   inconsistencies <- Missing.method (A := JsValue) "identifyInconsistencies" ;;
   Return (mkCheck (PrimFloat.leb (F64.of_Q (9 # 10)) consistencyScore) consistencyScore
                   None))%completion.

(** Each security check is represented by the truthiness of its [secure]
    property. *)
Definition checkSecurityImplications (recommendation : JsValue) : Completion Check :=
  (dataProtection <- Missing.method "checkDataProtection" ;;
   accessControl <- Missing.method "checkAccessControl" ;;
   inputValidation <- Missing.method "checkInputValidation" ;;
   outputSanitization <- Missing.method "checkOutputSanitization" ;;
   cryptographyUsage <- Missing.method "checkCryptographyUsage" ;;
   vulnerabilityIntroduction <- Missing.method "checkVulnerabilityIntroduction" ;;
   let securityChecks :=
     [dataProtection; accessControl; inputValidation; outputSanitization;
      cryptographyUsage; vulnerabilityIntroduction] in
   let securityScore := ratio (count_true securityChecks) (length securityChecks) in
   vulnerabilities <- Missing.method (A := JsValue) "identifyVulnerabilities" ;;
   Return (mkCheck (PrimFloat.leb (F64.of_Q (95 # 100)) securityScore) securityScore
                   None))%completion.

(** [Object.entries(checks)], in the order the object literal lists them. *)
Definition entries (checks : Checks) : list (string * Check) :=
  [("expertiseAlignment", expertiseAlignment checks);
   ("recommendationQuality", recommendationQuality checks);
   ("implementationViability", implementationViability checks);
   ("riskAssessment", riskAssessment checks);
   ("consistencyCheck", consistencyCheck checks);
   ("securityCheck", securityCheck checks)]%string.

Definition weights : list (string * float) :=
  [("expertiseAlignment", F64.of_Q (2 # 10)); ("recommendationQuality", 0.25);
   ("implementationViability", F64.of_Q (2 # 10)); ("riskAssessment", F64.of_Q (15 # 100));
   ("consistencyCheck", F64.of_Q (1 # 10)); ("securityCheck", F64.of_Q (1 # 10))]%string.

Definition calculateQualityScore (checks : Checks) : float :=
  let '(totalScore, totalWeight) :=
    fold_left
      (fun acc entry =>
         match Js.assoc (fst entry) (entries checks) with
         | Some check => (fst acc + score check * snd entry, snd acc + snd entry)
         | None => acc
         end)
      weights (0, 0) in
  if PrimFloat.ltb 0 totalWeight then totalScore / totalWeight else 0.

Definition allChecksPassed (checks : Checks) : bool :=
  forallb (fun entry => passed (snd entry)) (entries checks).

Definition suggestions : list (string * string) :=
  [("expertiseAlignment",
    "Consider consulting a different specialist or adding domain expertise");
   ("recommendationQuality", "Improve completeness, clarity, and documentation");
   ("implementationViability", "Review resource requirements and dependencies");
   ("riskAssessment", "Implement additional risk mitigation strategies");
   ("consistencyCheck",
    "Align with existing architectural patterns and coding standards");
   ("securityCheck",
    "Address security vulnerabilities and implement security best practices")]%string.

Definition getImprovementSuggestion (checkName : string) (result : Check) : string :=
  match Js.assoc checkName suggestions with
  | Some s => s
  | None => "Review and improve this aspect"%string
  end.

Definition suggestImprovements (checks : Checks) : list Improvement :=
  flat_map
    (fun entry =>
       if negb (passed (snd entry))
       then [mkImprovement (fst entry) (score (snd entry))
                           (getImprovementSuggestion (fst entry) (snd entry))]
       else [])
    (entries checks).

Definition needsEscalation (checks : Checks) : bool :=
  let hasCriticalFailure :=
    negb (passed (securityCheck checks)) || negb (passed (riskAssessment checks)) in
  let overallScore := calculateQualityScore checks in
  let scoreTooLow := PrimFloat.ltb overallScore (F64.of_Q (6 # 10)) in
  hasCriticalFailure || scoreTooLow.

Definition assignQualityGrade (score : float) : string :=
  if PrimFloat.leb (F64.of_Q (95 # 100)) score then "A+"
  else if PrimFloat.leb (F64.of_Q (90 # 100)) score then "A"
  else if PrimFloat.leb (F64.of_Q (85 # 100)) score then "A-"
  else if PrimFloat.leb (F64.of_Q (80 # 100)) score then "B+"
  else if PrimFloat.leb 0.75 score then "B"
  else if PrimFloat.leb (F64.of_Q (70 # 100)) score then "B-"
  else if PrimFloat.leb (F64.of_Q (65 # 100)) score then "C+"
  else if PrimFloat.leb (F64.of_Q (60 # 100)) score then "C"
  else if PrimFloat.leb (F64.of_Q (55 # 100)) score then "C-"
  else if PrimFloat.leb 0.5 score then "D"
  else "F".

(** The object literal [checks] is built property by property: the first
    three checks return, the fourth throws. *)
Definition validateSpecialistRecommendation (now : Z) (specialist : Specialist)
  (recommendation : JsValue) (t : Task) : Completion QualityValidation :=
  let alignment := checkExpertiseAlignment specialist t in
  let quality := assessRecommendationQuality recommendation in
  let viability := checkImplementationViability recommendation in
  (risks <- assessRisks recommendation ;;
   consistency <- checkConsistency recommendation t ;;
   security <- checkSecurityImplications recommendation ;;
   let checks := mkChecks alignment quality viability risks consistency security in
   let overallScore := calculateQualityScore checks in
   let passed := allChecksPassed checks in
   Return (mkQualityValidation passed overallScore checks (suggestImprovements checks)
                               (needsEscalation checks) (assignQualityGrade overallScore)
                               now))%completion.

End QualityAssurance.

(** ** State of the orchestrator and of its collaborators *)

(** An entry of the specialist cache. *)
Record CacheEntry := mkCacheEntry {
  entry_specialist : Specialist;
  entry_task : Task;
  entry_recommendation : JsValue;
  entry_outcome : option Outcome;
  entry_quality : option QualityValidation;
  cacheKey : string;
  expirationTime : Z;
  entry_timestamp : Z
}.

Record AnalyticsEvent := mkAnalyticsEvent {
  event_type : string;
  event_cacheKey : string;
  event_timestamp : Z
}.

Record SpecialistMetrics := mkSpecialistMetrics {
  totalConsultations : Z;
  successfulConsultations : Z;
  averageQualityScore : float;
  lastConsultation : option Z;
  firstConsultation : Z
}.

(** User feedback on a finished task. *)
Record Feedback := mkFeedback {
  satisfaction : option float;
  feedback_details : JsValue
}.

(** A value of the orchestrator's [performanceMetrics] map.  A finished
    task records [complexity], [tier] and [qualityScore], a failed one
    [error] and [severity]. *)
Record Metrics := mkMetrics {
  metrics_success : bool;
  metrics_executionTime : Z;
  metrics_complexity : Num.t;
  metrics_tier : option string;
  metrics_qualityScore : option float;
  metrics_error : option string;
  metrics_severity : option float;
  metrics_timestamp : Z;
  userFeedback : option Feedback;
  metrics_userSatisfaction : option float
}.

Record LearningEvent := mkLearningEvent {
  learning_type : string;
  learning_data : JsValue;
  learning_timestamp : Z;
  systemState : JsValue
}.

(** Calls recorded for the statements below; the log is not part of the
    program. *)
Inductive Call : Type :=
| CallProcessTask (taskId : string) (t : Task)
| CallCacheSpecialistConsultation (c : Consultation)
| CallStoreSuccessPattern (c : Consultation).

(** The stores of the context manager, the metrics of the orchestrator and
    the history of the recovery system.  The pattern library holds the
    success patterns. *)
Record State := mkState {
  now : Z;
  draws : nat;
  random36 : nat -> string;
  cacheExpiration : string;
  specialistCache : list (string * CacheEntry);
  patternLibrary : list (string * Pattern);
  analyticsEvents : list AnalyticsEvent;
  specialistMetrics : list (Specialist * SpecialistMetrics);
  projectContext : JsValue;
  performanceMetrics : list (string * Metrics);
  learningEnabled : bool;
  feedbackHistory : list LearningEvent;
  calls : list Call
}.

Module StateUpdate.

Definition set_now (t : Z) (s : State) : State :=
  mkState t (draws s) (random36 s) (cacheExpiration s) (specialistCache s)
          (patternLibrary s) (analyticsEvents s) (specialistMetrics s)
          (projectContext s) (performanceMetrics s) (learningEnabled s)
          (feedbackHistory s) (calls s).

Definition set_draws (n : nat) (s : State) : State :=
  mkState (now s) n (random36 s) (cacheExpiration s) (specialistCache s)
          (patternLibrary s) (analyticsEvents s) (specialistMetrics s)
          (projectContext s) (performanceMetrics s) (learningEnabled s)
          (feedbackHistory s) (calls s).

Definition set_specialistCache (c : list (string * CacheEntry)) (s : State) : State :=
  mkState (now s) (draws s) (random36 s) (cacheExpiration s) c
          (patternLibrary s) (analyticsEvents s) (specialistMetrics s)
          (projectContext s) (performanceMetrics s) (learningEnabled s)
          (feedbackHistory s) (calls s).

Definition set_patternLibrary (p : list (string * Pattern)) (s : State) : State :=
  mkState (now s) (draws s) (random36 s) (cacheExpiration s) (specialistCache s)
          p (analyticsEvents s) (specialistMetrics s)
          (projectContext s) (performanceMetrics s) (learningEnabled s)
          (feedbackHistory s) (calls s).

Definition set_analyticsEvents (e : list AnalyticsEvent) (s : State) : State :=
  mkState (now s) (draws s) (random36 s) (cacheExpiration s) (specialistCache s)
          (patternLibrary s) e (specialistMetrics s)
          (projectContext s) (performanceMetrics s) (learningEnabled s)
          (feedbackHistory s) (calls s).

Definition set_specialistMetrics (m : list (Specialist * SpecialistMetrics))
  (s : State) : State :=
  mkState (now s) (draws s) (random36 s) (cacheExpiration s) (specialistCache s)
          (patternLibrary s) (analyticsEvents s) m
          (projectContext s) (performanceMetrics s) (learningEnabled s)
          (feedbackHistory s) (calls s).

Definition set_performanceMetrics (m : list (string * Metrics)) (s : State) : State :=
  mkState (now s) (draws s) (random36 s) (cacheExpiration s) (specialistCache s)
          (patternLibrary s) (analyticsEvents s) (specialistMetrics s)
          (projectContext s) m (learningEnabled s)
          (feedbackHistory s) (calls s).

Definition set_feedbackHistory (h : list LearningEvent) (s : State) : State :=
  mkState (now s) (draws s) (random36 s) (cacheExpiration s) (specialistCache s)
          (patternLibrary s) (analyticsEvents s) (specialistMetrics s)
          (projectContext s) (performanceMetrics s) (learningEnabled s)
          h (calls s).

(** Append a call to the log. *)
Definition record (c : Call) (s : State) : State :=
  mkState (now s) (draws s) (random36 s) (cacheExpiration s) (specialistCache s)
          (patternLibrary s) (analyticsEvents s) (specialistMetrics s)
          (projectContext s) (performanceMetrics s) (learningEnabled s)
          (feedbackHistory s) (calls s ++ [c]).

End StateUpdate.

(** ** [Map] objects *)

Module JsMap.

Section Keyed.

Context {K V : Type} (eqb : K -> K -> bool).

(** [map.get(key)]. *)
Fixpoint get (key : K) (m : list (K * V)) : option V :=
  match m with
  | [] => None
  | (k, v) :: r => if eqb k key then Some v else get key r
  end.

(** [map.set(key, value)]: an existing key keeps its position. *)
Fixpoint set (key : K) (value : V) (m : list (K * V)) : list (K * V) :=
  match m with
  | [] => [(key, value)]
  | (k, v) :: r => if eqb k key then (k, value) :: r else (k, v) :: set key value r
  end.

(** [map.delete(key)]. *)
Definition delete (key : K) (m : list (K * V)) : list (K * V) :=
  filter (fun kv => negb (eqb (fst kv) key)) m.

End Keyed.

Definition option_string_eqb (a b : option string) : bool :=
  match a, b with
  | Some x, Some y => String.eqb x y
  | None, None => true
  | _, _ => false
  end.

End JsMap.
(** ** ContextManager *)

Module ContextManager.

Import StateUpdate.

(** Insertion into a list of strings in ascending order. *)
Fixpoint insert_sorted (x : string) (l : list string) : list string :=
  match l with
  | [] => [x]
  | y :: r => if String.leb x y then x :: l else y :: insert_sorted x r
  end.

(** [arr.sort()] on an array of strings. *)
Definition sort (l : list string) : list string := fold_right insert_sorted [] l.

(** [Math.floor(task.complexity / 2) * 2]. *)
Definition bucket (c : option float) : float := F64.evenFloor (F64.number c).

Definition optional_strings (l : option (list string)) : JsValue :=
  match l with
  | Some x => Json.of_strings x
  | None => JUndefined
  end.

Definition optional_string (s : option string) : JsValue :=
  match s with
  | Some x => JStr x
  | None => JUndefined
  end.

(** The [key] object of [generateTaskFingerprint]. *)
Definition fingerprintKey (t : Task) : JsValue :=
  JObj [("domain", optional_string (domain t));
        ("technologies", optional_strings (option_map sort (technologies t)));
        ("complexity", F64.to_js (bucket (complexity t)));
        ("patterns", optional_strings (option_map sort (patterns t)))].

(** [task.technologies?.sort()] and [task.patterns?.sort()] sort the arrays
    of the task itself: this is the task that the caller of
    [generateTaskFingerprint] holds afterwards. *)
Definition sortedTags (t : Task) : Task :=
  mkTask (description t) (domain t) (complexity t) (complexityScore t) (scope t)
         (files t) (integrations t) (governance t) (databases t) (apis t)
         (services t) (crossTeam t) (option_map sort (technologies t))
         (option_map sort (patterns t)) (requirements t)
         (performance_requirements t) (scalability t) (compliance t)
         (businessLogic t) (dataRisk t) (systemRisk t) (implementationRisk t)
         (timeline_pressure t) (implementation t) (escalation t).

(** One round of the loop of [hashObject]. *)
Definition hashStep (hash : Z) (char : ascii) : Z :=
  let hash := Int32.shl hash 5 - hash + Z.of_nat (nat_of_ascii char) in
  Int32.and hash hash.

Fixpoint hashChars (str : string) (hash : Z) : Z :=
  match str with
  | EmptyString => hash
  | String c r => hashChars r (hashStep hash c)
  end.

Definition hashObject (obj : JsValue) : string :=
  Int32.toString36 (Z.abs (hashChars (Json.stringify obj) 0)).

Definition generateTaskFingerprint (t : Task) : string := hashObject (fingerprintKey t).

(** [`${specialist}_${taskFingerprint}`]. *)
Definition generateCacheKey (t : Task) (specialist : Specialist) : string :=
  SpecialistId.text specialist ++ "_" ++ generateTaskFingerprint t.

Definition is_digit (c : ascii) : bool :=
  let n := nat_of_ascii c in ((48 <=? n) && (n <=? 57))%nat.

Fixpoint digits_value (s : string) (acc : Z) : option Z :=
  match s with
  | EmptyString => Some acc
  | String c r =>
      if is_digit c then digits_value r (10 * acc + Z.of_nat (nat_of_ascii c - 48))
      else None
  end.

(** Split a non-empty string into all but the last character, and the last. *)
Fixpoint split_last (s : string) : option (string * ascii) :=
  match s with
  | EmptyString => None
  | String c EmptyString => Some (EmptyString, c)
  | String c r =>
      match split_last r with
      | Some (init, last) => Some (String c init, last)
      | None => None
      end
  end.

Definition unit_ms (c : ascii) : option Z :=
  if Ascii.eqb c "s" then Some 1000
  else if Ascii.eqb c "m" then Some (60 * 1000)
  else if Ascii.eqb c "h" then Some (60 * 60 * 1000)
  else if Ascii.eqb c "d" then Some (24 * 60 * 60 * 1000)
  else None.

(** [timeStr.match(/^(\d+)([smhd])$/)], with 24 hours when it fails;
    [parseInt(number) * units[unit]] is a product of doubles. *)
Definition parseTimeString (timeStr : string) : float :=
  match split_last timeStr with
  | Some (String c r, unit) =>
      match digits_value (String c r) 0, unit_ms unit with
      | Some number, Some ms => (F64.of_int number * F64.of_int ms)%float
      | _, _ => F64.of_int (24 * 60 * 60 * 1000)
      end
  | _ => F64.of_int (24 * 60 * 60 * 1000)
  end.

(** [baseExpiration * Math.min(complexity / 5, 2)] for
    [complexity = consultation.task.complexity || 5]: the time to live of
    an entry, in milliseconds. *)
Definition timeToLive (baseExpiration : float) (c : option float) : float :=
  let complexity := F64.or_else c 5 in
  let complexityMultiplier := F64.min (complexity / 5) 2 in
  (baseExpiration * complexityMultiplier)%float.

(** [new Date(Date.now() + expirationMs).toISOString()]. *)
Definition calculateExpiration (c : Consultation) (s : State) : Completion Z :=
  let baseExpiration := parseTimeString (cacheExpiration s) in
  let expirationMs := timeToLive baseExpiration (complexity (task c)) in
  Date.toISOString (Date.timeClip (F64.of_int (now s) + expirationMs)%float).

(** [new Date() > new Date(cacheEntry.expirationTime)]. *)
Definition isCacheExpired (entry : CacheEntry) (s : State) : bool :=
  expirationTime entry <? now s.

Definition initializeSpecialistMetrics (s : State) : SpecialistMetrics :=
  mkSpecialistMetrics 0 0 0 None (now s).

Definition updateAverage (currentAvg newValue : Num.t) (count : Z) : Num.t :=
  if count <=? 1 then newValue
  else Num.div_by (Num.add (Num.mul currentAvg (Some (inject_Z (count - 1)))) newValue)
                  (inject_Z count).

(** [updateAverage] where [updateSpecialistMetrics] calls it, on quality
    scores. *)
Definition updateAverage64 (currentAvg newValue : float) (count : Z) : float :=
  if count <=? 1 then newValue
  else ((currentAvg * F64.of_Z (count - 1) + newValue) / F64.of_Z count)%float.

(** [consultation.quality?.score || d]. *)
Definition qualityScoreOr (c : Consultation) (d : float) : float :=
  F64.or_else (option_map qv_score (quality c)) d.

Definition updateSpecialistMetrics (c : Consultation) (s : State) : State :=
  let metrics :=
    match JsMap.get SpecialistId.eqb (specialist c) (specialistMetrics s) with
    | Some m => m
    | None => initializeSpecialistMetrics s
    end in
  let total := totalConsultations metrics + 1 in
  let successes :=
    match consultation_outcome c with
    | Some o => if successful o then successfulConsultations metrics + 1
                else successfulConsultations metrics
    | None => successfulConsultations metrics
    end in
  let average :=
    updateAverage64 (averageQualityScore metrics) (qualityScoreOr c 0.5) total in
  let metrics :=
    mkSpecialistMetrics total successes average (Some (now s)) (firstConsultation metrics) in
  set_specialistMetrics
    (JsMap.set SpecialistId.eqb (specialist c) metrics (specialistMetrics s)) s.

(** The entry holds the task of the consultation, whose tag arrays
    [generateCacheKey] has sorted.  An expiry beyond the range of [Date]
    makes [toISOString] throw before anything is stored. *)
Definition cacheSpecialistConsultation (c : Consultation) (s : State)
  : Completion CacheEntry * State :=
  let key := generateCacheKey (task c) (specialist c) in
  match calculateExpiration c s with
  | Throw e => (Throw e, s)
  | Return expiration =>
      let cacheEntry :=
        mkCacheEntry (specialist c) (sortedTags (task c)) (recommendation c)
                     (consultation_outcome c) (quality c) key expiration (now s) in
      let s := set_specialistCache
                 (JsMap.set String.eqb (cacheKey cacheEntry) cacheEntry (specialistCache s))
                 s in
      let s := updateSpecialistMetrics c s in
      (Return cacheEntry, s)
  end.

Definition recordCacheHit (key : string) (s : State) : State :=
  set_analyticsEvents (analyticsEvents s ++ [mkAnalyticsEvent "cache_hit" key (now s)]) s.

Definition retrieveSpecialistCache (t : Task) (specialist : Specialist) (s : State)
  : option CacheEntry * State :=
  let key := generateCacheKey t specialist in
  match JsMap.get String.eqb key (specialistCache s) with
  | None => (None, s)
  | Some cachedEntry =>
      if isCacheExpired cachedEntry s
      then (None, set_specialistCache (JsMap.delete String.eqb key (specialistCache s)) s)
      else (Some cachedEntry, recordCacheHit key s)
  end.

Definition getProjectContext (s : State) : JsValue := projectContext s.

(** The complexity is [Math.floor((task.complexity || 5) / 2) * 2]. *)
Definition normalizeTask (t : Task) : NormalizedTask :=
  let sorted l := match l with Some x => sort x | None => [] end in
  mkNormalizedTask (domain t) (sorted (technologies t))
                   (F64.evenFloor (F64.or_else (complexity t) 5))
                   (sorted (patterns t)) (sorted (requirements t)).

(** [`pattern_${Date.now()}_${Math.random().toString(36).substr(2, 9)}`]. *)
Definition generatePatternId (s : State) : string * State :=
  ("pattern_" ++ Json.decimal (now s) ++ "_" ++ random36 s (draws s),
   set_draws (S (draws s)) s).

(** The relevance that [patternLibrary.search(criteria)] computes for a
    pattern, for the criteria that [getRelevantPatterns] derives from a
    task. *)
Definition relevance (t : Task) (p : Pattern) : float :=
  let relevanceScore := 0%float in
  let relevanceScore :=
    if JsMap.option_string_eqb (n_domain (pattern_task p)) (domain t)
    then (relevanceScore + 10)%float else relevanceScore in
  let techMatches :=
    match technologies t with
    | Some techs =>
        length (filter (fun tech => Js.includes tech (n_technologies (pattern_task p))) techs)
    | None => O
    end in
  let relevanceScore := (relevanceScore + F64.of_Z (Z.of_nat techMatches) * 2)%float in
  let complexityDiff :=
    F64.abs (F64.or_else (Some (n_complexity (pattern_task p))) 5
             - F64.or_else (complexity t) 5)%float in
  (relevanceScore + F64.max 0 (5 - complexityDiff))%float.

Definition with_relevance (r : float) (p : Pattern) : Pattern :=
  mkPattern (pattern_id p) (pattern_task p) (pattern_specialist p) (approach p)
            (pattern_outcome p) (successMetrics p) (pattern_timestamp p)
            (usageCount p) (successRate p) (pattern_context p) (lastUsed p) (Some r).

(** Insertion for [patterns.sort((a, b) => b.relevanceScore - a.relevanceScore)]. *)
Fixpoint insert_by_relevance (p : Pattern) (l : list Pattern) : list Pattern :=
  match l with
  | [] => [p]
  | y :: r =>
      match relevanceScore p, relevanceScore y with
      | Some a, Some b => if PrimFloat.leb b a then p :: l else y :: insert_by_relevance p r
      | _, _ => p :: l
      end
  end.

(** [search] writes its relevance on every stored pattern and returns the
    ones at or above [(criteria.similarityThreshold || 0.7) * 15]. *)
Definition getRelevantPatterns (t : Task) (s : State) : list Pattern * State :=
  let scored :=
    map (fun kv => (fst kv, with_relevance (relevance t (snd kv)) (snd kv)))
        (patternLibrary s) in
  let hits :=
    filter (fun p => PrimFloat.leb (F64.of_Q (7 # 10) * 15)%float (relevance t p))
           (map snd scored) in
  (fold_right insert_by_relevance [] hits, set_patternLibrary scored s).

Definition storeSuccessPattern (c : Consultation) (outcome : Outcome) (s : State)
  : option Pattern * State :=
  if negb (successful outcome) then (None, s)
  else
    let '(id, s) := generatePatternId s in
    let pattern :=
      mkPattern id (normalizeTask (task c)) (specialist c) (recommendation c) outcome
                (mkSuccessMetrics (qualityScore outcome) (userSatisfaction outcome)
                                  (implementationTime outcome) None)
                (now s) 1 1 (getProjectContext s) None None in
    (Some pattern, set_patternLibrary (JsMap.set String.eqb id pattern (patternLibrary s)) s).

Definition updateSuccessMetrics (current : SuccessMetrics) (outcome : Outcome)
  : SuccessMetrics :=
  let count :=
    match sm_count current with
    | Some n => if n =? 0 then 1 else n
    | None => 1
    end in
  let newCount := count + 1 in
  mkSuccessMetrics
    (updateAverage (sm_qualityScore current) (qualityScore outcome) newCount)
    (updateAverage (sm_userSatisfaction current) (userSatisfaction outcome) newCount)
    (updateAverage (sm_implementationTime current) (implementationTime outcome) newCount)
    (Some newCount).

(** The pattern object is modified in place and then written back under
    its own [id]. *)
Definition updatePatternUsage (patternId : string) (outcome : Outcome) (s : State)
  : option Pattern * State :=
  match JsMap.get String.eqb patternId (patternLibrary s) with
  | None => (None, s)
  | Some pattern =>
      let usageCount := usageCount pattern + 1 in
      let successRate :=
        ((successRate pattern * inject_Z (usageCount - 1)
          + (if successful outcome then 1 else 0)) / inject_Z usageCount)%Q in
      let metrics :=
        if successful outcome then updateSuccessMetrics (successMetrics pattern) outcome
        else successMetrics pattern in
      let pattern :=
        mkPattern (pattern_id pattern) (pattern_task pattern) (pattern_specialist pattern)
                  (approach pattern) (pattern_outcome pattern) metrics
                  (pattern_timestamp pattern) usageCount successRate
                  (pattern_context pattern) (Some (now s)) (relevanceScore pattern) in
      let library := JsMap.set String.eqb patternId pattern (patternLibrary s) in
      (Some pattern,
       set_patternLibrary (JsMap.set String.eqb (pattern_id pattern) pattern library) s)
  end.

End ContextManager.
(** ** Stateful calls *)

(** The outcome of a call that works on the state: a value, an exception,
    or [Pending] when the bound on the nesting of [processTask] calls was
    reached before the call completed. *)
Inductive Result (A : Type) : Type :=
| Returned (a : A)
| Thrown (e : JsError)
| Pending.

Arguments Returned {A} a.
Arguments Thrown {A} e.
Arguments Pending {A}.

Definition Exec (A : Type) : Type := State -> Result A * State.

Module Exec.

Definition ret {A : Type} (a : A) : Exec A := fun s => (Returned a, s).

Definition bind {A B : Type} (m : Exec A) (k : A -> Exec B) : Exec B :=
  fun s =>
    match m s with
    | (Returned a, s') => k a s'
    | (Thrown e, s') => (Thrown e, s')
    | (Pending, s') => (Pending, s')
    end.

(** A call without effect on the state. *)
Definition lift {A : Type} (c : Completion A) : Exec A :=
  fun s =>
    match c with
    | Return a => (Returned a, s)
    | Throw e => (Thrown e, s)
    end.

(** A call that cannot throw. *)
Definition call {A : Type} (f : State -> A * State) : Exec A :=
  fun s => let (a, s') := f s in (Returned a, s').

(** A call that can throw. *)
Definition attempt {A : Type} (f : State -> Completion A * State) : Exec A :=
  fun s =>
    match f s with
    | (Return a, s') => (Returned a, s')
    | (Throw e, s') => (Thrown e, s')
    end.

Definition read {A : Type} (f : State -> A) : Exec A := fun s => (Returned (f s), s).

Definition update (f : State -> State) : Exec unit := fun s => (Returned tt, f s).

(** [try { m } catch (error) { handler(error) }]. *)
Definition try_catch {A : Type} (m : Exec A) (handler : JsError -> Exec A) : Exec A :=
  fun s =>
    match m s with
    | (Thrown e, s') => handler e s'
    | r => r
    end.

End Exec.

Declare Scope exec_scope.
Delimit Scope exec_scope with exec.
Notation "x <- m ;; k" := (Exec.bind m (fun x => k))
  (at level 61, m at next level, right associativity) : exec_scope.
Notation "m ;; k" := (Exec.bind m (fun _ => k))
  (at level 61, right associativity) : exec_scope.

(** ** ErrorRecoverySystem *)

(** The [failure] argument of [autoEscalateTier]. *)
Record Failure := mkFailure {
  primaryCause : option string;
  severity : option float;
  qualityIssues : list Improvement;
  failure_task : JsValue;
  failure_approach : JsValue;
  errorDetails : JsValue;
  environment : JsValue;
  failure_timestamp : JsValue;
  failureTypes : option (list string);
  affectsProduction : bool;
  blocksOtherWork : bool
}.

Record PreservedContext := mkPreservedContext {
  originalTask : JsValue;
  attemptedApproach : JsValue;
  preserved_errorDetails : JsValue;
  preserved_environment : JsValue;
  preserved_timestamp : JsValue
}.

(** [to] and [reason] are absent when [currentTier] names a member that
    the escalation matrix inherits. *)
Record EscalationStrategy := mkEscalationStrategy {
  strategy_from : string;
  strategy_to : option string;
  strategy_reason : option string;
  strategy_context : PreservedContext;
  specialistRequirements : list string;
  urgency : Z;
  estimatedResolution : JsValue
}.

(** Result of [autoEscalateTier]: [{ canEscalate: false, reason }], or
    [{ canEscalate: true, escalation, timeline, resources,
    successProbability, rollbackPlan }]. *)
Inductive EscalationResult : Type :=
| CannotEscalate (reason : string)
| Escalate (escalation : EscalationStrategy)
           (timeline resources successProbability rollbackPlan : JsValue).

Definition canEscalate (r : EscalationResult) : bool :=
  match r with
  | CannotEscalate _ => false
  | Escalate _ _ _ _ _ => true
  end.

Record SatisfactionAnalysis := mkSatisfactionAnalysis {
  satisfactionScore : JsValue;
  qualityGaps : JsValue;
  routingAccuracy : float;
  timelineSatisfaction : JsValue;
  expertiseMismatch : JsValue
}.

(** Result of [detectUserDissatisfaction]. *)
Record Dissatisfaction := mkDissatisfaction {
  dissatisfied : bool;
  dissatisfactionLevel : JsValue;
  analysis : SatisfactionAnalysis;
  improvementNeeds : JsValue;
  routingAdjustmentNeeded : bool;
  dissatisfaction_timestamp : Z
}.

(** Result of [detectImplementationFailure]: the properties that
    [handleTaskFailure] reads. *)
Record FailureDetection := mkFailureDetection {
  detection_severity : float;
  recoveryStrategy : JsValue;
  detection_escalationNeeded : bool
}.

(** The methods of [ErrorRecoverySystem] below call methods that are
    defined nowhere; each throws at the first such call. *)
Module ErrorRecoverySystem.

Import StateUpdate.

Definition escalationMatrix : list (string * (string * string)) :=
  [("DIRECT", ("TIER_1", "Direct implementation failed"));
   ("TIER_1", ("TIER_2", "Tier 1 consultation insufficient"));
   ("TIER_2", ("TIER_3", "Tier 2 analysis incomplete"));
   ("TIER_3", ("EXTERNAL", "Internal expertise exceeded"))].

(** [escalationMatrix[currentTier]] when it is truthy: the [to] and
    [reason] of an entry of the matrix, or neither for a member that the
    matrix inherits from [Object.prototype]. *)
Definition escalationFor (currentTier : string) : option (option string * option string) :=
  match Js.assoc currentTier escalationMatrix with
  | Some (to, reason) => Some (Some to, Some reason)
  | None => if Proto.inherited currentTier then Some (None, None) else None
  end.

Definition preserveContext (failure : Failure) : PreservedContext :=
  mkPreservedContext (failure_task failure) (failure_approach failure)
                     (errorDetails failure) (environment failure)
                     (failure_timestamp failure).

Definition expertiseMap : list (string * list string) :=
  [("syntax", ["code-review-specialist"]);
   ("logic", ["algorithm-specialist"; "testing-specialist"]);
   ("integration", ["integration-specialist"; "api-specialist"]);
   ("performance", ["performance-specialist"]);
   ("security", ["security-specialist"])].

(** [set.add(x)] on a [Set] kept in insertion order. *)
Definition set_add (x : string) (l : list string) : list string :=
  if Js.includes x l then l else l ++ [x].

(** [expertiseMap[type] || []], then [experts.forEach]: a member that the
    map inherits from [Object.prototype] has no [forEach]. *)
Definition expertsFor (type : string) : Completion (list string) :=
  match Js.assoc type expertiseMap with
  | Some experts => Return experts
  | None =>
      if Proto.inherited type then Throw (Missing.notAFunction "experts.forEach")
      else Return []
  end.

Definition identifyRequiredExpertise (failure : Failure) : Completion (list string) :=
  match failureTypes failure with
  | Some types =>
      fold_left
        (fun requiredExpertise type =>
           (required <- requiredExpertise ;;
            experts <- expertsFor type ;;
            Return (fold_left (fun acc expert => set_add expert acc) experts required))
           %completion)
        types (Return [])
  | None => Return []
  end.

Definition calculateUrgency (failure : Failure) : Z :=
  let severity := F64.number (severity failure) in
  let urgency := 1 in
  let urgency :=
    if PrimFloat.leb 8 severity then urgency + 3
    else if PrimFloat.leb 5 severity then urgency + 2
    else if PrimFloat.leb 3 severity then urgency + 1
    else urgency in
  let urgency := if affectsProduction failure then urgency + 2 else urgency in
  let urgency := if blocksOtherWork failure then urgency + 1 else urgency in
  Z.min urgency 5.

(** The properties of [escalationStrategy] are evaluated in order; the
    last one calls [this.estimateResolutionTime]. *)
Definition autoEscalateTier (currentTier : string) (failure : Failure)
  : Completion EscalationResult :=
  match escalationFor currentTier with
  | None => Return (CannotEscalate "Maximum tier reached")
  | Some (to, reason) =>
      let reason :=
        if Js.truthy_str (primaryCause failure) then primaryCause failure else reason in
      let context := preserveContext failure in
      (specialistRequirements <- identifyRequiredExpertise failure ;;
       let urgency := calculateUrgency failure in
       estimatedResolution <- Missing.method "estimateResolutionTime" ;;
       let escalationStrategy :=
         mkEscalationStrategy currentTier to reason context specialistRequirements
                              urgency estimatedResolution in
       timeline <- Missing.method "estimateEscalationTime" ;;
       resources <- Missing.method "calculateRequiredResources" ;;
       successProbability <- Missing.method "estimateSuccessProbability" ;;
       rollbackPlan <- Missing.method "createEscalationRollbackPlan" ;;
       Return (Escalate escalationStrategy timeline resources successProbability
                        rollbackPlan))%completion
  end.

(** The first three properties of [detectionResults] come from
    [checkSyntaxErrors], [checkLogicErrors] and [checkIntegrationFailures],
    which search the JSON text of [implementation] and have no effect;
    the fourth calls [this.checkPerformanceIssues]. *)
Definition detectImplementationFailure {A : Type} (implementation : A)
  : Completion FailureDetection :=
  Missing.method "checkPerformanceIssues".

Definition detectUserDissatisfaction (feedback : Feedback) (outcome : Metrics) (now : Z)
  : Completion Dissatisfaction :=
  (satisfactionScore <- Missing.method "calculateSatisfactionScore" ;;
   qualityGaps <- Missing.method "identifyQualityGaps" ;;
   routingAccuracy <- Missing.method "assessRoutingAccuracy" ;;
   timelineSatisfaction <- Missing.method "assessTimelineSatisfaction" ;;
   expertiseMismatch <- Missing.method "detectExpertiseMismatch" ;;
   let satisfactionAnalysis :=
     mkSatisfactionAnalysis satisfactionScore qualityGaps routingAccuracy
                            timelineSatisfaction expertiseMismatch in
   overallDissatisfaction <- Missing.method "calculateOverallDissatisfaction" ;;
   dissatisfactionLevel <- Missing.method "categorizeDissatisfactionLevel" ;;
   improvementNeeds <- Missing.method "identifyImprovementNeeds" ;;
   Return (mkDissatisfaction
             (PrimFloat.ltb (F64.of_Q (6 # 10)) overallDissatisfaction)
             dissatisfactionLevel satisfactionAnalysis improvementNeeds
             (PrimFloat.ltb routingAccuracy (F64.of_Q (7 # 10))) now))%completion.

Definition captureSystemState : JsValue :=
  JObj [("activeSpecialists", JArr []); ("currentThresholds", JObj []);
        ("systemLoad", JNum (1 # 2)); ("performanceMetrics", JObj [])].

(** [arr.slice(-n)]. *)
Definition last_n {A : Type} (n : nat) (l : list A) : list A :=
  skipn (length l - n) l.

Definition recordLearningEvent (eventType : string) (data : JsValue) (s : State)
  : State :=
  let learningEvent := mkLearningEvent eventType data (now s) captureSystemState in
  let history := (feedbackHistory s ++ [learningEvent])%list in
  let history := if (1000 <? length history)%nat then last_n 500 history else history in
  set_feedbackHistory history s.

(** An instance method; the instance has none of the methods it calls
    before [recordLearningEvent] ([changeRoutingDecision] and
    [updateSuccessPatterns] are static). *)
Definition integrateUserDissatisfactionFeedback (dissatisfaction : Dissatisfaction)
  (routingDecision : JsValue) : Exec JsValue :=
  (dissatisfactionAnalysis <- Exec.lift (Missing.method "analyzeDissatisfactionRoot") ;;
   routingAssessment <- Exec.lift (Missing.method "assessRoutingDecisionQuality") ;;
   improvementStrategy <-
     Exec.lift (Missing.method "developDissatisfactionImprovementStrategy") ;;
   preventionMeasures <-
     Exec.lift (Missing.method "developDissatisfactionPreventionMeasures") ;;
   userExpectationAlignment <- Exec.lift (Missing.method "analyzeExpectationMismatch") ;;
   let feedbackLoop :=
     JObj [("dissatisfactionAnalysis", dissatisfactionAnalysis);
           ("routingAssessment", routingAssessment);
           ("improvementStrategy", improvementStrategy);
           ("preventionMeasures", preventionMeasures);
           ("userExpectationAlignment", userExpectationAlignment)] in
   Exec.lift (Missing.method (A := JsValue) "changeRoutingDecision") ;;
   Exec.lift (Missing.method (A := JsValue) "updateSuccessPatterns") ;;
   Exec.lift (Missing.method (A := JsValue) "adjustUserExpectationModels") ;;
   learning <- Exec.read learningEnabled ;;
   (if learning : bool
    then Exec.update (recordLearningEvent "user_dissatisfaction" feedbackLoop)
    else Exec.ret tt) ;;
   Exec.ret feedbackLoop)%exec.

(** An instance method as well. *)
Definition integrateImplementationFailureFeedback (failure recovery : JsValue)
  : Exec JsValue :=
  (failureAnalysis <- Exec.lift (Missing.method "analyzeFailureRoot") ;;
   recoveryEffectiveness <- Exec.lift (Missing.method "assessRecoveryEffectiveness") ;;
   learningOpportunities <- Exec.lift (Missing.method "identifyLearningOpportunities") ;;
   systemUpdates <- Exec.lift (Missing.method "generateSystemUpdates") ;;
   preventionMeasures <- Exec.lift (Missing.method "developPreventionMeasures") ;;
   let feedbackLoop :=
     JObj [("failureAnalysis", failureAnalysis);
           ("recoveryEffectiveness", recoveryEffectiveness);
           ("learningOpportunities", learningOpportunities);
           ("systemUpdates", systemUpdates);
           ("preventionMeasures", preventionMeasures)] in
   Exec.lift (Missing.method (A := JsValue) "updateContextRouter") ;;
   Exec.lift (Missing.method (A := JsValue) "adjustComplexityThresholds") ;;
   Exec.lift (Missing.method (A := JsValue) "updateErrorPatterns") ;;
   learning <- Exec.read learningEnabled ;;
   (if learning : bool
    then Exec.update (recordLearningEvent "implementation_failure" feedbackLoop)
    else Exec.ret tt) ;;
   Exec.ret feedbackLoop)%exec.

End ErrorRecoverySystem.

(** ** SubAgentOrchestrator *)

(** What [processTask] resolves to. *)
Inductive TaskOutcome : Type :=
| Completed (taskId : string) (result : JsValue) (complexity : ComplexityAnalysis)
            (routing : RoutingDecision) (quality : option QualityValidation)
            (executionTime : Z)
| FromCache (taskId : string) (result : JsValue) (originalTimestamp : Z)
            (specialist : Specialist) (cacheAge : Z)
| QualityFailure (error : string) (consultation : Consultation)
                 (qualityIssues : list Improvement)
| Failed (taskId : string) (error : string) (failureAnalysis : FailureDetection)
         (executionTime : Z) (recoveryAttempted : bool).

(** [success] of an outcome. *)
Definition success (o : TaskOutcome) : bool :=
  match o with
  | Completed _ _ _ _ _ _ | FromCache _ _ _ _ _ => true
  | QualityFailure _ _ _ | Failed _ _ _ _ _ => false
  end.

(** What [processFeedback] returns. *)
Record Acknowledgement := mkAcknowledgement {
  ack_taskId : string;
  feedbackProcessed : bool;
  systemUpdated : bool
}.

(** [generateImplementationPlan] calls [this.generateConsiderations], which
    is defined nowhere. *)
Module SubAgentOrchestrator.

Import StateUpdate.

(** [`task_${Date.now()}_${Math.random().toString(36).substr(2, 9)}`]. *)
Definition generateTaskId (s : State) : string * State :=
  ("task_" ++ Json.decimal (now s) ++ "_" ++ random36 s (draws s),
   set_draws (S (draws s)) s).

(** [routing.estimatedTime || 30]. *)
Definition estimatedEffort (routing : RoutingDecision) : Z :=
  match routing_estimatedTime routing with
  | Some minutes => if minutes =? 0 then 30 else minutes
  | None => 30
  end.

Definition executeDirectImplementation (t : Task) (routing : RoutingDecision) : JsValue :=
  JObj [("approach", JStr "direct-implementation");
        ("implementation",
         JStr (if Js.truthy_str (implementation t) then Js.hole (implementation t)
               else "Direct task execution"));
        ("confidence", JNum (95 # 100));
        ("estimatedEffort", JNum (inject_Z (estimatedEffort routing)))].

(** [arr.splice(i, 0, x)]. *)
Definition splice_in {A : Type} (i : nat) (x : A) (l : list A) : list A :=
  (firstn i l ++ x :: skipn i l)%list.

Definition info_domain_includes (specialistInfo : option SpecialistInfo) (word : string)
  : bool :=
  match specialistInfo with
  | Some info => Js.str_includes (specialist_domain info) word
  | None => false
  end.

Definition generateImplementationSteps (t : Task) (specialistInfo : option SpecialistInfo)
  : list string :=
  let baseSteps :=
    ["Analyze requirements and constraints"; "Design solution architecture";
     "Implement core functionality"; "Add error handling and validation";
     "Create tests and documentation"; "Deploy and monitor"] in
  let baseSteps :=
    if info_domain_includes specialistInfo "security"
    then splice_in 3 "Implement security measures" baseSteps else baseSteps in
  if info_domain_includes specialistInfo "performance"
  then splice_in (length baseSteps - 1) "Optimize performance" baseSteps else baseSteps.

Definition info_technologies (specialistInfo : option SpecialistInfo) : list string :=
  match specialistInfo with
  | Some info => specialist_technologies info
  | None => []
  end.

(** [`${task.domain || 'general'}`]. *)
Definition domain_or (t : Task) (d : string) : string :=
  if Js.truthy_str (domain t) then Js.hole (domain t) else d.

Definition estimateTimeline (t : Task) (specialistInfo : option SpecialistInfo) : string :=
  let baseTime :=
    match specialistInfo with
    | Some info => if String.eqb (estimatedTime info) "" then "4-8 hours" else estimatedTime info
    | None => "4-8 hours"
    end in
  let complexity := F64.or_else (complexity t) 5 in
  if PrimFloat.ltb 7 complexity then baseTime ++ " (extended due to complexity)"
  else if PrimFloat.ltb complexity 3 then baseTime ++ " (possibly shorter due to simplicity)"
  else baseTime.

Definition info_name_or (specialistInfo : option SpecialistInfo) (d : string) : string :=
  match specialistInfo with
  | Some info => if String.eqb (name info) "" then d else name info
  | None => d
  end.

Definition generateRationale (t : Task) (specialistInfo : option SpecialistInfo) : string :=
  "This approach leverages " ++ info_name_or specialistInfo "specialist"
  ++ " expertise in "
  ++ match specialistInfo with
     | Some info => if String.eqb (specialist_domain info) "" then "the relevant domain"
                    else specialist_domain info
     | None => "the relevant domain"
     end
  ++ " to address the specific requirements of the task.".

Definition risk (type : string) (probability : Q) (impact mitigation : string) : JsValue :=
  JObj [("type", JStr type); ("probability", JNum probability);
        ("impact", JStr impact); ("mitigation", JStr mitigation)].

Definition identifyRisks (t : Task) (specialistInfo : option SpecialistInfo) : JsValue :=
  let risks :=
    [risk "technical" (3 # 10) "medium" "Thorough testing";
     risk "timeline" (2 # 10) "low" "Buffer time allocation"] in
  JArr (if PrimFloat.ltb 7 (F64.number (complexity t))
        then (risks ++ [risk "complexity" (5 # 10) "high"
                             "Break down into smaller components"])%list
        else risks).

Definition identifyResources (t : Task) (specialistInfo : option SpecialistInfo) : JsValue :=
  JObj [("personnel", Json.of_strings [info_name_or specialistInfo "Specialist"]);
        ("tools", Json.of_strings (info_technologies specialistInfo));
        ("time", JStr (estimateTimeline t specialistInfo))].

Definition defineQualityMetrics (t : Task) : JsValue :=
  Json.of_strings ["Code quality score > 8/10"; "Test coverage > 80%";
                   "Performance benchmarks met"; "Security scan passes";
                   "Documentation completeness"].

Definition defineTestingStrategy (t : Task) : JsValue :=
  JObj [("unit", JStr "Component-level testing");
        ("integration", JStr "API integration testing");
        ("e2e", JStr "End-to-end workflow testing");
        ("performance", JStr "Load and stress testing");
        ("security", JStr "Security vulnerability testing")].

Definition calculateConfidence (t : Task) (specialistInfo : option SpecialistInfo)
  (patterns : list Pattern) : float :=
  let confidence := F64.of_Q (7 # 10) in
  let confidence :=
    match specialistInfo with
    | Some info =>
        if Js.truthy_str (domain t)
           && Js.str_includes (specialist_domain info) (Js.hole (domain t))
        then (confidence + F64.of_Q (1 # 10))%float else confidence
    | None => confidence
    end in
  let confidence :=
    (confidence
     + F64.min (F64.of_Z (Z.of_nat (length patterns)) * F64.of_Q (5 # 100))
               (F64.of_Q (15 # 100)))%float in
  let confidence :=
    if PrimFloat.ltb 8 (F64.number (complexity t))
    then (confidence - F64.of_Q (1 # 10))%float else confidence in
  F64.min (F64.max confidence (F64.of_Q (1 # 10))) (F64.of_Q (95 # 100)).

(** Above 1000 entries only the 500 most recent ones are kept. *)
Definition updatePerformanceMetrics (taskId : string) (metrics : Metrics) (s : State)
  : State :=
  let table := JsMap.set String.eqb taskId metrics (performanceMetrics s) in
  let table :=
    if (1000 <? length table)%nat then ErrorRecoverySystem.last_n 500 table else table in
  set_performanceMetrics table s.

Definition formatCachedResult (cachedResult : CacheEntry) (taskId : string) (s : State)
  : TaskOutcome :=
  FromCache taskId (entry_recommendation cachedResult) (entry_timestamp cachedResult)
            (entry_specialist cachedResult) (now s - entry_timestamp cachedResult).

(** The properties of the plan are evaluated in order; the last one calls
    [this.generateConsiderations]. *)
Definition generateImplementationPlan (t : Task) (specialistInfo : option SpecialistInfo)
  (patterns : list Pattern) : Completion JsValue :=
  let relevantPatterns := firstn 3 patterns in
  let overview := "Implementation plan for " ++ domain_or t "general" ++ " task" in
  let steps := generateImplementationSteps t specialistInfo in
  (considerations <- Missing.method "generateConsiderations" ;;
   Return (JObj [("overview", JStr overview);
                 ("steps", Json.of_strings steps);
                 ("patterns", Json.of_strings (map pattern_id relevantPatterns));
                 ("technologies", Json.of_strings (info_technologies specialistInfo));
                 ("considerations", considerations)]))%completion.

(** [implementation] is the second property of the recommendation. *)
Definition generateSpecialistRecommendation (t : Task) (specialist : Specialist)
  (specialistInfo : option SpecialistInfo) (patterns : list Pattern)
  : Completion JsValue :=
  (implementation <- generateImplementationPlan t specialistInfo patterns ;;
   Return (JObj [("approach", JStr (SpecialistId.text specialist ++ "-consultation"));
                 ("implementation", implementation);
                 ("rationale", JStr (generateRationale t specialistInfo));
                 ("risks", identifyRisks t specialistInfo);
                 ("timeline", JStr (estimateTimeline t specialistInfo));
                 ("resources", identifyResources t specialistInfo);
                 ("qualityMetrics", defineQualityMetrics t);
                 ("testingStrategy", defineTestingStrategy t);
                 ("confidence",
                  F64.to_js (calculateConfidence t specialistInfo patterns))]))
  %completion.

(** The consultation object has the properties [specialist], [task],
    [recommendation], [patterns], [timestamp] and [result]; it has no
    [routing] and no [outcome]. *)
Definition executeSpecialistConsultation (t : Task) (routing : RoutingDecision)
  : Exec Consultation :=
  let specialist := routing_specialist routing in
  let specialistInfo := SpecialistRegistry.getSpecialistCapabilities specialist in
  (relevantPatterns <- Exec.call (ContextManager.getRelevantPatterns t) ;;
   recommendation <-
     Exec.lift (generateSpecialistRecommendation t specialist specialistInfo
                                                 relevantPatterns) ;;
   now <- Exec.read now ;;
   Exec.ret (mkConsultation specialist t recommendation relevantPatterns now
                            recommendation None JUndefined None))%exec.

(** [consultation.routing?.tier || 'TIER_1']. *)
Definition consultationTier (c : Consultation) : string :=
  match Json.get "tier" (consultation_routing c) with
  | JStr tier => if String.eqb tier "" then "TIER_1" else tier
  | _ => "TIER_1"
  end.

(** [self] is the recursive call [this.processTask]. *)
Definition handleQualityFailure (self : Task -> Options -> Exec TaskOutcome)
  (t : Task) (c : Consultation) (qualityValidation : QualityValidation)
  : Exec TaskOutcome :=
  (escalation <-
     Exec.lift
       (ErrorRecoverySystem.autoEscalateTier
          (consultationTier c)
          (mkFailure (Some "quality-validation-failure")
                     (Some (10 - qv_score qualityValidation * 10)%float)
                     (improvements qualityValidation)
                     JUndefined JUndefined JUndefined JUndefined JUndefined
                     None false false)) ;;
   match escalation with
   | Escalate strategy _ _ _ _ =>
       let newTask :=
         with_escalation
           (mkEscalation (strategy_from strategy) (strategy_reason strategy) c) t in
       self newTask (mkOptions None (strategy_to strategy) false)
   | CannotEscalate _ =>
       Exec.ret (QualityFailure "Quality validation failed and cannot escalate further"
                                c (improvements qualityValidation))
   end)%exec.

(** [switch (strategy.type)]. *)
Definition executeRecoveryStrategy (self : Task -> Options -> Exec TaskOutcome)
  (t : Task) (strategy : JsValue) : Exec TaskOutcome :=
  match Json.get "type" strategy with
  | JStr "retry" => self t (mkOptions None None true)
  | JStr "simplify" =>
      let simplifiedTask :=
        with_complexity (Some (F64.max 1 (F64.or_else (complexity t) 5 - 2))%float) t in
      self simplifiedTask no_options
  | _ => Exec.lift (Throw (Error "Unknown recovery strategy"))
  end.

(** The metrics that [processTask] records for a finished task. *)
Definition finished (complexityAnalysis : ComplexityAnalysis) (executionTime : Z)
  (qualityScore : float) (now : Z) : Metrics :=
  mkMetrics true executionTime (overallScore complexityAnalysis)
            (Some (tier complexityAnalysis)) (Some qualityScore) None None now None None.

(** The metrics that [handleTaskFailure] records. *)
Definition failed (executionTime : Z) (error : string) (severity : float) (now : Z)
  : Metrics :=
  mkMetrics false executionTime None None None (Some error) (Some severity) now None None.

(** [handleTaskFailure(taskId, task, error, startTime)]: the first
    statement after the reading of the clock calls
    [ErrorRecoverySystem.detectImplementationFailure], which throws. *)
Definition handleTaskFailure (self : Task -> Options -> Exec TaskOutcome)
  (taskId : string) (t : Task) (error : JsError) (startTime : Z) : Exec TaskOutcome :=
  (now <- Exec.read now ;;
   let executionTime := now - startTime in
   failureDetection <-
     Exec.lift (ErrorRecoverySystem.detectImplementationFailure (message error, t)) ;;
   recovered <-
     (if Json.truthy (recoveryStrategy failureDetection)
         && negb (detection_escalationNeeded failureDetection)
      then
        Exec.try_catch
          (recoveryResult <-
             executeRecoveryStrategy self t (recoveryStrategy failureDetection) ;;
           Exec.ret (if success recoveryResult then Some recoveryResult else None))
          (fun recoveryError => Exec.ret None)
      else Exec.ret None) ;;
   match recovered with
   | Some recoveryResult => Exec.ret recoveryResult
   | None =>
       Exec.update
         (updatePerformanceMetrics taskId
            (failed executionTime (message error) (detection_severity failureDetection)
                    now)) ;;
       learning <- Exec.read learningEnabled ;;
       (if learning : bool
        then
          ErrorRecoverySystem.integrateImplementationFailureFeedback
            (JObj [("error", JStr (message error));
                   ("severity", F64.to_js (detection_severity failureDetection))])
            (JObj [("attempted", JBool true); ("successful", JBool false)]) ;;
          Exec.ret tt
        else Exec.ret tt) ;;
       Exec.ret (Failed taskId (message error) failureDetection executionTime
                        (Json.truthy (recoveryStrategy failureDetection)))
   end)%exec.

(** [cachedResult && options.useCache !== false]. *)
Definition usable (cachedResult : option CacheEntry) (options : Options)
  : option CacheEntry :=
  match useCache options with
  | Some false => None
  | _ => cachedResult
  end.

(** Steps 4 to 8 of [processTask], for a task whose tag arrays the cache
    lookup has sorted. *)
Definition execute (self : Task -> Options -> Exec TaskOutcome) (taskId : string)
  (t : Task) (complexityAnalysis : ComplexityAnalysis) (routing : RoutingDecision)
  : Exec TaskOutcome :=
  (consultation <-
     (if String.eqb (tier complexityAnalysis) "DIRECT"
      then Exec.ret None
      else consultation <- executeSpecialistConsultation t routing ;;
           Exec.ret (Some consultation)) ;;
   match consultation with
   | None =>
       let result := executeDirectImplementation t routing in
       now <- Exec.read now ;;
       Exec.update
         (updatePerformanceMetrics taskId
            (finished complexityAnalysis 0 (F64.of_Q (9 # 10)) now)) ;;
       Exec.ret (Completed taskId result complexityAnalysis routing None 0)
   | Some consultation =>
       let result := result consultation in
       now <- Exec.read now ;;
       qualityValidation <-
         Exec.lift
           (QualityAssurance.validateSpecialistRecommendation
              now (specialist consultation) (recommendation consultation) t) ;;
       if negb (qv_passed qualityValidation) && escalationNeeded qualityValidation
       then handleQualityFailure self t consultation qualityValidation
       else
         let consultation := with_quality qualityValidation consultation in
         Exec.update (record (CallCacheSpecialistConsultation consultation)) ;;
         Exec.attempt (ContextManager.cacheSpecialistConsultation consultation) ;;
         let qualityScore := ContextManager.qualityScoreOr consultation (F64.of_Q (9 # 10)) in
         let outcome :=
           mkOutcome true result (Some 0%Q) (F64.to_num qualityScore)
                     (Some (9 # 10)%Q) None in
         Exec.update (record (CallStoreSuccessPattern consultation)) ;;
         Exec.call (ContextManager.storeSuccessPattern consultation outcome) ;;
         Exec.update
           (updatePerformanceMetrics taskId
              (finished complexityAnalysis 0 qualityScore now)) ;;
         Exec.ret (Completed taskId result complexityAnalysis routing
                             (quality consultation) 0)
   end)%exec.

(** The body of [processTask(task, options)]; [self] is the recursive
    call [this.processTask].  Of the statements of the [try] block, the
    analysis, the reading of the project context and the cache lookup
    cannot throw.  An exception of [TaskRouter.route] is caught with the
    task as it was passed; from the cache lookup on the task has its tag
    arrays sorted, also for the [catch] clause.  What [handleTaskFailure]
    throws leaves [processTask]. *)
Definition processTaskBody (self : Task -> Options -> Exec TaskOutcome)
  (t : Task) (options : Options) : Exec TaskOutcome :=
  (taskId <- Exec.call generateTaskId ;;
   startTime <- Exec.read now ;;
   Exec.update (record (CallProcessTask taskId t)) ;;
   let complexityAnalysis := TaskComplexityAnalyzer.analyzeTask t in
   projectContext <- Exec.read ContextManager.getProjectContext ;;
   match TaskRouter.route startTime t (mkRouteContext projectContext taskId options) with
   | Throw error => handleTaskFailure self taskId t error startTime
   | Return routing =>
       cachedResult <-
         Exec.call (ContextManager.retrieveSpecialistCache t (routing_specialist routing)) ;;
       let t := ContextManager.sortedTags t in
       Exec.try_catch
         (match usable cachedResult options with
          | Some entry => Exec.read (formatCachedResult entry taskId)
          | None => execute self taskId t complexityAnalysis routing
          end)
         (fun error => handleTaskFailure self taskId t error startTime)
   end)%exec.

(** [processTask(task, options)].  [fuel] bounds the nesting of calls of
    [processTask], the first one included; the result is [Pending] when
    the bound is reached, with the state reached so far. *)
Fixpoint processTask (fuel : nat) (t : Task) (options : Options) : Exec TaskOutcome :=
  match fuel with
  | O => fun s => (Pending, s)
  | S fuel' => processTaskBody (processTask fuel') t options
  end.

(** [metrics.userFeedback = feedback; metrics.userSatisfaction =
    feedback.satisfaction] on the object held by the map. *)
Definition with_feedback (feedback : Feedback) (metrics : Metrics) : Metrics :=
  mkMetrics (metrics_success metrics) (metrics_executionTime metrics)
            (metrics_complexity metrics) (metrics_tier metrics)
            (metrics_qualityScore metrics) (metrics_error metrics)
            (metrics_severity metrics) (metrics_timestamp metrics)
            (Some feedback) (satisfaction feedback).

(** [feedback.satisfaction < 0.6]. *)
Definition dissatisfied (feedback : Feedback) : bool :=
  PrimFloat.ltb (F64.number (satisfaction feedback)) (F64.of_Q (6 # 10)).

(** [processFeedback(taskId, feedback)]; [metrics.routing] is
    [undefined], no metrics object has the property. *)
Definition processFeedback (taskId : string) (feedback : Feedback) : Exec Acknowledgement :=
  (table <- Exec.read performanceMetrics ;;
   match JsMap.get String.eqb taskId table with
   | None => Exec.lift (Throw (Error ("Task " ++ taskId ++ " not found")))
   | Some metrics =>
       (if dissatisfied feedback
        then
          now <- Exec.read now ;;
          dissatisfaction <-
            Exec.lift (ErrorRecoverySystem.detectUserDissatisfaction feedback metrics now) ;;
          ErrorRecoverySystem.integrateUserDissatisfactionFeedback dissatisfaction
                                                                   JUndefined ;;
          Exec.ret tt
        else Exec.ret tt) ;;
       Exec.update
         (fun s =>
            set_performanceMetrics
              (JsMap.set String.eqb taskId (with_feedback feedback metrics)
                         (performanceMetrics s)) s) ;;
       Exec.ret (mkAcknowledgement taskId true (dissatisfied feedback))
   end)%exec.

End SubAgentOrchestrator.

(** ** Specification-side notions *)

Module Spec.


(** Neither the domain of the task nor one of its compliance tags is the
    name of a member of [Object.prototype]. *)
Definition plainKeys (t : Task) : Prop :=
  (forall d, domain t = Some d -> Proto.inherited d = false)
  /\ (forall tags tag, compliance t = Some tags -> In tag tags ->
                       Proto.inherited tag = false).

(** The fixed escalation chain. *)
Definition chain : list string := ["DIRECT"; "TIER_1"; "TIER_2"; "TIER_3"; "EXTERNAL"].

(** The tier that follows [t] in a chain. *)
Fixpoint successor_in (l : list string) (t : string) : option string :=
  match l with
  | x :: ((y :: _) as r) => if String.eqb x t then Some y else successor_in r t
  | _ => None
  end.

Definition successor (t : string) : option string := successor_in chain t.

(** A check meets its bar when its score is at or above it. *)
Definition meets (bar : Q) (c : Check) : Prop :=
  PrimFloat.leb (F64.of_Q bar) (score c) = true.

(** The six bars of the quality gate. *)
Definition everyBarMet (checks : Checks) : Prop :=
  meets (70 # 100) (expertiseAlignment checks)
  /\ meets (80 # 100) (recommendationQuality checks)
  /\ meets (80 # 100) (implementationViability checks)
  /\ riskLevel (riskAssessment checks) <> Some "high"
  /\ meets (90 # 100) (consistencyCheck checks)
  /\ meets (95 # 100) (securityCheck checks).

(** Optional tag arrays that hold the same tags, in any order. *)
Definition sameTags (a b : option (list string)) : Prop :=
  match a, b with
  | Some x, Some y => Permutation x y
  | None, None => True
  | _, _ => False
  end.

(** Two complexities in the same even bucket [[2k, 2k + 2)]; two
    complexities that are no finite numbers count as in one bucket. *)
Definition sameBucket (c1 c2 : option float) : Prop :=
  match F64.to_Q (F64.number c1), F64.to_Q (F64.number c2) with
  | Some x, Some y =>
      exists k : Z,
        (inject_Z (2 * k) <= x /\ x < inject_Z (2 * k + 2))%Q
        /\ (inject_Z (2 * k) <= y /\ y < inject_Z (2 * k + 2))%Q
  | None, None => True
  | _, _ => False
  end.

(** Tasks that the cache is to treat as equivalent. *)
Definition equivalent (t1 t2 : Task) : Prop :=
  domain t1 = domain t2
  /\ sameTags (technologies t1) (technologies t2)
  /\ sameBucket (complexity t1) (complexity t2)
  /\ sameTags (patterns t1) (patterns t2).

(** The time to live as the specification words it,
    base TTL * min(complexity / 5, 2), in doubles. *)
Definition timeToLive (base complexity : float) : float :=
  (base * F64.min (complexity / 5) 2)%float.

(** The task properties that the specification lists as the inputs of
    the complexity analysis. *)
Definition listedFieldsAgree (t1 t2 : Task) : Prop :=
  scope t1 = scope t2 /\ files t1 = files t2 /\ integrations t1 = integrations t2
  /\ technologies t1 = technologies t2 /\ patterns t1 = patterns t2
  /\ performance_requirements t1 = performance_requirements t2
  /\ scalability t1 = scalability t2 /\ domain t1 = domain t2
  /\ compliance t1 = compliance t2 /\ businessLogic t1 = businessLogic t2
  /\ dataRisk t1 = dataRisk t2 /\ systemRisk t1 = systemRisk t2
  /\ implementationRisk t1 = implementationRisk t2
  /\ timeline_pressure t1 = timeline_pressure t2.

(** The properties that the analysis reads. *)
Definition analysedFieldsAgree (t1 t2 : Task) : Prop :=
  listedFieldsAgree t1 t2
  /\ governance t1 = governance t2 /\ databases t1 = databases t2
  /\ apis t1 = apis t2 /\ services t1 = services t2 /\ crossTeam t1 = crossTeam t2.


End Spec.

(** ** Concrete inputs *)

Module Scenario.

(** A freshly constructed orchestrator, at clock reading [clock]. *)
Definition fresh (clock : Z) : State :=
  mkState clock 0 (fun n => "r" ++ Json.decimal (Z.of_nat n)) "24h"
          [] [] [] [] JUndefined [] true [] [].

(** [{complexity: 9, scope: "enterprise",
      technologies: ["distributed-systems", "microservices"]}]. *)
Definition enterpriseTask : Task :=
  mkTask None None (Some 9%float) None (Some "enterprise") None None false None None None
         false (Some ["distributed-systems"; "microservices"]) None None None None
         None None None None None None None None.

(** [{crossTeam: true}]. *)
Definition crossTeamTask : Task :=
  mkTask None None None None None None None false None None None true
         None None None None None None None None None None None None None.


(** [{description: "Sync leads", integrations: ["crm"]}]. *)
Definition integrationTask : Task :=
  mkTask (Some "Sync leads") None None None None None (Some ["crm"]) false None None
         None false None None None None None None None None None None None None None.

(** [{description: "Rename a variable", files: ["a.js"]}]. *)
Definition renameTask : Task :=
  mkTask (Some "Rename a variable") None None None None (Some ["a.js"]) None false None
         None None false None None None None None None None None None None None None
         None.

(** [{domain: "integration", technologies: ["rest"], complexityScore: 5}]. *)
Definition restTask : Task :=
  mkTask None (Some "integration") None (Some 5%float) None None None false None None
         None false (Some ["rest"]) None None None None None None None None None None
         None None.

(** [{domain: "integration", complexity: 4, technologies: ["rest", "graphql"]}]. *)
Definition apiTask : Task :=
  mkTask None (Some "integration") (Some 4%float) None None None None false None None
         None false (Some ["rest"; "graphql"]) None None None None None None None None
         None None None None.

(** [{domain: "integration", complexity: 5, technologies: ["graphql", "rest"]}]. *)
Definition apiTaskReordered : Task :=
  mkTask None (Some "integration") (Some 5%float) None None None None false None None
         None false (Some ["graphql"; "rest"]) None None None None None None None None
         None None None None.

(** A recommendation that spells out every element the quality
    assessment looks for. *)
Definition thoroughRecommendation : JsValue :=
  JObj [("description",
         JStr "REST client with error handling, logging and input validation, covered by documentation");
        ("implementation", JStr "Typed client over the REST endpoints");
        ("testing", JStr "Unit tests with mock servers");
        ("deployment", JStr "Rolling deployment");
        ("timeline", JStr "2 weeks");
        ("resources", Json.of_strings ["1 engineer"]);
        ("documentation", JStr "README and API reference")].

(** A consultation of the integration generalist on a task. *)
Definition consultationOn (t : Task) : Consultation :=
  mkConsultation (Named "integration-generalist") t thoroughRecommendation []
                 0 thoroughRecommendation None JUndefined None.

(** [{complexity: 0}] consulted with the integration generalist. *)
Definition zeroComplexityConsultation : Consultation :=
  consultationOn (with_complexity (Some 0%float) empty_task).


(** [{primaryCause: 'quality-validation-failure', severity: 4,
      qualityIssues: []}]. *)
Definition qualityFailure : Failure :=
  mkFailure (Some "quality-validation-failure") (Some 4%float) []
            JUndefined JUndefined JUndefined JUndefined JUndefined None false false.

(** [{satisfaction: 0.3}] and [{satisfaction: 0.9}]. *)
Definition unhappy : Feedback := mkFeedback (Some (F64.of_Q (3 # 10))) JUndefined.

Definition happy : Feedback := mkFeedback (Some (F64.of_Q (9 # 10))) JUndefined.





(** [{domain: "__proto__"}]. *)
Definition protoTask : Task :=
  mkTask None (Some "__proto__") None None None None None false None None None false
         None None None None None None None None None None None None None.

(** A consultation without specialist on the task [{description:
    "Rename a variable", files: ["a.js"]}]. *)
Definition directConsultation : Consultation :=
  mkConsultation Null renameTask thoroughRecommendation []
                 0 thoroughRecommendation None JUndefined None.

End Scenario.

(** ** Observations used in the statements *)

Module Observe.

(** The sub-scores that an analysis can yield. *)
Definition sub_scores : list Z := [1; 2; 3; 4; 5; 6; 7; 8; 9; 10].

(** The double-precision evaluation selects the tier of the exact one
    and stays within [1,10]. *)
Definition f64_agrees (c : Complexity) : bool :=
  String.eqb (F64.tier (F64.overallScore c))
             (tier (TaskComplexityAnalyzer.calculateOverallComplexity c))
  && PrimFloat.leb 1 (F64.overallScore c)
  && PrimFloat.leb (F64.overallScore c) 10.

(** Strings in ascending order. *)
Definition ascending : list string -> Prop :=
  StronglySorted (fun a b => String.leb a b = true).


(** [updatePatternUsage(id, o)] for each outcome [o] of a list, in order. *)
Definition reuse (id : string) (outcomes : list Outcome) (s : State) : State :=
  fold_left (fun st o => snd (ContextManager.updatePatternUsage id o st)) outcomes s.



(** Number of successful outcomes. *)
Definition successes (outcomes : list Outcome) : nat :=
  length (filter successful outcomes).

(** The consultations handed to [cacheSpecialistConsultation] or to
    [storeSuccessPattern]. *)
Definition written (c : Call) : option Consultation :=
  match c with
  | CallCacheSpecialistConsultation x | CallStoreSuccessPattern x => Some x
  | CallProcessTask _ _ => None
  end.

(** The number of entries into the pipeline of [processTask] in a log. *)
Definition entries (log : list Call) : nat :=
  length (filter (fun c => match c with CallProcessTask _ _ => true | _ => false end) log).

(** A pattern without the relevance that the last search wrote on it. *)
Definition unscored (p : Pattern) : Pattern :=
  mkPattern (pattern_id p) (pattern_task p) (pattern_specialist p) (approach p)
            (pattern_outcome p) (successMetrics p) (pattern_timestamp p)
            (usageCount p) (successRate p) (pattern_context p) (lastUsed p) None.

(** The pattern library, relevance scores apart. *)
Definition patterns_of (s : State) : list (string * Pattern) :=
  map (fun kv => (fst kv, unscored (snd kv))) (patternLibrary s).

(** A call that has completed: it returned or threw. *)
Definition completed {A : Type} (r : Result A) : bool :=
  match r with
  | Returned _ | Thrown _ => true
  | Pending => false
  end.

(** The validation of a written consultation passed every bar. *)
Definition passedEveryBar (c : Consultation) : Prop :=
  exists q, quality c = Some q /\ qv_passed q = true /\ Spec.everyBarMet (qv_checks q).

(** The four tiers of the analyzer, in ascending order. *)
Definition tierNames : list string := ["DIRECT"; "TIER_1"; "TIER_2"; "TIER_3"].

(** The position of a tier in that order. *)
Definition tierRank (tier : string) : nat :=
  if String.eqb tier "DIRECT" then 0
  else if String.eqb tier "TIER_1" then 1
  else if String.eqb tier "TIER_2" then 2
  else 3.

(** The number of a tier that consults specialists. *)
Definition tierNumber (tier : string) : option Z :=
  Js.assoc tier [("TIER_1", 1); ("TIER_2", 2); ("TIER_3", 3)].

(** The registry holds [name] at the tier [tier], and the router has a
    capability profile for it. *)
Definition registeredAt (tier name : string) : bool :=
  match SpecialistRegistry.getSpecialistCapabilities (Named name), tierNumber tier,
        Js.assoc name TaskRouter.capabilities with
  | Some info, Some n, Some _ => specialist_tier info =? n
  | _, _, _ => false
  end.

(** The domain of the task names no member that an entry of the
    specialist table inherits from its prototype. *)
Definition plainDomain (t : Task) : bool :=
  match Js.assoc (TaskRouter.identifyDomain t) Proto.objectMembers,
        Js.assoc (TaskRouter.identifyDomain t) Proto.arrayMembers with
  | None, None => true
  | _, _ => false
  end.

End Observe.

(** * Properties *)


(** ** Complexity analysis *)

Module AnalyzerFacts.

Import TaskComplexityAnalyzer.

Lemma bump_nonneg (c : bool) (k : Z) : 0 <= k -> 0 <= bump c k.
Proof. destruct c; simpl; lia. Qed.

Lemma table_nonneg [table : list (string * Z)] [key : string] [k : Z] :
  Forall (fun kv => 0 <= snd kv) table -> Js.assoc key table = Some k -> 0 <= k.
Proof.
  induction 1 as [| [k' v] r Hv _ IH]; simpl; [discriminate |].
  destruct (String.eqb k' key); [intros [= <-]; exact Hv | exact IH].
Qed.

Lemma complexDomains_nonneg : Forall (fun kv => 0 <= snd kv) complexDomains.
Proof. repeat constructor; simpl; lia. Qed.

Lemma complianceComplexity_nonneg : Forall (fun kv => 0 <= snd kv) complianceComplexity.
Proof. repeat constructor; simpl; lia. Qed.

(** A key that is not inherited leaves a numeric score numeric, and does
    not lower it. *)
Lemma add_entry_plain [table : list (string * Z)] (key : string) (score : Z) :
  Forall (fun kv => 0 <= snd kv) table -> Proto.inherited key = false ->
  exists score', add_entry table (Some score) key = Some score' /\ score <= score'.
Proof.
  intros Htable Hkey. unfold add_entry.
  destruct (Js.assoc key table) as [k |] eqn:E.
  - pose proof (table_nonneg Htable E).
    destruct (k =? 0); eexists; (split; [reflexivity | lia]).
  - rewrite Hkey. eexists; split; [reflexivity | lia].
Qed.

Lemma compliance_sum_ge (tags : list string) (score : Z) :
  (forall tag, In tag tags -> Proto.inherited tag = false) ->
  exists score',
    fold_left (add_entry complianceComplexity) tags (Some score) = Some score'
    /\ score <= score'.
Proof.
  revert score; induction tags as [| tag tags IH]; intros score Hplain; cbn [fold_left].
  - eexists; split; [reflexivity | lia].
  - destruct (add_entry_plain tag score complianceComplexity_nonneg
                              (Hplain tag (or_introl eq_refl)))
      as [score1 [E1 H1]].
    rewrite E1.
    destruct (IH score1 (fun x Hx => Hplain x (or_intror Hx))) as [score2 [E2 H2]].
    exists score2; split; [exact E2 | lia].
Qed.

(** Every [bump] is replaced by a non-negative unknown, every remaining
    test is split. *)
Ltac score_cases :=
  cbv zeta;
  repeat match goal with
         | |- context [bump ?c ?k] =>
             let b := fresh "b" in
             let Hb := fresh "Hb" in
             assert (Hb : 0 <= bump c k) by (apply bump_nonneg; lia);
             set (b := bump c k) in *; clearbody b
         end;
  repeat match goal with
         | |- context [if ?c then _ else _] => destruct c
         end.

Lemma analyzeScopeComplexity_range (t : Task) : 1 <= analyzeScopeComplexity t <= 10.
Proof. unfold analyzeScopeComplexity. score_cases; lia. Qed.

Lemma analyzeTechnicalComplexity_range (t : Task) :
  1 <= analyzeTechnicalComplexity t <= 10.
Proof.
  unfold analyzeTechnicalComplexity.
  destruct (integrations t) as [l |]; score_cases; lia.
Qed.

Lemma analyzeDomainComplexity_range (t : Task) :
  Spec.plainKeys t ->
  exists score, analyzeDomainComplexity t = Some score /\ 1 <= score <= 10.
Proof.
  intros [Hdomain Hcompliance]. unfold analyzeDomainComplexity.
  assert (Hstart : exists start,
             match domain t with
             | Some d => add_entry complexDomains (Some 1) d
             | None => Some 1
             end = Some start /\ 1 <= start).
  { destruct (domain t) as [d |].
    - exact (add_entry_plain d 1 complexDomains_nonneg (Hdomain d eq_refl)).
    - exists 1; split; [reflexivity | lia]. }
  destruct Hstart as [start [Estart Hstart]]. rewrite Estart.
  assert (Htags : exists tagged,
             match compliance t with
             | Some l => fold_left (add_entry complianceComplexity) l (Some start)
             | None => Some start
             end = Some tagged /\ start <= tagged).
  { destruct (compliance t) as [l |].
    - exact (compliance_sum_ge l start (fun tag => Hcompliance l tag eq_refl)).
    - exists start; split; [reflexivity | lia]. }
  destruct Htags as [tagged [Etagged Htagged]]. rewrite Etagged.
  cbn [option_map]. eexists; split; [reflexivity |].
  score_cases; lia.
Qed.

(** An inherited domain, or one inherited compliance tag, makes the
    domain score [NaN]. *)
Lemma add_entry_NaN (table : list (string * Z)) (key : string) :
  add_entry table None key = None.
Proof.
  unfold add_entry. destruct (Js.assoc key table) as [k |].
  - now destruct (k =? 0).
  - now destruct (Proto.inherited key).
Qed.

Lemma analyzeRiskLevel_range (t : Task) : 1 <= analyzeRiskLevel t <= 10.
Proof. unfold analyzeRiskLevel. score_cases; lia. Qed.




(** *** Double precision *)

Import Observe.

Lemma f64_agrees_on_sub_scores :
  forallb (fun s => forallb (fun t => forallb (fun d => forallb (fun r =>
    f64_agrees (mkComplexity s t (Some d) r)) sub_scores) sub_scores) sub_scores) sub_scores
  = true.
Proof. vm_compute. reflexivity. Qed.

Lemma in_sub_scores [z : Z] : 1 <= z <= 10 -> In z sub_scores.
Proof.
  intros H. unfold sub_scores. simpl.
  assert (z = 1 \/ z = 2 \/ z = 3 \/ z = 4 \/ z = 5 \/ z = 6 \/ z = 7 \/ z = 8
          \/ z = 9 \/ z = 10) by lia.
  intuition auto.
Qed.

Lemma f64_agrees_in_range [s t d r : Z] :
  1 <= s <= 10 -> 1 <= t <= 10 -> 1 <= d <= 10 -> 1 <= r <= 10 ->
  f64_agrees (mkComplexity s t (Some d) r) = true.
Proof.
  intros Hs Ht Hd Hr.
  pose proof f64_agrees_on_sub_scores as H.
  rewrite forallb_forall in H. specialize (H s (in_sub_scores Hs)).
  rewrite forallb_forall in H. specialize (H t (in_sub_scores Ht)).
  rewrite forallb_forall in H. specialize (H d (in_sub_scores Hd)).
  rewrite forallb_forall in H. exact (H r (in_sub_scores Hr)).
Qed.




End AnalyzerFacts.

(** ** What the analysis reads *)

Module NonInterference.

Import TaskComplexityAnalyzer.

Lemma with_complexity_agrees (c : option float) (t : Task) :
  Spec.analysedFieldsAgree t (with_complexity c t).
Proof. destruct t; repeat split. Qed.

Lemma analysis_determined (t1 t2 : Task) :
  Spec.analysedFieldsAgree t1 t2 -> analyzeTask t1 = analyzeTask t2.
Proof.
  intros H. unfold Spec.analysedFieldsAgree, Spec.listedFieldsAgree in H.
  decompose [and] H; clear H.
  unfold analyzeTask, analyzeScopeComplexity, analyzeTechnicalComplexity,
    analyzeDomainComplexity, analyzeRiskLevel.
  repeat match goal with
         | E : ?f t1 = ?f t2 |- _ => rewrite E; clear E
         end.
  reflexivity.
Qed.

(** The escalation envelope is not read either. *)
Lemma analyzeTask_with_escalation (e : Escalation) (t : Task) :
  analyzeTask (with_escalation e t) = analyzeTask t.
Proof. apply analysis_determined. destruct t; repeat split. Qed.

(** C10, amended.  The analysis of a task is unchanged by a change of
    its raw [complexity]; it is determined by the listed properties
    together with [governance], [databases], [apis], [services] and
    [crossTeam]. *)
Theorem analyzeTask_reads_analysed_fields (t1 t2 : Task) :
  (forall c, analyzeTask (with_complexity c t1) = analyzeTask t1)
  /\ (Spec.analysedFieldsAgree t1 t2 -> analyzeTask t1 = analyzeTask t2).
Proof.
  split.
  - intros c. symmetry. apply analysis_determined, with_complexity_agrees.
  - apply analysis_determined.
Qed.

(** The enterprise scenario with its raw complexity lowered from 9 to 2
    is analysed as before. *)
Lemma analyzeTask_reads_analysed_fields_witness :
  Spec.analysedFieldsAgree Scenario.enterpriseTask
                           (with_complexity (Some 2%float) Scenario.enterpriseTask)
  /\ analyzeTask Scenario.enterpriseTask
     = analyzeTask (with_complexity (Some 2%float) Scenario.enterpriseTask).
Proof.
  split.
  - apply with_complexity_agrees.
  - apply (proj2 (analyzeTask_reads_analysed_fields
                    Scenario.enterpriseTask
                    (with_complexity (Some 2%float) Scenario.enterpriseTask))).
    apply with_complexity_agrees.
Defined.

(** C10 as stated fails: two tasks that agree on every listed property
    and differ in [crossTeam] are analysed differently. *)
Lemma listed_fields_do_not_determine_analysis :
  Spec.listedFieldsAgree empty_task Scenario.crossTeamTask
  /\ analyzeTask empty_task <> analyzeTask Scenario.crossTeamTask.
Proof.
  split.
  - repeat split.
  - intros H. apply (f_equal (fun a => c_scope (breakdown a))) in H.
    vm_compute in H. discriminate.
Qed.

End NonInterference.

(** ** The enterprise scenario *)

Module RoutingFacts.

(** C7, amended.  The task [{complexity: 9, scope: "enterprise",
    technologies: ["distributed-systems", "microservices"]}] is routed to
    TIER_1 with overall score 4.6 (scope 10, technical 4, domain 1,
    risk 1; 4.6000000000000005 in double precision), receives the
    three-item checklist, and is given the tier-1
    specialist [integration-generalist], the only candidate for the
    inferred domain [integration]. *)
Theorem enterprise_scenario_routing (now : Z) (context : RouteContext) :
  exists r,
    TaskRouter.route now Scenario.enterpriseTask context = Return r
    /\ routing_tier r = "TIER_1"
    /\ breakdown (routing_complexity r) = mkComplexity 10 4 (Some 1) 1
    /\ (exists score,
          overallScore (routing_complexity r) = Some score /\ (score == 46 # 10)%Q)
    /\ F64.overallScore (breakdown (routing_complexity r)) = 0x1.2666666666667p+2%float
    /\ F64.tier (F64.overallScore (breakdown (routing_complexity r))) = "TIER_1"
    /\ length (qualityChecks r) = 3%nat
    /\ TaskRouter.identifyDomain Scenario.enterpriseTask = "integration"
    /\ TaskRouter.getSpecialistsForDomain "integration" "TIER_1"
       = Listed ["integration-generalist"]
    /\ routing_specialist r = Named "integration-generalist"
    /\ option_map specialist_tier
         (SpecialistRegistry.getSpecialistCapabilities (routing_specialist r)) = Some 1.
Proof.
  eexists. split; [vm_compute; reflexivity |].
  cbn [routing_tier routing_complexity breakdown overallScore qualityChecks
       routing_specialist].
  split; [reflexivity |]. split; [reflexivity |].
  split; [eexists; split; [reflexivity | reflexivity] |].
  repeat split; vm_compute; reflexivity.
Qed.

(** C7 as stated fails: the routing of the scenario task is not TIER_3
    with eight checks and a tier-3 specialist. *)
Lemma enterprise_scenario_is_not_tier_3 :
  exists r,
    TaskRouter.route 0 Scenario.enterpriseTask
                     (mkRouteContext JUndefined "task_0_r0" no_options) = Return r
    /\ ~ (routing_tier r = "TIER_3"
          /\ length (qualityChecks r) = 8%nat
          /\ option_map specialist_tier
               (SpecialistRegistry.getSpecialistCapabilities (routing_specialist r))
             = Some 3).
Proof.
  eexists. split; [vm_compute; reflexivity |].
  cbn [routing_tier]. intros [H _]. discriminate.
Qed.

End RoutingFacts.

(** ** Escalation *)

Module EscalationFacts.

Import ErrorRecoverySystem.

(** The matrix pairs each tier of the chain but the last with the tier
    that follows it. *)
Lemma escalationMatrix_is_chain :
  map (fun entry => (fst entry, Some (fst (snd entry)))) escalationMatrix
  = map (fun tier => (tier, Spec.successor tier)) ["DIRECT"; "TIER_1"; "TIER_2"; "TIER_3"].
Proof. reflexivity. Qed.

(** A call that finds an entry, or an inherited member, does not get past
    [estimateResolutionTime]. *)
Lemma autoEscalateTier_found (currentTier : string) (failure : Failure)
  (found : option string * option string) :
  escalationFor currentTier = Some found ->
  autoEscalateTier currentTier failure
  = match identifyRequiredExpertise failure with
    | Throw e => Throw e
    | Return _ => Throw (Missing.notAFunction "this.estimateResolutionTime")
    end.
Proof.
  intros E. unfold autoEscalateTier. rewrite E. destruct found as [to reason].
  now destruct (identifyRequiredExpertise failure).
Qed.

(** C3.  The escalation matrix is the chain DIRECT, TIER_1, TIER_2, TIER_3,
    EXTERNAL, and EXTERNAL, which has no entry, is answered with
    [canEscalate: false]; but for a current tier that has an entry the
    call throws, at [this.estimateResolutionTime] if not before, so that
    [autoEscalateTier] never returns an escalation. *)
Theorem autoEscalateTier_never_escalates (currentTier : string) (failure : Failure) :
  map (fun entry => (fst entry, Some (fst (snd entry)))) escalationMatrix
  = map (fun tier => (tier, Spec.successor tier)) ["DIRECT"; "TIER_1"; "TIER_2"; "TIER_3"]
  /\ autoEscalateTier currentTier failure
     = match escalationFor currentTier with
       | None => Return (CannotEscalate "Maximum tier reached")
       | Some _ =>
           match identifyRequiredExpertise failure with
           | Throw e => Throw e
           | Return _ => Throw (Missing.notAFunction "this.estimateResolutionTime")
           end
       end
  /\ autoEscalateTier "EXTERNAL" failure = Return (CannotEscalate "Maximum tier reached")
  /\ Forall (fun tier => Completion.returned (autoEscalateTier tier failure) = false)
            ["DIRECT"; "TIER_1"; "TIER_2"; "TIER_3"]
  /\ autoEscalateTier "TIER_1" Scenario.qualityFailure
     = Throw (Missing.notAFunction "this.estimateResolutionTime")
  /\ match autoEscalateTier currentTier failure with
     | Return r => canEscalate r = false
     | Throw _ => True
     end.
Proof.
  split; [exact escalationMatrix_is_chain |].
  assert (Hcall : autoEscalateTier currentTier failure
                  = match escalationFor currentTier with
                    | None => Return (CannotEscalate "Maximum tier reached")
                    | Some _ =>
                        match identifyRequiredExpertise failure with
                        | Throw e => Throw e
                        | Return _ =>
                            Throw (Missing.notAFunction "this.estimateResolutionTime")
                        end
                    end).
  { destruct (escalationFor currentTier) as [found |] eqn:E.
    - exact (autoEscalateTier_found currentTier failure found E).
    - unfold autoEscalateTier. now rewrite E. }
  split; [exact Hcall |].
  split; [reflexivity |].
  split.
  { assert (Hfound : forall tier found,
               escalationFor tier = Some found ->
               Completion.returned (autoEscalateTier tier failure) = false).
    { intros tier found E. rewrite (autoEscalateTier_found tier failure found E).
      now destruct (identifyRequiredExpertise failure). }
    repeat constructor; eapply Hfound; reflexivity. }
  split; [reflexivity |].
  rewrite Hcall.
  destruct (escalationFor currentTier); [| reflexivity].
  now destruct (identifyRequiredExpertise failure).
Qed.

End EscalationFacts.

(** ** The quality gate *)

Module GateFacts.

Import QualityAssurance.






(** The task [{domain: "integration", technologies: ["rest"],
    complexityScore: 5}] is aligned in all three respects. *)
Lemma checkExpertiseAlignment_rest :
  checkExpertiseAlignment (Named "integration-generalist") Scenario.restTask
  = mkCheck true 1 None.
Proof. vm_compute. reflexivity. Qed.


End GateFacts.

(** ** [Map] objects *)

Module MapFacts.

Lemma get_set_eq {V : Type} (m : list (string * V)) (k : string) (v : V) :
  JsMap.get String.eqb k (JsMap.set String.eqb k v m) = Some v.
Proof.
  induction m as [| [k' v'] r IH]; simpl.
  - now rewrite String.eqb_refl.
  - destruct (String.eqb k' k) eqn:E; simpl; rewrite E; [reflexivity | exact IH].
Qed.

Lemma get_delete_eq {V : Type} (m : list (string * V)) (k : string) :
  JsMap.get String.eqb k (JsMap.delete String.eqb k m) = None.
Proof.
  induction m as [| [k' v'] r IH]; simpl; [reflexivity |].
  destruct (String.eqb k' k) eqn:E; simpl; [exact IH |].
  rewrite E. exact IH.
Qed.

End MapFacts.

(** ** Feedback *)

Module FeedbackFacts.

Import SubAgentOrchestrator StateUpdate.

(** C9.  [processFeedback] throws ['Task <id> not found'] for an id
    without recorded metrics and leaves the state as it is.  For a known
    id and a satisfaction that is not below 0.6 it stores the feedback on
    the metrics and returns an acknowledgement with [systemUpdated:
    false].  For a known id and a satisfaction below 0.6 it returns no
    acknowledgement: the dissatisfaction path throws at
    [this.calculateSatisfactionScore], and nothing is stored. *)
Theorem processFeedback_outcome (taskId : string) (feedback : Feedback) (s : State) :
  processFeedback taskId feedback s
  = match JsMap.get String.eqb taskId (performanceMetrics s) with
    | None => (Thrown (Error ("Task " ++ taskId ++ " not found")), s)
    | Some metrics =>
        if dissatisfied feedback
        then (Thrown (Missing.notAFunction "this.calculateSatisfactionScore"), s)
        else (Returned (mkAcknowledgement taskId true false),
              set_performanceMetrics
                (JsMap.set String.eqb taskId (with_feedback feedback metrics)
                           (performanceMetrics s)) s)
    end.
Proof.
  unfold processFeedback, Exec.bind, Exec.read.
  destruct (JsMap.get String.eqb taskId (performanceMetrics s)) as [metrics |];
    [| reflexivity].
  destruct (dissatisfied feedback) eqn:E; cbn; rewrite ?E; reflexivity.
Qed.

(** A task that direct implementation finishes has metrics; feedback with
    satisfaction 0.3 on it throws, feedback with satisfaction 0.9 is
    acknowledged. *)
Lemma feedback_on_finished_task :
  let run := processTask 1 Scenario.renameTask no_options (Scenario.fresh 0) in
  (exists result complexity routing,
     fst run = Returned (Completed "task_0_r0" result complexity routing None 0))
  /\ fst (processFeedback "task_0_r0" Scenario.unhappy (snd run))
     = Thrown (Missing.notAFunction "this.calculateSatisfactionScore")
  /\ snd (processFeedback "task_0_r0" Scenario.unhappy (snd run)) = snd run
  /\ fst (processFeedback "task_0_r0" Scenario.happy (snd run))
     = Returned (mkAcknowledgement "task_0_r0" true false).
Proof.
  cbv zeta. split.
  - eexists. eexists. eexists. vm_compute. reflexivity.
  - repeat split; vm_compute; reflexivity.
Qed.

End FeedbackFacts.

(** ** The pattern library *)

Module PatternFacts.

Import ContextManager StateUpdate Observe.















End PatternFacts.

(** ** Sorting tag arrays *)

Module SortFacts.

Import ContextManager Observe.

Lemma ascii_compare_cases (x y z : ascii) :
  match Ascii.compare x y, Ascii.compare y z with
  | Eq, c | c, Eq => Ascii.compare x z = c
  | Lt, Lt => Ascii.compare x z = Lt
  | Gt, Gt => Ascii.compare x z = Gt
  | _, _ => True
  end.
Proof.
  unfold Ascii.compare.
  destruct (N.compare_spec (N_of_ascii x) (N_of_ascii y)) as [E1 | L1 | G1];
    destruct (N.compare_spec (N_of_ascii y) (N_of_ascii z)) as [E2 | L2 | G2];
    try exact I;
    try (rewrite N.compare_eq_iff; lia);
    try (rewrite N.compare_lt_iff; lia);
    try (rewrite N.compare_gt_iff; lia).
Qed.

Lemma leb_trans (a b c : string) :
  String.leb a b = true -> String.leb b c = true -> String.leb a c = true.
Proof.
  unfold String.leb. revert b c.
  induction a as [| x a IH]; intros [| y b] [| z c]; cbn [String.compare];
    try reflexivity; try discriminate.
  pose proof (ascii_compare_cases x y z) as H.
  destruct (Ascii.compare x y); destruct (Ascii.compare y z);
    try discriminate; rewrite ?H; try reflexivity.
  apply IH.
Qed.

Lemma insert_sorted_permutation (x : string) (l : list string) :
  Permutation (insert_sorted x l) (x :: l).
Proof.
  induction l as [| y l IH]; cbn [insert_sorted]; [reflexivity |].
  destruct (String.leb x y); [reflexivity |].
  rewrite IH. apply perm_swap.
Qed.

Lemma sort_permutation (l : list string) : Permutation (sort l) l.
Proof.
  unfold sort. induction l as [| x l IH]; cbn [fold_right]; [reflexivity |].
  rewrite insert_sorted_permutation. now constructor.
Qed.

Lemma insert_sorted_ascending (x : string) (l : list string) :
  ascending l -> ascending (insert_sorted x l).
Proof.
  unfold ascending. induction 1 as [| y l Hl IH Hy]; cbn [insert_sorted].
  - repeat constructor.
  - destruct (String.leb x y) eqn:E.
    + constructor; [now constructor |].
      constructor; [exact E |].
      eapply Forall_impl; [| exact Hy]. intros z Hz. exact (leb_trans x y z E Hz).
    + constructor; [exact IH |].
      eapply Permutation_Forall; [symmetry; apply insert_sorted_permutation |].
      constructor; [| exact Hy].
      destruct (String.leb_total x y) as [H | H]; [congruence | exact H].
Qed.

Lemma sort_ascending (l : list string) : ascending (sort l).
Proof.
  unfold sort. induction l as [| x l IH]; cbn [fold_right].
  - constructor.
  - now apply insert_sorted_ascending.
Qed.

Lemma ascending_unique (l l' : list string) :
  ascending l -> ascending l' -> Permutation l l' -> l = l'.
Proof.
  unfold ascending. intros Hl. revert l'.
  induction Hl as [| x l Hl IH Hx]; intros l' Hl' Hp.
  - apply Permutation_nil in Hp. now subst.
  - destruct Hl' as [| y l' Hl' Hy].
    + symmetry in Hp. apply Permutation_nil in Hp. discriminate.
    + assert (Hxy : String.leb x y = true).
      { assert (Hin : In y (x :: l))
          by (eapply Permutation_in; [symmetry; exact Hp | now left]).
        destruct Hin as [-> | Hin].
        - destruct (String.leb_total y y); assumption.
        - rewrite Forall_forall in Hx. now apply Hx. }
      assert (Hyx : String.leb y x = true).
      { assert (Hin : In x (y :: l'))
          by (eapply Permutation_in; [exact Hp | now left]).
        destruct Hin as [-> | Hin].
        - exact Hxy.
        - rewrite Forall_forall in Hy. now apply Hy. }
      pose proof (String.leb_antisym _ _ Hxy Hyx) as E. subst y.
      f_equal. apply IH; [exact Hl' |].
      eapply Permutation_cons_inv. exact Hp.
Qed.

(** Sorting forgets the order in which the tags were given. *)
Lemma sort_of_permutation (l l' : list string) :
  Permutation l l' -> sort l = sort l'.
Proof.
  intros H. apply ascending_unique; try apply sort_ascending.
  rewrite !sort_permutation. exact H.
Qed.

End SortFacts.

(** ** The specialist cache *)

Module CacheFacts.

Import ContextManager StateUpdate.

Lemma sameTags_sorted (a b : option (list string)) :
  Spec.sameTags a b -> option_map sort a = option_map sort b.
Proof.
  destruct a as [x |], b as [y |]; cbn [Spec.sameTags option_map];
    try contradiction; [| reflexivity].
  intros H. f_equal. now apply SortFacts.sort_of_permutation.
Qed.

(** A number in [[2k, 2k + 2)] has [k] as the floor of its half. *)
Lemma floor_of_half (x : Q) (k : Z) :
  (inject_Z (2 * k) <= x)%Q -> (x < inject_Z (2 * k + 2))%Q -> Qfloor (x / 2) = k.
Proof.
  intros Hl Hu.
  assert (E1 : (inject_Z (2 * k) == 2 * inject_Z k)%Q)
    by (rewrite inject_Z_mult; reflexivity).
  assert (E2 : (inject_Z (2 * k + 2) == 2 * inject_Z k + 2)%Q)
    by (rewrite inject_Z_plus, inject_Z_mult; reflexivity).
  assert (E3 : (inject_Z (k + 1) == inject_Z k + 1)%Q)
    by (rewrite inject_Z_plus; reflexivity).
  rewrite E1 in Hl. rewrite E2 in Hu.
  assert (Hk : (inject_Z k <= x / 2)%Q)
    by (change (x / 2)%Q with (x * (1 # 2))%Q; lra).
  assert (Hk1 : (x / 2 < inject_Z (k + 1))%Q)
    by (change (x / 2)%Q with (x * (1 # 2))%Q; lra).
  apply Z.le_antisymm.
  - apply Z.lt_succ_r. unfold Z.succ. rewrite Zlt_Qlt.
    eapply Qle_lt_trans; [apply Qfloor_le |]. exact Hk1.
  - rewrite <- (Qfloor_Z k). now apply Qfloor_resp_le.
Qed.

(** Complexities in the same even bucket are written alike in the
    fingerprint. *)
Lemma bucket_sameBucket (c1 c2 : option float) :
  Spec.sameBucket c1 c2 ->
  PrimFloat.eqb (F64.number c1) F64.leastNegative = false ->
  PrimFloat.eqb (F64.number c2) F64.leastNegative = false ->
  F64.to_js (bucket c1) = F64.to_js (bucket c2).
Proof.
  unfold Spec.sameBucket, bucket, F64.evenFloor. intros H E1 E2. rewrite E1, E2.
  destruct (F64.to_Q (F64.number c1)) as [x |] eqn:Ex,
           (F64.to_Q (F64.number c2)) as [y |] eqn:Ey; try contradiction.
  - destruct H as [k [[Hx1 Hx2] [Hy1 Hy2]]].
    now rewrite (floor_of_half x k Hx1 Hx2), (floor_of_half y k Hy1 Hy2).
  - unfold F64.to_js. now rewrite Ex, Ey.
Qed.

(** Equivalent tasks have the same fingerprint, hence the same cache key. *)
Lemma generateCacheKey_equivalent (t t' : Task) (specialist : Specialist) :
  Spec.equivalent t t' ->
  PrimFloat.eqb (F64.number (complexity t)) F64.leastNegative = false ->
  PrimFloat.eqb (F64.number (complexity t')) F64.leastNegative = false ->
  generateCacheKey t specialist = generateCacheKey t' specialist.
Proof.
  intros [Hd [Ht [Hc Hp]]] E E'.
  unfold generateCacheKey, generateTaskFingerprint, fingerprintKey.
  now rewrite Hd, (sameTags_sorted _ _ Ht), (bucket_sameBucket _ _ Hc E E'),
    (sameTags_sorted _ _ Hp).
Qed.

(** The time to live that [calculateExpiration] uses is the stated
    formula at the complexity of the task, or at 5 when the task has
    none, or has complexity 0 or [NaN]. *)
Lemma timeToLive_formula (base : float) (c : option float) :
  timeToLive base c = Spec.timeToLive base (F64.or_else c 5).
Proof. reflexivity. Qed.

(** What [cacheSpecialistConsultation] does, by the expiry that
    [calculateExpiration] arrives at. *)
Lemma cacheSpecialistConsultation_stores (c : Consultation) (s : State) (expiry : Z) :
  calculateExpiration c s = Return expiry ->
  exists entry s1,
    cacheSpecialistConsultation c s = (Return entry, s1)
    /\ cacheKey entry = generateCacheKey (task c) (specialist c)
    /\ expirationTime entry = expiry
    /\ specialistCache s1
       = JsMap.set String.eqb (cacheKey entry) entry (specialistCache s).
Proof.
  intros E. unfold cacheSpecialistConsultation. rewrite E.
  eexists. eexists. split; [reflexivity |]. repeat split.
Qed.

(** C5, amended.  [cacheSpecialistConsultation] stores a consultation
    with the expiry instant [now + base TTL * min(c / 5, 2)], computed in
    doubles and cut to a whole millisecond, where [c] is the complexity
    of the stored task, or 5 when that is absent, 0 or [NaN]; when that
    instant is no valid date it throws a [RangeError] and stores nothing.
    After a consultation was stored, [retrieveSpecialistCache] with the
    same specialist and an equivalent task (same domain, same
    technologies and pattern tags in any order, complexity in the same
    even bucket, neither complexity being the least negative double)
    returns the stored entry and logs a hit as long as the clock has not
    passed the expiry instant, and returns nothing and removes the entry
    once it has. *)
Theorem cache_round_trip (c : Consultation) (t' : Task) (s : State) (later : Z) :
  Spec.equivalent (task c) t' ->
  PrimFloat.eqb (F64.number (complexity (task c))) F64.leastNegative = false ->
  PrimFloat.eqb (F64.number (complexity t')) F64.leastNegative = false ->
  let base := parseTimeString (cacheExpiration s) in
  let ttl := Spec.timeToLive base (F64.or_else (complexity (task c)) 5) in
  match Date.timeClip (F64.of_int (now s) + ttl)%float with
  | None =>
      cacheSpecialistConsultation c s = (Throw (RangeError "Invalid time value"), s)
  | Some expiry =>
      exists entry s1,
        cacheSpecialistConsultation c s = (Return entry, s1)
        /\ expirationTime entry = expiry
        /\ JsMap.get String.eqb (cacheKey entry) (specialistCache s1) = Some entry
        /\ let s' := set_now later s1 in
           let found := retrieveSpecialistCache t' (specialist c) s' in
           if later <=? expiry
           then found = (Some entry, recordCacheHit (cacheKey entry) s')
                /\ JsMap.get String.eqb (cacheKey entry) (specialistCache (snd found))
                   = Some entry
           else fst found = None
                /\ JsMap.get String.eqb (cacheKey entry) (specialistCache (snd found))
                   = None
  end.
Proof.
  intros Heq E E' base ttl.
  destruct (Date.timeClip (F64.of_int (now s) + ttl)%float) as [expiry |] eqn:Eclip.
  - assert (Hexp : calculateExpiration c s = Return expiry).
    { unfold calculateExpiration. rewrite timeToLive_formula.
      fold base. fold ttl. now rewrite Eclip. }
    destruct (cacheSpecialistConsultation_stores c s expiry Hexp)
      as [entry [s1 [Hstore [Hkey [Hexpiry Hcache]]]]].
    exists entry, s1.
    assert (Hget : JsMap.get String.eqb (cacheKey entry) (specialistCache s1)
                   = Some entry).
    { rewrite Hcache. apply MapFacts.get_set_eq. }
    split; [exact Hstore |]. split; [exact Hexpiry |]. split; [exact Hget |].
    cbv zeta. unfold retrieveSpecialistCache.
    rewrite <- (generateCacheKey_equivalent (task c) t' (specialist c) Heq E E').
    rewrite <- Hkey.
    replace (specialistCache (set_now later s1)) with (specialistCache s1)
      by reflexivity.
    rewrite Hget. unfold isCacheExpired. rewrite Hexpiry.
    replace (now (set_now later s1)) with later by reflexivity.
    rewrite Z.ltb_antisym.
    destruct (later <=? expiry); cbn [negb fst snd].
    + split; [reflexivity |]. exact Hget.
    + split; [reflexivity |]. cbn [specialistCache set_specialistCache].
      apply MapFacts.get_delete_eq.
  - unfold cacheSpecialistConsultation, calculateExpiration.
    rewrite timeToLive_formula. fold base. fold ttl. now rewrite Eclip.
Qed.

(** The two API tasks are equivalent: complexities 4 and 5 lie in
    [[4, 6)]. *)
Lemma apiTasks_equivalent :
  Spec.equivalent Scenario.apiTask Scenario.apiTaskReordered.
Proof.
  split; [reflexivity |]. split; [apply perm_swap |]. split; [| exact I].
  unfold Spec.sameBucket.
  set (x := F64.to_Q (F64.number (complexity Scenario.apiTask))).
  vm_compute in x. subst x.
  set (y := F64.to_Q (F64.number (complexity Scenario.apiTaskReordered))).
  vm_compute in y. subst y.
  exists 2.
  split; (split; [apply Qle_bool_iff | apply Qlt_alt]; reflexivity).
Qed.

(** An entry stored at instant 0 for a task of complexity 4 under the
    base TTL of 24 hours expires at 69120000 ms; an equivalent task
    (technologies in another order, complexity 5) finds it at that
    instant and no longer one millisecond later. *)
Lemma cache_round_trip_witness :
  let c := Scenario.consultationOn Scenario.apiTask in
  Spec.equivalent (task c) Scenario.apiTaskReordered
  /\ exists entry s1,
       cacheSpecialistConsultation c (Scenario.fresh 0) = (Return entry, s1)
       /\ expirationTime entry = 69120000
       /\ fst (retrieveSpecialistCache Scenario.apiTaskReordered (specialist c)
                                       (set_now 69120000 s1)) = Some entry
       /\ fst (retrieveSpecialistCache Scenario.apiTaskReordered (specialist c)
                                       (set_now 69120001 s1)) = None.
Proof.
  intros c.
  split; [exact apiTasks_equivalent |].
  pose proof (cache_round_trip c Scenario.apiTaskReordered (Scenario.fresh 0) 69120000
                               apiTasks_equivalent eq_refl eq_refl) as Hhit.
  pose proof (cache_round_trip c Scenario.apiTaskReordered (Scenario.fresh 0) 69120001
                               apiTasks_equivalent eq_refl eq_refl) as Hmiss.
  cbv zeta in Hhit, Hmiss.
  replace (Date.timeClip
             (F64.of_int (now (Scenario.fresh 0))
              + Spec.timeToLive (parseTimeString (cacheExpiration (Scenario.fresh 0)))
                                (F64.or_else (complexity (task c)) 5))%float)
    with (Some 69120000) in Hhit, Hmiss by (vm_compute; reflexivity).
  destruct Hhit as [entry [s1 [Hstore [Hexpiry [_ Hhit]]]]].
  destruct Hmiss as [entry' [s1' [Hstore' [_ [_ Hmiss]]]]].
  rewrite Hstore in Hstore'. injection Hstore' as <- <-.
  exists entry, s1.
  split; [exact Hstore |]. split; [exact Hexpiry |].
  change (69120000 <=? 69120000) with true in Hhit.
  change (69120001 <=? 69120000) with false in Hmiss.
  cbv iota in Hhit, Hmiss.
  split; [destruct Hhit as [Hfound _]; now rewrite Hfound | exact (proj1 Hmiss)].
Defined.

(** The expiry instant is the double sum cut to a whole millisecond: for
    a task of complexity 0.875 stored at instant 0 under the base TTL of
    24 hours the product 86400000 * 0.175 is 15119999.999999998, and the
    entry expires at 15119999 ms. *)
Lemma expiry_is_cut :
  calculateExpiration
    (Scenario.consultationOn (with_complexity (Some 0.875%float) empty_task))
    (Scenario.fresh 0)
  = Return 15119999.
Proof. vm_compute. reflexivity. Qed.

(** C5 as stated fails: for a task of complexity 0 the stated TTL,
    base TTL * min(0 / 5, 2), is 0, yet the entry expires 24 hours after
    it was stored, and a retrieval one millisecond after it was stored
    returns it. *)
Lemma zero_complexity_outlives_stated_ttl :
  let c := Scenario.zeroComplexityConsultation in
  let s := Scenario.fresh 0 in
  let statedTtl := Spec.timeToLive (parseTimeString (cacheExpiration s)) 0 in
  complexity (task c) = Some 0%float
  /\ statedTtl = 0%float
  /\ exists entry s1,
       cacheSpecialistConsultation c s = (Return entry, s1)
       /\ expirationTime entry = 86400000
       /\ fst (retrieveSpecialistCache (task c) (specialist c) (set_now 1 s1))
          = Some entry
       /\ ~ (fst (retrieveSpecialistCache (task c) (specialist c) (set_now 1 s1))
             = None).
Proof.
  intros c s statedTtl.
  split; [reflexivity |]. split; [vm_compute; reflexivity |].
  eexists. eexists. split; [vm_compute; reflexivity |].
  split; [reflexivity |].
  split; [vm_compute; reflexivity |].
  intros H. vm_compute in H. discriminate.
Qed.

End CacheFacts.

(** ** The pipeline *)

Module PipelineFacts.

Import SubAgentOrchestrator StateUpdate Observe.

(** *** Where the pipeline throws *)

Lemma generateSpecialistRecommendation_throws (t : Task) (specialist : Specialist)
  (specialistInfo : option SpecialistInfo) (patterns : list Pattern) :
  generateSpecialistRecommendation t specialist specialistInfo patterns
  = Throw (Missing.notAFunction "this.generateConsiderations").
Proof. reflexivity. Qed.

Lemma executeSpecialistConsultation_throws (t : Task) (routing : RoutingDecision)
  (s : State) :
  executeSpecialistConsultation t routing s
  = (Thrown (Missing.notAFunction "this.generateConsiderations"),
     snd (ContextManager.getRelevantPatterns t s)).
Proof. reflexivity. Qed.

Lemma handleTaskFailure_throws (self : Task -> Options -> Exec TaskOutcome)
  (taskId : string) (t : Task) (error : JsError) (startTime : Z) (s : State) :
  handleTaskFailure self taskId t error startTime s
  = (Thrown (Missing.notAFunction "this.checkPerformanceIssues"), s).
Proof. reflexivity. Qed.

(** *** What the steps of the pipeline leave alone *)

Lemma retrieveSpecialistCache_frame (t : Task) (specialist : Specialist) (s : State) :
  let s' := snd (ContextManager.retrieveSpecialistCache t specialist s) in
  calls s' = calls s
  /\ patternLibrary s' = patternLibrary s
  /\ incl (specialistCache s') (specialistCache s).
Proof.
  unfold ContextManager.retrieveSpecialistCache.
  destruct (JsMap.get String.eqb _ (specialistCache s)) as [entry |].
  - destruct (ContextManager.isCacheExpired entry s); cbn [snd].
    + repeat split. cbn [specialistCache set_specialistCache].
      unfold JsMap.delete. apply incl_filter.
    + repeat split. apply incl_refl.
  - repeat split. apply incl_refl.
Qed.

Lemma unscored_with_relevance (r : float) (p : Pattern) :
  unscored (ContextManager.with_relevance r p) = unscored p.
Proof. reflexivity. Qed.

Lemma getRelevantPatterns_frame (t : Task) (s : State) :
  let s' := snd (ContextManager.getRelevantPatterns t s) in
  calls s' = calls s
  /\ patterns_of s' = patterns_of s
  /\ specialistCache s' = specialistCache s.
Proof.
  repeat split. unfold patterns_of, ContextManager.getRelevantPatterns.
  cbn [snd patternLibrary set_patternLibrary]. rewrite map_map.
  apply map_ext. intros [id p]. reflexivity.
Qed.

Lemma entries_app (l l' : list Call) : entries (l ++ l') = (entries l + entries l')%nat.
Proof. unfold entries. now rewrite filter_app, length_app. Qed.

(** *** One entry into the pipeline *)

(** What a call of [processTask] leaves behind: one more entry in the log
    and no written consultation, a cache that has gained no entry, and a
    pattern library that has changed in relevance scores at most. *)
Lemma processTaskBody_effects (self : Task -> Options -> Exec TaskOutcome)
  (t : Task) (options : Options) (s : State) :
  let r := processTaskBody self t options s in
  completed (fst r) = true
  /\ calls (snd r) = (calls s ++ [CallProcessTask (fst (generateTaskId s)) t])%list
  /\ incl (specialistCache (snd r)) (specialistCache s)
  /\ patterns_of (snd r) = patterns_of s
  /\ match fst r with
     | Returned (Completed _ _ _ _ quality _) => quality = None
     | _ => True
     end.
Proof.
  unfold processTaskBody, Exec.bind, Exec.call, Exec.read, Exec.update, Exec.try_catch.
  cbv zeta.
  set (taskId := fst (generateTaskId s)).
  change (generateTaskId s) with (taskId, set_draws (S (draws s)) s).
  cbv iota beta.
  set (s1 := record (CallProcessTask taskId t) (set_draws (S (draws s)) s)).
  destruct (TaskRouter.route _ t _) as [routing | error].
  2:{ rewrite handleTaskFailure_throws. cbn [fst snd completed].
      repeat split; try reflexivity. apply incl_refl. }
  destruct (retrieveSpecialistCache_frame t (routing_specialist routing) s1)
    as [Hcalls [Hlibrary Hcache]].
  cbv zeta in Hcalls, Hlibrary, Hcache.
  destruct (ContextManager.retrieveSpecialistCache t (routing_specialist routing) s1)
    as [cachedResult s2].
  cbn [snd] in Hcalls, Hlibrary, Hcache.
  assert (Hpatterns : patterns_of s2 = patterns_of s).
  { unfold patterns_of. now rewrite Hlibrary. }
  destruct (usable cachedResult options) as [entry |].
  { cbn [fst snd completed]. repeat split; assumption. }
  unfold execute, Exec.bind, Exec.ret, Exec.read, Exec.update.
  destruct (String.eqb (tier (TaskComplexityAnalyzer.analyzeTask t)) "DIRECT").
  { cbn [fst snd completed]. repeat split; assumption. }
  rewrite executeSpecialistConsultation_throws.
  rewrite handleTaskFailure_throws. cbn [fst snd completed].
  destruct (getRelevantPatterns_frame (ContextManager.sortedTags t) s2)
    as [Hcalls' [Hpatterns' Hcache']].
  cbv zeta in Hcalls', Hpatterns', Hcache'.
  rewrite Hcalls', Hpatterns', Hcache'.
  repeat split; assumption.
Qed.

(** The recursive call is never made: the result does not depend on it. *)
Lemma processTaskBody_self (self self' : Task -> Options -> Exec TaskOutcome)
  (t : Task) (options : Options) (s : State) :
  processTaskBody self t options s = processTaskBody self' t options s.
Proof.
  unfold processTaskBody, Exec.bind, Exec.call, Exec.read, Exec.update, Exec.try_catch.
  cbv zeta.
  change (generateTaskId s)
    with (fst (generateTaskId s), set_draws (S (draws s)) s).
  cbv iota beta.
  destruct (TaskRouter.route _ t _) as [routing | error].
  2:{ now rewrite !handleTaskFailure_throws. }
  destruct (ContextManager.retrieveSpecialistCache t (routing_specialist routing) _)
    as [cachedResult s2].
  destruct (usable cachedResult options) as [entry |]; [reflexivity |].
  unfold execute, Exec.bind, Exec.ret, Exec.read, Exec.update.
  destruct (String.eqb (tier (TaskComplexityAnalyzer.analyzeTask t)) "DIRECT");
    [reflexivity |].
  rewrite executeSpecialistConsultation_throws.
  now rewrite !handleTaskFailure_throws.
Qed.

Lemma processTask_one (fuel : nat) (t : Task) (options : Options) (s : State) :
  processTask (S fuel) t options s = processTask 1 t options s.
Proof. apply processTaskBody_self. Qed.

(** [autoEscalateTier] throws or answers [canEscalate: false]. *)
Lemma autoEscalateTier_cases (currentTier : string) (failure : Failure) :
  (exists e, ErrorRecoverySystem.autoEscalateTier currentTier failure = Throw e)
  \/ (exists reason,
        ErrorRecoverySystem.autoEscalateTier currentTier failure
        = Return (CannotEscalate reason)).
Proof.
  unfold ErrorRecoverySystem.autoEscalateTier.
  destruct (ErrorRecoverySystem.escalationFor currentTier) as [[to reason] |].
  - left. destruct (ErrorRecoverySystem.identifyRequiredExpertise failure);
      eexists; reflexivity.
  - right. eexists; reflexivity.
Qed.

(** [handleQualityFailure] completes without the recursive call. *)
Lemma handleQualityFailure_self (self self' : Task -> Options -> Exec TaskOutcome)
  (t : Task) (c : Consultation) (qualityValidation : QualityValidation) (s : State) :
  handleQualityFailure self t c qualityValidation s
  = handleQualityFailure self' t c qualityValidation s
  /\ completed (fst (handleQualityFailure self t c qualityValidation s)) = true.
Proof.
  unfold handleQualityFailure, Exec.bind, Exec.lift.
  destruct (autoEscalateTier_cases
              (consultationTier c)
              (mkFailure (Some "quality-validation-failure")
                         (Some (10 - qv_score qualityValidation * 10)%float)
                         (improvements qualityValidation)
                         JUndefined JUndefined JUndefined JUndefined JUndefined
                         None false false))
    as [[e E] | [reason E]]; rewrite E; split; reflexivity.
Qed.

(** C4.  For every task, every options and every state, [processTask]
    completes, by returning or by throwing, without a nested call of
    itself: with any bound on the nesting that admits the call at all the
    result is the one under the bound 1, and the pipeline has been
    entered exactly once, so that it is re-entered 0 times, within the
    bound of 4.  The quality gate is not reached, and
    [handleQualityFailure], called on any consultation and validation,
    completes without re-invoking [processTask] as well. *)
Theorem processTask_terminates (fuel : nat) (t : Task) (options : Options) (s : State)
  (c : Consultation) (qualityValidation : QualityValidation) :
  let r := processTask (S fuel) t options s in
  completed (fst r) = true
  /\ r = processTask 1 t options s
  /\ entries (calls (snd r)) = (entries (calls s) + 1)%nat
  /\ (entries (calls (snd r)) <= entries (calls s) + 1 + 4)%nat
  /\ handleQualityFailure (processTask fuel) t c qualityValidation s
     = handleQualityFailure (processTask 0) t c qualityValidation s
  /\ completed (fst (handleQualityFailure (processTask fuel) t c qualityValidation s))
     = true.
Proof.
  cbv zeta. rewrite processTask_one.
  destruct (processTaskBody_effects (processTask 0) t options s)
    as [Hdone [Hcalls _]].
  cbv zeta in Hdone, Hcalls.
  change (processTask 1 t options s) with (processTaskBody (processTask 0) t options s).
  split; [exact Hdone |]. split; [reflexivity |].
  rewrite Hcalls, entries_app. cbn [entries filter length].
  split; [lia |]. split; [lia |].
  apply handleQualityFailure_self.
Qed.

(** C8.  [processTask] writes no consultation: what it appends to the log
    of calls contains no call of [cacheSpecialistConsultation] or
    [storeSuccessPattern], so every consultation it hands to one of them
    has a validation that passed every bar; every entry of the cache
    after the call was there before it; the pattern library holds the
    patterns it held, relevance scores apart; and a task that completes
    has no validated consultation.  This holds of every state that the
    call reaches, under every bound on the nesting. *)
Theorem processTask_writes_nothing (fuel : nat) (t : Task) (options : Options)
  (s : State) :
  let r := processTask fuel t options s in
  (exists added,
     calls (snd r) = (calls s ++ added)%list
     /\ Forall (fun call => written call = None) added
     /\ forall call c, In call added -> written call = Some c -> passedEveryBar c)
  /\ incl (specialistCache (snd r)) (specialistCache s)
  /\ patterns_of (snd r) = patterns_of s
  /\ match fst r with
     | Returned (Completed _ _ _ _ quality _) => quality = None
     | _ => True
     end.
Proof.
  destruct fuel as [| fuel]; cbv zeta.
  - cbn [processTask fst snd]. split.
    + exists []. rewrite app_nil_r. split; [reflexivity |].
      split; [constructor | intros call c []].
    + split; [apply incl_refl |]. split; reflexivity || exact I.
  - rewrite processTask_one.
    change (processTask 1 t options s) with (processTaskBody (processTask 0) t options s).
    destruct (processTaskBody_effects (processTask 0) t options s)
      as [_ [Hcalls [Hcache [Hpatterns Hquality]]]].
    cbv zeta in Hcalls, Hcache, Hpatterns, Hquality.
    split.
    + exists [CallProcessTask (fst (generateTaskId s)) t].
      split; [exact Hcalls |].
      split; [repeat constructor |].
      intros call c [<- | []]. discriminate.
    + split; [exact Hcache |]. split; [exact Hpatterns | exact Hquality].
Qed.

(** The task [{description: "Sync leads", integrations: ["crm"]}] is
    routed to a specialist; the consultation throws, and so does the
    handling of the failure. *)
Lemma consultation_is_rejected :
  fst (processTask 1 Scenario.integrationTask no_options (Scenario.fresh 0))
  = Thrown (Missing.notAFunction "this.checkPerformanceIssues").
Proof. vm_compute. reflexivity. Qed.

End PipelineFacts.

(** ** The specialist catalogue *)

Module CatalogueFacts.

Import TaskRouter Observe.

Lemma tier_is_named (t : Task) :
  In (tier (TaskComplexityAnalyzer.analyzeTask t)) tierNames.
Proof.
  unfold TaskComplexityAnalyzer.analyzeTask, TaskComplexityAnalyzer.calculateOverallComplexity.
  cbn [tier]. unfold tierNames.
  repeat match goal with |- context [if ?c then _ else _] => destruct c end;
    cbn; tauto.
Qed.

Ltac split_key key :=
  repeat match goal with
         | |- context [String.eqb ?k key] => destruct (String.eqb_spec k key) as [<- | _]
         end.

Lemma listed_are_registered (domain tier : string) (names : list string) :
  getSpecialistsForDomain domain tier = Listed names ->
  forallb (registeredAt tier) names = true.
Proof.
  unfold getSpecialistsForDomain, specialistMapping. cbn [Js.assoc].
  split_key tier; cbn [entryMember Js.assoc]; split_key domain;
    try destruct (Js.assoc domain Proto.objectMembers);
    try destruct (Js.assoc domain Proto.arrayMembers);
    cbn [option_map]; intros [= <-]; reflexivity.
Qed.

Lemma insert_desc_in (x y : string * Q) (l : list (string * Q)) :
  In y (insert_desc x l) -> x = y \/ In y l.
Proof.
  induction l as [| z r IH]; cbn [insert_desc In]; [tauto |].
  destruct (Qle_bool (snd z) (snd x)); cbn [In]; [tauto |].
  intros [-> | H]; [tauto | destruct (IH H); tauto].
Qed.

Lemma sort_desc_in (y : string * Q) (l : list (string * Q)) :
  In y (sort_desc l) -> In y l.
Proof.
  induction l as [| x r IH]; cbn [sort_desc fold_right In]; [tauto |].
  intros H. apply insert_desc_in in H. destruct H as [<- | H]; [now left | right].
  now apply IH.
Qed.

(** The specialist that [selectBestSpecialist] names is one of the candidates. *)
Lemma selectBestSpecialist_in (names : list string) (t : Task)
  (complexity : ComplexityAnalysis) (name : string) :
  selectBestSpecialist (Listed names) t complexity = Return (Named name) ->
  In name names.
Proof.
  unfold selectBestSpecialist.
  destruct names as [| a [| b r]]; [discriminate | intros [= <-]; now left |].
  set (scores := map _ _).
  destruct (sort_desc scores) as [| [s q] rest] eqn:E; [discriminate |].
  intros [= <-].
  assert (H : In (s, q) scores).
  { apply sort_desc_in. rewrite E. now left. }
  apply in_map_iff in H. destruct H as [x [[= <- _] Hx]]. exact Hx.
Qed.

(** What a returned decision records of the selection. *)
Lemma route_selects (now : Z) (t : Task) (context : RouteContext) (r : RoutingDecision) :
  route now t context = Return r ->
  selectSpecialist t (TaskComplexityAnalyzer.analyzeTask t)
  = Return (routing_specialist r)
  /\ routing_tier r = tier (TaskComplexityAnalyzer.analyzeTask t).
Proof.
  unfold route.
  destruct (selectSpecialist t (TaskComplexityAnalyzer.analyzeTask t)) as [sp | e];
    cbn [Completion.bind]; [| discriminate].
  intros E.
  pose proof (f_equal (fun c => match c with
                                | Return x => Some (routing_specialist x, routing_tier x)
                                | Throw _ => None
                                end) E) as P.
  cbv beta iota in P. cbn [routing_specialist routing_tier] in P.
  split; congruence.
Qed.

(** X1.  Every specialist that [TaskRouter.route] selects by name is an
    entry of [SpecialistRegistry] whose tier is the tier of the routing
    decision, and has a capability profile in the router. *)
Theorem selected_specialist_is_registered (now : Z) (t : Task) (context : RouteContext)
  (r : RoutingDecision) (name : string) :
  route now t context = Return r ->
  routing_specialist r = Named name ->
  exists info,
    SpecialistRegistry.getSpecialistCapabilities (Named name) = Some info
    /\ tierNumber (routing_tier r) = Some (specialist_tier info)
    /\ Js.assoc name capabilities <> None.
Proof.
  intros Hroute Hnamed.
  destruct (route_selects now t context r Hroute) as [Hselect Htier].
  rewrite Hnamed in Hselect. rewrite Htier.
  unfold selectSpecialist in Hselect.
  set (a := TaskComplexityAnalyzer.analyzeTask t) in *.
  destruct (getSpecialistsForDomain (identifyDomain t) (tier a)) as [names | m] eqn:E.
  2:{ unfold selectBestSpecialist in Hselect.
      destruct m as [[| [| |] |] |]; discriminate. }
  apply selectBestSpecialist_in in Hselect.
  pose proof (listed_are_registered _ _ _ E) as R.
  rewrite forallb_forall in R. specialize (R name Hselect).
  unfold registeredAt in R.
  destruct (SpecialistRegistry.getSpecialistCapabilities (Named name)) as [info |];
    [| discriminate].
  destruct (tierNumber (tier a)) as [n |]; [| discriminate].
  destruct (Js.assoc name capabilities); [| discriminate].
  exists info. apply Z.eqb_eq in R. subst n. repeat split. discriminate.
Qed.

(** The task [{description: "Sync leads", integrations: ["crm"]}] is
    routed to the architecture generalist, a specialist of tier 1. *)
Lemma selected_specialist_is_registered_witness :
  exists info,
    SpecialistRegistry.getSpecialistCapabilities (Named "architecture-generalist")
    = Some info
    /\ tierNumber "TIER_1" = Some (specialist_tier info)
    /\ Js.assoc "architecture-generalist" capabilities <> None.
Proof.
  destruct (route 0 Scenario.integrationTask
                  (mkRouteContext JUndefined "task_0_r0" no_options))
    as [r |] eqn:E; [| vm_compute in E; discriminate].
  destruct (route_selects _ _ _ _ E) as [Hs Ht].
  assert (Hs' : routing_specialist r = Named "architecture-generalist").
  { vm_compute in Hs. injection Hs as Hs. symmetry. exact Hs. }
  change (tier (TaskComplexityAnalyzer.analyzeTask Scenario.integrationTask))
    with "TIER_1" in Ht.
  rewrite <- Ht.
  exact (selected_specialist_is_registered 0 Scenario.integrationTask _ r _ E Hs').
Defined.

(** X2.  [TaskRouter.route] returns a decision for every task whose
    domain names no member that the entries of the specialist table
    inherit from their prototypes; its tier is one of the four tiers and
    is the tier of the analysis, and its quality checklist is the one of
    that tier. *)
Theorem route_returns_on_plain_domains (now : Z) (t : Task) (context : RouteContext) :
  plainDomain t = true ->
  exists r,
    route now t context = Return r
    /\ routing_complexity r = TaskComplexityAnalyzer.analyzeTask t
    /\ routing_tier r = tier (TaskComplexityAnalyzer.analyzeTask t)
    /\ In (routing_tier r) tierNames
    /\ qualityChecks r = getQualityChecks (routing_tier r)
    /\ routing_timestamp r = now.
Proof.
  unfold plainDomain.
  destruct (Js.assoc (identifyDomain t) Proto.objectMembers) eqn:Ho; [discriminate |].
  destruct (Js.assoc (identifyDomain t) Proto.arrayMembers) eqn:Ha; [discriminate |].
  intros _. unfold route, selectSpecialist.
  set (a := TaskComplexityAnalyzer.analyzeTask t).
  assert (Hlisted : exists names,
             getSpecialistsForDomain (identifyDomain t) (tier a) = Listed names).
  { unfold getSpecialistsForDomain.
    destruct (Js.assoc (tier a) specialistMapping) as [[table |] |];
      unfold entryMember; rewrite ?Ho, ?Ha; cbn [option_map];
      [| eexists; reflexivity ..].
    destruct (Js.assoc (identifyDomain t) table); [eexists; reflexivity |].
    destruct (Js.assoc "general" table); [eexists; reflexivity |].
    cbn. eexists; reflexivity. }
  destruct Hlisted as [names ->].
  assert (Hbest : exists sp, selectBestSpecialist (Listed names) t a = Return sp).
  { unfold selectBestSpecialist. destruct names as [| x [| y l]]; try (eexists; reflexivity).
    destruct (sort_desc _) as [| [s q] rest]; eexists; reflexivity. }
  destruct Hbest as [sp ->]. cbn [Completion.bind].
  eexists. split; [reflexivity |].
  cbn [routing_complexity routing_tier qualityChecks routing_timestamp].
  repeat split. apply tier_is_named.
Qed.

Lemma route_returns_on_plain_domains_witness :
  exists r, route 0 Scenario.integrationTask
                  (mkRouteContext JUndefined "task_0_r0" no_options) = Return r
            /\ routing_tier r = "TIER_1".
Proof.
  destruct (route_returns_on_plain_domains
              0 Scenario.integrationTask
              (mkRouteContext JUndefined "task_0_r0" no_options) eq_refl)
    as [r [E [_ [Ht _]]]].
  exists r. split; [exact E | rewrite Ht; reflexivity].
Defined.

(** A task whose domain is [__proto__], analysed as TIER_3, finds
    [Object.prototype] in the table of the tier: [route] throws. *)
Lemma route_throws_on_inherited_domain :
  route 0 Scenario.protoTask (mkRouteContext JUndefined "task_0_r0" no_options)
  = Throw (Missing.notAFunction "specialists.map").
Proof. reflexivity. Qed.

End CatalogueFacts.

(** ** The order of the tiers *)

Module OrderFacts.

Import TaskComplexityAnalyzer Observe.

Lemma tierRank_of_score (s t d r : Z) :
  let q := (inject_Z s * (3 # 10) + inject_Z t * (3 # 10)
            + inject_Z d * (1 # 4) + inject_Z r * (15 # 100))%Q in
  tierRank (tier (calculateOverallComplexity (mkComplexity s t (Some d) r)))
  = if Qle_bool q 3 then 0%nat
    else if Qle_bool q 6 then 1%nat
    else if Qle_bool q 8 then 2%nat else 3%nat.
Proof.
  cbv zeta. unfold calculateOverallComplexity.
  cbn [tier c_scope c_technical c_domain c_risk Num.add Num.mul Num.of_score option_map
       Num.leb].
  repeat match goal with |- context [if Qle_bool ?a ?b then _ else _] =>
                           destruct (Qle_bool a b) end; reflexivity.
Qed.

(** X3.  The tier is monotone in the sub-scores: of two tasks whose
    domain and compliance tags are plain keys, the one that is at least
    as complex in scope, technology, domain and risk is never given the
    lower tier, in exact arithmetic and in double precision alike. *)
Theorem tier_is_monotone (t1 t2 : Task) :
  let b1 := breakdown (analyzeTask t1) in
  let b2 := breakdown (analyzeTask t2) in
  Spec.plainKeys t1 -> Spec.plainKeys t2 ->
  c_scope b1 <= c_scope b2 ->
  c_technical b1 <= c_technical b2 ->
  (forall d1 d2, c_domain b1 = Some d1 -> c_domain b2 = Some d2 -> d1 <= d2) ->
  c_risk b1 <= c_risk b2 ->
  (tierRank (tier (analyzeTask t1)) <= tierRank (tier (analyzeTask t2)))%nat
  /\ (tierRank (F64.tier (F64.overallScore b1))
      <= tierRank (F64.tier (F64.overallScore b2)))%nat.
Proof.
  cbv zeta. unfold analyzeTask.
  intros P1 P2.
  destruct (AnalyzerFacts.analyzeDomainComplexity_range t1 P1) as [d1 [E1 R1]].
  destruct (AnalyzerFacts.analyzeDomainComplexity_range t2 P2) as [d2 [E2 R2]].
  rewrite E1, E2.
  pose proof (AnalyzerFacts.analyzeScopeComplexity_range t1) as S1.
  pose proof (AnalyzerFacts.analyzeScopeComplexity_range t2) as S2.
  pose proof (AnalyzerFacts.analyzeTechnicalComplexity_range t1) as T1.
  pose proof (AnalyzerFacts.analyzeTechnicalComplexity_range t2) as T2.
  pose proof (AnalyzerFacts.analyzeRiskLevel_range t1) as K1.
  pose proof (AnalyzerFacts.analyzeRiskLevel_range t2) as K2.
  set (s1 := analyzeScopeComplexity t1) in *. set (s2 := analyzeScopeComplexity t2) in *.
  set (c1 := analyzeTechnicalComplexity t1) in *.
  set (c2 := analyzeTechnicalComplexity t2) in *.
  set (r1 := analyzeRiskLevel t1) in *. set (r2 := analyzeRiskLevel t2) in *.
  change (breakdown (calculateOverallComplexity ?c)) with c.
  cbn [c_scope c_technical c_domain c_risk].
  intros Hs Hc Hd Hr. specialize (Hd d1 d2 eq_refl eq_refl).
  assert (Hexact : (tierRank (tier (calculateOverallComplexity
                                      (mkComplexity s1 c1 (Some d1) r1)))
                    <= tierRank (tier (calculateOverallComplexity
                                         (mkComplexity s2 c2 (Some d2) r2))))%nat).
  { rewrite !tierRank_of_score. cbv zeta.
    rewrite Zle_Qle in Hs, Hc, Hd, Hr.
    set (q1 := (inject_Z s1 * (3 # 10) + inject_Z c1 * (3 # 10)
                + inject_Z d1 * (1 # 4) + inject_Z r1 * (15 # 100))%Q).
    set (q2 := (inject_Z s2 * (3 # 10) + inject_Z c2 * (3 # 10)
                + inject_Z d2 * (1 # 4) + inject_Z r2 * (15 # 100))%Q).
    assert (Hq : (q1 <= q2)%Q) by (subst q1 q2; lra).
    assert (Hle : forall b : Q, Qle_bool q2 b = true -> Qle_bool q1 b = true).
    { intros b H. apply Qle_bool_iff in H. apply Qle_bool_iff. lra. }
    destruct (Qle_bool q2 3) eqn:E3; [rewrite (Hle 3%Q E3); lia |].
    destruct (Qle_bool q2 6) eqn:E6;
      [rewrite (Hle 6%Q E6); destruct (Qle_bool q1 3); lia |].
    destruct (Qle_bool q2 8) eqn:E8;
      [rewrite (Hle 8%Q E8); destruct (Qle_bool q1 3), (Qle_bool q1 6); lia |].
    destruct (Qle_bool q1 3), (Qle_bool q1 6), (Qle_bool q1 8); lia. }
  split; [exact Hexact |].
  pose proof (AnalyzerFacts.f64_agrees_in_range S1 T1 R1 K1) as A1.
  pose proof (AnalyzerFacts.f64_agrees_in_range S2 T2 R2 K2) as A2.
  unfold Observe.f64_agrees in A1, A2.
  apply andb_true_iff in A1, A2. destruct A1 as [A1 _], A2 as [A2 _].
  apply andb_true_iff in A1, A2. destruct A1 as [A1 _], A2 as [A2 _].
  apply String.eqb_eq in A1, A2. rewrite A1, A2. exact Hexact.
Qed.

(** The empty task against the enterprise task: DIRECT against TIER_1. *)
Lemma tier_is_monotone_witness :
  (tierRank (tier (analyzeTask empty_task))
   <= tierRank (tier (analyzeTask Scenario.enterpriseTask)))%nat
  /\ (tierRank (F64.tier (F64.overallScore (breakdown (analyzeTask empty_task))))
      <= tierRank (F64.tier (F64.overallScore
                               (breakdown (analyzeTask Scenario.enterpriseTask)))))%nat.
Proof.
  apply (tier_is_monotone empty_task Scenario.enterpriseTask).
  - split; [intros d H; discriminate | intros tags tag H; discriminate].
  - split; [intros d H; discriminate | intros tags tag H; discriminate].
  - vm_compute. discriminate.
  - vm_compute. discriminate.
  - intros d1 d2 H1 H2. vm_compute in H1, H2.
    injection H1 as <-. injection H2 as <-. lia.
  - vm_compute. discriminate.
Defined.

End OrderFacts.

(** ** The viability check *)

Module ViabilityFacts.

Import QualityAssurance.


End ViabilityFacts.

(** ** Bounded stores *)

Module BoundFacts.

Import SubAgentOrchestrator StateUpdate.

(** A key that the map holds is overwritten in place. *)
Lemma set_present {V : Type} (k : string) (v w : V) (m : list (string * V)) :
  JsMap.get String.eqb k m = Some w ->
  length (JsMap.set String.eqb k v m) = length m.
Proof.
  induction m as [| [k' v'] r IH]; cbn [JsMap.get JsMap.set length]; [discriminate |].
  destruct (String.eqb k' k); cbn [length]; [reflexivity |].
  intros H. now rewrite IH.
Qed.

(** A key that the map does not hold is appended. *)
Lemma set_absent {V : Type} (k : string) (v : V) (m : list (string * V)) :
  JsMap.get String.eqb k m = None ->
  JsMap.set String.eqb k v m = (m ++ [(k, v)])%list.
Proof.
  induction m as [| [k' v'] r IH]; cbn [JsMap.get JsMap.set app]; [reflexivity |].
  destruct (String.eqb k' k); [discriminate |].
  intros H. now rewrite IH.
Qed.

Lemma get_skipn_absent {V : Type} (k : string) (n : nat) (m : list (string * V)) :
  JsMap.get String.eqb k m = None -> JsMap.get String.eqb k (skipn n m) = None.
Proof.
  revert n. induction m as [| [k' v'] r IH]; intros [| n]; cbn [skipn JsMap.get];
    try reflexivity; try (intros H; exact H).
  destruct (String.eqb k' k); [discriminate |]. apply IH.
Qed.

Lemma get_app_absent {V : Type} (k : string) (v : V) (m : list (string * V)) :
  JsMap.get String.eqb k m = None ->
  JsMap.get String.eqb k (m ++ [(k, v)]) = Some v.
Proof.
  induction m as [| [k' v'] r IH]; cbn [JsMap.get app].
  - now rewrite String.eqb_refl.
  - destruct (String.eqb k' k); [discriminate |]. exact IH.
Qed.

Lemma last_n_length {A : Type} (n : nat) (l : list A) :
  (length (ErrorRecoverySystem.last_n n l) <= n)%nat.
Proof. unfold ErrorRecoverySystem.last_n. rewrite length_skipn. lia. Qed.

(** X5.  [updatePerformanceMetrics] keeps the table of metrics within
    1000 entries, and the metrics it has just recorded are found under
    the id of the task. *)
Theorem updatePerformanceMetrics_bounded (taskId : string) (metrics : Metrics)
  (s : State) :
  (length (performanceMetrics s) <= 1000)%nat ->
  let s' := updatePerformanceMetrics taskId metrics s in
  (length (performanceMetrics s') <= 1000)%nat
  /\ JsMap.get String.eqb taskId (performanceMetrics s') = Some metrics.
Proof.
  intros Hbound. unfold updatePerformanceMetrics.
  cbn [performanceMetrics set_performanceMetrics].
  destruct (1000 <? length (JsMap.set String.eqb taskId metrics (performanceMetrics s)))%nat
    eqn:Hover.
  - apply Nat.ltb_lt in Hover. split.
    + pose proof (last_n_length 500 (JsMap.set String.eqb taskId metrics
                                               (performanceMetrics s))). lia.
    + destruct (JsMap.get String.eqb taskId (performanceMetrics s)) as [w |] eqn:Hget.
      * rewrite (set_present _ metrics _ _ Hget) in Hover. lia.
      * rewrite (set_absent _ metrics _ Hget) in *.
        unfold ErrorRecoverySystem.last_n.
        rewrite length_app in *. cbn [length] in *.
        rewrite skipn_app.
        replace (length (performanceMetrics s) + 1 - 500 - length (performanceMetrics s))%nat
          with 0%nat by lia.
        cbn [skipn]. apply get_app_absent. now apply get_skipn_absent.
  - apply Nat.ltb_ge in Hover. split; [exact Hover | apply MapFacts.get_set_eq].
Qed.

(** The first metrics recorded in an empty table are found. *)
Lemma updatePerformanceMetrics_bounded_witness :
  let m := finished (TaskComplexityAnalyzer.analyzeTask Scenario.renameTask) 0
                    (F64.of_Q (9 # 10)) 0 in
  let s' := updatePerformanceMetrics "task_0_r0" m (Scenario.fresh 0) in
  (length (performanceMetrics s') <= 1000)%nat
  /\ JsMap.get String.eqb "task_0_r0" (performanceMetrics s') = Some m.
Proof.
  intros m.
  apply (updatePerformanceMetrics_bounded "task_0_r0" m (Scenario.fresh 0)).
  cbn. lia.
Defined.

(** X6.  [recordLearningEvent] keeps the feedback history within 1000
    events, and the event it has just recorded is the last one. *)
Theorem recordLearningEvent_bounded (eventType : string) (data : JsValue) (s : State) :
  (length (feedbackHistory s) <= 1000)%nat ->
  let s' := ErrorRecoverySystem.recordLearningEvent eventType data s in
  (length (feedbackHistory s') <= 1000)%nat
  /\ exists earlier event,
       feedbackHistory s' = (earlier ++ [event])%list
       /\ learning_type event = eventType.
Proof.
  intros Hbound. unfold ErrorRecoverySystem.recordLearningEvent.
  cbn [feedbackHistory set_feedbackHistory].
  set (event := mkLearningEvent eventType data (now s)
                                ErrorRecoverySystem.captureSystemState).
  destruct (1000 <? length (feedbackHistory s ++ [event]))%nat eqn:Hover.
  - split.
    + pose proof (last_n_length 500 (feedbackHistory s ++ [event])). lia.
    + apply Nat.ltb_lt in Hover. rewrite length_app in Hover. cbn [length] in Hover.
      unfold ErrorRecoverySystem.last_n. rewrite skipn_app, length_app. cbn [length].
      replace (length (feedbackHistory s) + 1 - 500 - length (feedbackHistory s))%nat
        with 0%nat by lia.
      cbn [skipn]. eexists _, event. split; reflexivity.
  - apply Nat.ltb_ge in Hover. split; [exact Hover |].
    exists (feedbackHistory s), event. split; reflexivity.
Qed.

(** The first event recorded in an empty history. *)
Lemma recordLearningEvent_bounded_witness :
  let s' := ErrorRecoverySystem.recordLearningEvent "user_dissatisfaction" JUndefined
                                                    (Scenario.fresh 0) in
  (length (feedbackHistory s') <= 1000)%nat
  /\ exists earlier event,
       feedbackHistory s' = (earlier ++ [event])%list
       /\ learning_type event = "user_dissatisfaction".
Proof.
  apply (recordLearningEvent_bounded "user_dissatisfaction" JUndefined (Scenario.fresh 0)).
  cbn. lia.
Defined.

(** X7.  The urgency of a failure lies between 1 and 5. *)
Theorem calculateUrgency_range (failure : Failure) :
  1 <= ErrorRecoverySystem.calculateUrgency failure <= 5.
Proof.
  unfold ErrorRecoverySystem.calculateUrgency.
  repeat match goal with |- context [if ?c then _ else _] => destruct c end; lia.
Qed.

End BoundFacts.

(** ** The outcomes of the pipeline *)

Module OutcomeFacts.

Import SubAgentOrchestrator StateUpdate.

(** X8.  The four outcomes of [processTask].  With [id] the id drawn for
    the task: when [TaskRouter.route] throws, the call throws, at
    [this.checkPerformanceIssues] in the handling of the failure; when
    the cache holds a usable entry, the call returns it, in the state
    that the lookup has left; otherwise a task of tier DIRECT completes
    with the direct implementation and its metrics are recorded under
    [id], and a task of any other tier makes the call throw, at
    [this.checkPerformanceIssues] again. *)
Theorem processTask_outcome (fuel : nat) (t : Task) (options : Options) (s : State) :
  let id := fst (generateTaskId s) in
  let s1 := record (CallProcessTask id t) (snd (generateTaskId s)) in
  let rejected := Thrown (Missing.notAFunction "this.checkPerformanceIssues") in
  let analysis := TaskComplexityAnalyzer.analyzeTask t in
  let r := processTask (S fuel) t options s in
  match TaskRouter.route (now s) t (mkRouteContext (projectContext s) id options) with
  | Throw _ => r = (rejected, s1)
  | Return routing =>
      let found :=
        ContextManager.retrieveSpecialistCache t (routing_specialist routing) s1 in
      match usable (fst found) options with
      | Some entry =>
          r = (Returned (FromCache id (entry_recommendation entry)
                                   (entry_timestamp entry) (entry_specialist entry)
                                   (now s - entry_timestamp entry)),
               snd found)
      | None =>
          if String.eqb (tier analysis) "DIRECT"
          then r = (Returned (Completed id
                                (executeDirectImplementation (ContextManager.sortedTags t)
                                                             routing)
                                analysis routing None 0),
                    updatePerformanceMetrics
                      id (finished analysis 0 (F64.of_Q (9 # 10)) (now s)) (snd found))
          else fst r = rejected
      end
  end.
Proof.
  cbv zeta. rewrite PipelineFacts.processTask_one.
  change (processTask 1 t options s) with (processTaskBody (processTask 0) t options s).
  unfold processTaskBody, Exec.bind, Exec.call, Exec.read, Exec.update, Exec.try_catch.
  cbv zeta.
  set (id := fst (generateTaskId s)).
  change (generateTaskId s) with (id, set_draws (S (draws s)) s).
  cbv iota beta. cbn [snd].
  set (s1 := record (CallProcessTask id t) (set_draws (S (draws s)) s)).
  change (now (set_draws (S (draws s)) s)) with (now s).
  change (ContextManager.getProjectContext s1) with (projectContext s).
  destruct (TaskRouter.route (now s) t _) as [routing | error].
  2:{ now rewrite PipelineFacts.handleTaskFailure_throws. }
  assert (Hnow : now (snd (ContextManager.retrieveSpecialistCache
                             t (routing_specialist routing) s1)) = now s).
  { unfold ContextManager.retrieveSpecialistCache.
    destruct (JsMap.get String.eqb _ (specialistCache s1)) as [entry |];
      [destruct (ContextManager.isCacheExpired entry s1) |]; reflexivity. }
  destruct (ContextManager.retrieveSpecialistCache t (routing_specialist routing) s1)
    as [cachedResult s2].
  cbn [fst snd] in Hnow |- *.
  destruct (usable cachedResult options) as [entry |].
  { unfold formatCachedResult. now rewrite Hnow. }
  unfold execute, Exec.bind, Exec.ret, Exec.read, Exec.update.
  destruct (String.eqb (tier (TaskComplexityAnalyzer.analyzeTask t)) "DIRECT").
  { now rewrite Hnow. }
  rewrite PipelineFacts.executeSpecialistConsultation_throws.
  now rewrite PipelineFacts.handleTaskFailure_throws.
Qed.

(** A lookup that finds an entry records the hit and changes nothing else. *)
Lemma retrieveSpecialistCache_hit (t : Task) (specialist : Specialist) (s s' : State)
  (entry : CacheEntry) :
  ContextManager.retrieveSpecialistCache t specialist s = (Some entry, s') ->
  s' = ContextManager.recordCacheHit (ContextManager.generateCacheKey t specialist) s.
Proof.
  unfold ContextManager.retrieveSpecialistCache.
  destruct (JsMap.get String.eqb _ (specialistCache s)) as [found |];
    [destruct (ContextManager.isCacheExpired found s) |]; congruence.
Qed.

Lemma usable_some (cachedResult : option CacheEntry) (options : Options)
  (entry : CacheEntry) :
  usable cachedResult options = Some entry -> cachedResult = Some entry.
Proof. unfold usable. destruct (useCache options) as [[|] |]; congruence. Qed.

(** X9.  An answer from the cache carries the id drawn for the task,
    leaves the metrics of tasks as they were and adds one [cache_hit]
    event to the analytics; so feedback on it, under an id that had no
    metrics, throws ['Task <id> not found']. *)
Theorem cached_answer_takes_no_feedback (fuel : nat) (t : Task) (options : Options)
  (s : State) (id : string) (result : JsValue) (timestamp : Z)
  (specialist : Specialist) (age : Z) (feedback : Feedback) :
  let r := processTask (S fuel) t options s in
  fst r = Returned (FromCache id result timestamp specialist age) ->
  id = fst (generateTaskId s)
  /\ performanceMetrics (snd r) = performanceMetrics s
  /\ (exists key,
        analyticsEvents (snd r)
        = (analyticsEvents s ++ [mkAnalyticsEvent "cache_hit" key (now s)])%list)
  /\ (JsMap.get String.eqb id (performanceMetrics s) = None ->
      processFeedback id feedback (snd r)
      = (Thrown (Error ("Task " ++ id ++ " not found")), snd r)).
Proof.
  cbv zeta. rewrite PipelineFacts.processTask_one.
  change (processTask 1 t options s) with (processTaskBody (processTask 0) t options s).
  unfold processTaskBody, Exec.bind, Exec.call, Exec.read, Exec.update, Exec.try_catch.
  cbv zeta.
  set (id0 := fst (generateTaskId s)).
  change (generateTaskId s) with (id0, set_draws (S (draws s)) s).
  cbv iota beta. cbn [snd].
  set (s1 := record (CallProcessTask id0 t) (set_draws (S (draws s)) s)).
  destruct (TaskRouter.route _ t _) as [routing | error].
  2:{ rewrite PipelineFacts.handleTaskFailure_throws. discriminate. }
  destruct (ContextManager.retrieveSpecialistCache t (routing_specialist routing) s1)
    as [cachedResult s2] eqn:R.
  destruct (usable cachedResult options) as [entry |] eqn:U.
  - apply usable_some in U. subst cachedResult.
    apply retrieveSpecialistCache_hit in R. subst s2.
    cbn [fst snd]. unfold formatCachedResult. intros [= <- _ _ _ _].
    split; [reflexivity |]. split; [reflexivity |].
    split; [eexists; reflexivity |].
    intros Hnone. unfold processFeedback, Exec.bind, Exec.read.
    change (performanceMetrics (ContextManager.recordCacheHit _ s1))
      with (performanceMetrics s).
    now rewrite Hnone.
  - unfold execute, Exec.bind, Exec.ret, Exec.read, Exec.update.
    destruct (String.eqb (tier (TaskComplexityAnalyzer.analyzeTask t)) "DIRECT");
      [discriminate |].
    rewrite PipelineFacts.executeSpecialistConsultation_throws,
      PipelineFacts.handleTaskFailure_throws. discriminate.
Qed.

(** A consultation on the task [{description: "Rename a variable",
    files: ["a.js"]}] stored at instant 0 answers the same task from the
    cache; feedback on the answer finds no task. *)
Lemma cached_answer_takes_no_feedback_witness :
  let stored :=
    snd (ContextManager.cacheSpecialistConsultation Scenario.directConsultation
                                                    (Scenario.fresh 0)) in
  let r := processTask 1 Scenario.renameTask no_options stored in
  fst r = Returned (FromCache "task_0_r0" Scenario.thoroughRecommendation 0 Null 0)
  /\ processFeedback "task_0_r0" Scenario.happy (snd r)
     = (Thrown (Error "Task task_0_r0 not found"), snd r).
Proof.
  cbv zeta.
  assert (H : fst (processTask 1 Scenario.renameTask no_options
                     (snd (ContextManager.cacheSpecialistConsultation
                             Scenario.directConsultation (Scenario.fresh 0))))
              = Returned (FromCache "task_0_r0" Scenario.thoroughRecommendation 0 Null 0))
    by (vm_compute; reflexivity).
  split; [exact H |].
  destruct (cached_answer_takes_no_feedback 0 _ _ _ _ _ _ _ _ Scenario.happy H)
    as [_ [_ [_ Hfb]]].
  apply Hfb. reflexivity.
Defined.

End OutcomeFacts.
